(** * Data-Job-Vacancy-Insight: the reporting-data fetch-and-validate layer

    A shallow embedding of [utils/dashboard_utils.py] (class [FetchReportData]
    and the two tool-trend reductions of [CreateReportChart]) and of the fetch
    wrappers and [load_home_page_data] of
    [src/dashboard_src/pages/home_pages.py].

    Python control flow is modelled by a state-and-exception monad over the
    logger, the connection flag and the list of issued queries; SQL scalar
    expressions are modelled over rationals with NULL as [None]; pandas frames
    are lists of rows, the date conversions of pandas are an interface, and
    the sums of an int64 column wrap around. *)

From Stdlib Require Import List String Ascii Bool ZArith NArith QArith Lia.
From Stdlib Require Import Permutation Sorting.Sorted.
Import ListNotations.

Local Open Scope string_scope.
Local Open Scope Z_scope.

(** ** Python outcomes *)

Inductive exn : Type :=
| AttributeError
| ConnectionError
| DatabaseError
| IndexError
| TypeError
| UnboundLocalError
| ValueError.

Inductive outcome (A : Type) : Type :=
| Return (a : A)
| Raise (e : exn).

Arguments Return {A} a.
Arguments Raise {A} e.

Definition outcome_bind {A B : Type} (o : outcome A) (k : A -> outcome B) : outcome B :=
  match o with
  | Return a => k a
  | Raise e => Raise e
  end.

Definition outcome_map {A B : Type} (f : A -> B) (o : outcome A) : outcome B :=
  outcome_bind o (fun a => Return (f a)).

(** [[f(x) for x in l]], stopping at the first exception. *)
Fixpoint outcome_mapM {A B : Type} (f : A -> outcome B) (l : list A) : outcome (list B) :=
  match l with
  | [] => Return []
  | x :: r =>
      outcome_bind (f x) (fun y =>
      outcome_bind (outcome_mapM f r) (fun ys => Return (y :: ys)))
  end.

(** [xs[0]] *)
Definition index0 {A : Type} (xs : list A) : outcome A :=
  match xs with
  | [] => Raise IndexError
  | x :: _ => Return x
  end.

(** ** Company-name normalisation ([adjust_company_name]) *)

Module CompanyName.

Definition underscore : ascii := "_"%char.
Definition lparen : ascii := "("%char.
Definition rparen : ascii := ")"%char.
Definition newline : ascii := "010"%char.

(** [c in name] *)
Fixpoint contains (c : ascii) (name : string) : bool :=
  match name with
  | EmptyString => false
  | String a r => if Ascii.eqb a c then true else contains c r
  end.

(** [name.split(c)]: the pieces between the occurrences of [c]. *)
Fixpoint split (c : ascii) (name : string) : list string :=
  match name with
  | EmptyString => [EmptyString]
  | String a r =>
      if Ascii.eqb a c then EmptyString :: split c r
      else match split c r with
           | [] => [String a EmptyString]
           | p :: ps => String a p :: ps
           end
  end.

(** The tail [(.*?)\)] of the pattern, tried right after an opening
    parenthesis: the lazy group takes characters other than a newline up to
    the first closing parenthesis. *)
Fixpoint lazy_group (s : string) : option string :=
  match s with
  | EmptyString => None
  | String a r =>
      if Ascii.eqb a rparen then Some EmptyString
      else if Ascii.eqb a newline then None
      else match lazy_group r with
           | Some g => Some (String a g)
           | None => None
           end
  end.

(** [re.search(r'\((.*?)\)', name)]: the leftmost position where the
    pattern matches; the result is group 1 of the match object, [None] when
    there is no match. *)
Fixpoint re_search (name : string) : option string :=
  match name with
  | EmptyString => None
  | String a r =>
      if Ascii.eqb a lparen then
        match lazy_group r with
        | Some g => Some g
        | None => re_search r
        end
      else re_search r
  end.

(** [m.group(1)] on the result of [re.search]. *)
Definition group1 (m : option string) : outcome string :=
  match m with
  | Some g => Return g
  | None => Raise AttributeError
  end.

Definition adjust_company_name (name : string) : outcome string :=
  if contains underscore name then index0 (split underscore name)
  else if contains lparen name && contains rparen name then group1 (re_search name)
  else Return name.

(** The text before the first occurrence of [c] (the whole string when
    there is none). *)
Fixpoint before_first (c : ascii) (name : string) : string :=
  match name with
  | EmptyString => EmptyString
  | String a r => if Ascii.eqb a c then EmptyString else String a (before_first c r)
  end.

End CompanyName.

(** ** SQL scalar expressions of the reporting queries

    A numeric SQL value is NULL ([None]) or a number.  The [FLOAT] arithmetic of
    the queries is modelled by exact rational arithmetic. *)

Module Sql.

Definition num : Type := option Q.

Definition int (z : Z) : num := Some (inject_Z z).

(** [a - b] and [a * b]: NULL if an operand is NULL. *)
Definition sub (a b : num) : num :=
  match a, b with
  | Some x, Some y => Some (x - y)%Q
  | _, _ => None
  end.

Definition mul (a b : num) : num :=
  match a, b with
  | Some x, Some y => Some (x * y)%Q
  | _, _ => None
  end.

(** [a / b]: NULL if an operand is NULL; a zero divisor aborts the query
    with a division-by-zero error. *)
Definition div (a b : num) : outcome num :=
  match a, b with
  | Some x, Some y =>
      if Qeq_bool y 0 then Raise DatabaseError else Return (Some (x / y)%Q)
  | _, _ => Return None
  end.

(** [CAST(a AS FLOAT)] and [a::float] *)
Definition CAST_FLOAT (a : num) : num := a.

(** [NULLIF(a, b)]: NULL when [a = b], else [a]. *)
Definition NULLIF (a : num) (b : Q) : num :=
  match a with
  | Some x => if Qeq_bool x b then None else Some x
  | None => None
  end.

(** [COALESCE(a, d)]: the first argument that is not NULL. *)
Definition COALESCE (a : num) (d : Q) : num :=
  match a with
  | Some x => Some x
  | None => Some d
  end.

(** [COALESCE(((cur - prev) / NULLIF(CAST(prev AS FLOAT), 0)) * 100.0, 0)],
    the expression of the five [..._change_pct] columns of
    [fetch_openings_statistics_metrics]. *)
Definition change_pct (cur prev : num) : outcome num :=
  outcome_bind (div (sub cur prev) (NULLIF (CAST_FLOAT prev) 0)) (fun r =>
  Return (COALESCE (mul r (Some 100%Q)) 0)).

(** [COALESCE(tool_count::float / NULLIF(total_openings, 0) * 100, 0)],
    column [percentage_of_tool] of [fetch_data_tool]. *)
Definition percentage_of_tool (tool_count total_openings : num) : outcome num :=
  outcome_bind (div (CAST_FLOAT tool_count) (NULLIF total_openings 0)) (fun r =>
  Return (COALESCE (mul r (Some 100%Q)) 0)).

(** A row of the join [AAA LEFT JOIN BBB] of [fetch_openings_statistics_metrics],
    restricted to the columns the query reads. *)
Record AAA_row : Type := mkAAA {
  total_openings : num;
  closed_openings_count : num;
  new_openings_count : num;
  fill_rate : num;
  average_weeks_to_fill : num;
  crawl_date : string
}.

(** The inner SELECT adds, by [LEAD(col) OVER (ORDER BY crawl_date DESC)],
    the value of each column in the following row. *)
Record AAAA_row : Type := mkAAAA {
  cur : AAA_row;
  prev_total_openings : num;
  prev_closed_openings_count : num;
  prev_new_openings_count : num;
  prev_fill_rate : num;
  prev_average_weeks_to_fill : num
}.

(** [LEAD(col)] at the head of [rows]: [col] of the next row, NULL when
    there is none. *)
Definition LEAD (col : AAA_row -> num) (following : list AAA_row) : num :=
  match following with
  | [] => None
  | r :: _ => col r
  end.

(** The inner SELECT over the rows of the seven-day window, already in
    [crawl_date DESC] order. *)
Fixpoint inner_select (window : list AAA_row) : list AAAA_row :=
  match window with
  | [] => []
  | r :: following =>
      mkAAAA r
        (LEAD total_openings following)
        (LEAD closed_openings_count following)
        (LEAD new_openings_count following)
        (LEAD fill_rate following)
        (LEAD average_weeks_to_fill following)
      :: inner_select following
  end.

(** A row of the result of [fetch_openings_statistics_metrics]. *)
Record statistics_row : Type := mkStatistics {
  st_total_openings : num;
  st_total_openings_change_pct : num;
  st_closed_openings_count : num;
  st_closed_openings_change_pct : num;
  st_new_openings_count : num;
  st_new_openings_change_pct : num;
  st_fill_rate : num;
  st_fill_rate_change_pct : num;
  st_average_weeks_to_fill : num;
  st_average_weeks_to_fill_change_pct : num;
  st_crawl_date : string
}.

(** The outer SELECT list on one row. *)
Definition outer_select_row (r : AAAA_row) : outcome statistics_row :=
  outcome_bind (change_pct (total_openings (cur r)) (prev_total_openings r)) (fun p1 =>
  outcome_bind (change_pct (closed_openings_count (cur r)) (prev_closed_openings_count r)) (fun p2 =>
  outcome_bind (change_pct (new_openings_count (cur r)) (prev_new_openings_count r)) (fun p3 =>
  outcome_bind (change_pct (fill_rate (cur r)) (prev_fill_rate r)) (fun p4 =>
  outcome_bind (change_pct (average_weeks_to_fill (cur r)) (prev_average_weeks_to_fill r)) (fun p5 =>
  Return (mkStatistics
            (total_openings (cur r)) p1
            (closed_openings_count (cur r)) p2
            (new_openings_count (cur r)) p3
            (fill_rate (cur r)) p4
            (average_weeks_to_fill (cur r)) p5
            (crawl_date (cur r)))))))).

(** The whole statement over the window rows: inner SELECT, then
    [WHERE AAAA.crawl_date = '{crawl_date}'], then the SELECT list. *)
Definition openings_statistics_query (window : list AAA_row) (requested : string)
  : outcome (list statistics_row) :=
  outcome_mapM outer_select_row
    (filter (fun r => String.eqb (crawl_date (cur r)) requested) (inner_select window)).

End Sql.

(** ** Values of a frame *)

(** A calendar date and a timestamp (a date and the seconds since midnight). *)
Record date : Type := mkDate { year : N; month : N; day : N }.
Record timestamp : Type := mkTimestamp { ts_date : date; ts_seconds : N }.

Definition date_eqb (a b : date) : bool :=
  N.eqb (year a) (year b) && N.eqb (month a) (month b) && N.eqb (day a) (day b).

Definition timestamp_eqb (a b : timestamp) : bool :=
  date_eqb (ts_date a) (ts_date b) && N.eqb (ts_seconds a) (ts_seconds b).

Definition date_leb (a b : date) : bool :=
  match N.compare (year a) (year b) with
  | Lt => true
  | Gt => false
  | Eq => match N.compare (month a) (month b) with
          | Lt => true
          | Gt => false
          | Eq => N.leb (day a) (day b)
          end
  end.

Definition timestamp_leb (a b : timestamp) : bool :=
  if date_eqb (ts_date a) (ts_date b) then N.leb (ts_seconds a) (ts_seconds b)
  else date_leb (ts_date a) (ts_date b).

(** What a [crawl_date] column holds: the driver hands back a string for a
    text column, a [datetime.date] for a date column, a [datetime.datetime]
    for a timestamp column and [None] for NULL; after [.dt.date] the column
    holds dates (and NaT, also [MNull]). *)
Inductive marker : Type :=
| MNull
| MStr (s : string)
| MDate (d : date)
| MTimestamp (t : timestamp).

(** What the other columns hold. *)
Inductive cell : Type :=
| CNull
| CInt (z : Z)
| CNum (q : Q)
| CStr (s : string).

(** A fetched tuple: the columns before [crawl_date], in the order of the
    SELECT list, and [crawl_date], which every metric query selects last. *)
Record row : Type := mkRow { fields : list cell; col_crawl_date : marker }.

(** A [pd.DataFrame]; [pd.DataFrame()] is the frame without rows. *)
Definition DataFrame : Type := list row.

(** [data.empty] *)
Definition empty (data : DataFrame) : bool :=
  match data with
  | [] => true
  | _ :: _ => false
  end.

(** [pd.DataFrame(data, columns=cols)]: every tuple must have as many
    values as there are column names. *)
Definition pd_DataFrame (data : list row) (columns : list string) : outcome DataFrame :=
  if forallb (fun r => Nat.eqb (S (List.length (fields r))) (List.length columns)) data
  then Return data
  else Raise ValueError.

(** ** The pandas operations the wrappers rely on

    pandas is not part of the repository: what [pd.to_datetime] makes of a
    scalar and of a whole column, what [Series.max] makes of a column and how
    [==] compares a column value with a scalar are taken as an interface.  A
    conversion result is an exception, NaT ([None]) or a timestamp; the
    conversion of a column is one call, which converts all its values or
    raises. *)
Record pandas : Type := mkPandas {
  to_datetime : marker -> outcome (option timestamp);
  to_datetime_series : list marker -> outcome (list (option timestamp));
  series_max : list marker -> outcome marker;
  series_eq : marker -> marker -> bool
}.

Section Pandas.

Variable pd : pandas.

(** [.dt.date] on one converted value; NaT stays NaT. *)
Definition dt_date (t : option timestamp) : marker :=
  match t with
  | Some t => MDate (ts_date t)
  | None => MNull
  end.

(** [data['crawl_date'] = pd.to_datetime(data['crawl_date']).dt.date]:
    the column is converted by one call and assigned back row by row. *)
Definition coerce_crawl_date (data : DataFrame) : outcome DataFrame :=
  outcome_bind (to_datetime_series pd (map col_crawl_date data)) (fun converted =>
  Return (map (fun rt => mkRow (fields (fst rt)) (dt_date (snd rt)))
              (combine data converted))).

(** [pd.to_datetime(crawl_date).date()] on the requested date:
    [pd.to_datetime(None)] is [None], which has no [date] method;
    [NaT.date()] is NaT. *)
Definition provided_date (crawl_date : marker) : outcome (option date) :=
  match crawl_date with
  | MNull => Raise AttributeError
  | _ => outcome_bind (to_datetime pd crawl_date) (fun t =>
         Return (option_map ts_date t))
  end.

(** One element of [data['crawl_date'] == provided_date] after the
    coercion: NaT is equal to nothing. *)
Definition date_matches (provided : option date) (x : marker) : bool :=
  match x, provided with
  | MDate d, Some p => date_eqb d p
  | _, _ => false
  end.

(** [pd.to_datetime(a) == pd.to_datetime(b)] on two scalars, [b] possibly
    Python's [None], which [pd.to_datetime] returns as it is; a missing
    value on either side compares unequal. *)
Definition to_datetime_eq (a : marker) (b : option marker) : outcome bool :=
  outcome_bind (to_datetime pd a) (fun ta =>
  outcome_bind (match b with
                | Some b => to_datetime pd b
                | None => Return None
                end) (fun tb =>
  Return (match ta, tb with
          | Some x, Some y => timestamp_eqb x y
          | _, _ => false
          end))).

End Pandas.

(** An instance on which the code is run, after pandas 2: it covers the
    texts [YYYY-MM-DD], optionally followed by [ HH:MM:SS] or [THH:MM:SS],
    that name a day of the calendar, the empty text, which is NaT, and the
    texts that hold no date at all, which are refused.  A date outside the
    range of a nanosecond timestamp is refused; both refusals are exceptions
    that are a [ValueError].  A column is converted with the format of its
    first text: a text of another format is refused.  [max] is defined on
    columns of one type; [==] compares values of one type and is false
    otherwise. *)
Module PandasModel.

Definition digit (c : ascii) : option N :=
  let n := N_of_ascii c in
  if (48 <=? n)%N && (n <=? 57)%N then Some (n - 48)%N else None.

Definition digits2 (a b : ascii) : option N :=
  match digit a, digit b with
  | Some x, Some y => Some (10 * x + y)%N
  | _, _ => None
  end.

Definition digits4 (a b c d : ascii) : option N :=
  match digits2 a b, digits2 c d with
  | Some x, Some y => Some (100 * x + y)%N
  | _, _ => None
  end.

(** The formats [%Y-%m-%d] and [%Y-%m-%d %H:%M:%S], the latter with the
    character that separates date and time. *)
Inductive format : Type :=
| DateOnly
| DateTime (separator : ascii).

Definition format_eqb (a b : format) : bool :=
  match a, b with
  | DateOnly, DateOnly => true
  | DateTime x, DateTime y => Ascii.eqb x y
  | _, _ => false
  end.

Definition parse_time (s : string) : option (format * N) :=
  match s with
  | EmptyString => Some (DateOnly, 0%N)
  | String sp (String h1 (String h2 (String c1 (String m1 (String m2
      (String c2 (String s1 (String s2 EmptyString)))))))) =>
      if (Ascii.eqb sp " " || Ascii.eqb sp "T") && Ascii.eqb c1 ":" && Ascii.eqb c2 ":" then
        match digits2 h1 h2, digits2 m1 m2, digits2 s1 s2 with
        | Some h, Some m, Some sec =>
            if (h <? 24)%N && (m <? 60)%N && (sec <? 60)%N
            then Some (DateTime sp, (3600 * h + 60 * m + sec)%N) else None
        | _, _, _ => None
        end
      else None
  | _ => None
  end.

Definition leap_year (y : N) : bool :=
  ((y mod 4 =? 0) && (negb (y mod 100 =? 0) || (y mod 400 =? 0)))%N.

Definition days_in_month (y m : N) : N :=
  match m with
  | 2%N => if leap_year y then 29%N else 28%N
  | 4%N | 6%N | 9%N | 11%N => 30%N
  | _ => 31%N
  end.

(** A day of the calendar, from year 1 on. *)
Definition valid_date (d : date) : bool :=
  ((1 <=? year d) && (1 <=? month d) && (month d <=? 12)
   && (1 <=? day d) && (day d <=? days_in_month (year d) (month d)))%N.

(** The format and the value of a text, when it has one of the formats. *)
Definition parse_iso (s : string) : option (format * timestamp) :=
  match s with
  | String y1 (String y2 (String y3 (String y4 (String d1 (String m1 (String m2
      (String d2 (String a1 (String a2 rest))))))))) =>
      if Ascii.eqb d1 "-" && Ascii.eqb d2 "-" then
        match digits4 y1 y2 y3 y4, digits2 m1 m2, digits2 a1 a2, parse_time rest with
        | Some y, Some m, Some d, Some (fmt, t) =>
            if valid_date (mkDate y m d)
            then Some (fmt, mkTimestamp (mkDate y m d) t) else None
        | _, _, _, _ => None
        end
      else None
  | _ => None
  end.

(** The range of a nanosecond timestamp: from 1677-09-21 00:12:44 to
    2262-04-11 23:47:16. *)
Definition in_bounds (t : timestamp) : bool :=
  let first := mkDate 1677 9 21 in
  let last := mkDate 2262 4 11 in
  (if date_eqb (ts_date t) first then (764 <=? ts_seconds t)%N
   else date_leb first (ts_date t))
  && (if date_eqb (ts_date t) last then (ts_seconds t <=? 85636)%N
      else date_leb (ts_date t) last).

Definition bounded (t : timestamp) : outcome (option timestamp) :=
  if in_bounds t then Return (Some t) else Raise ValueError.

(** [pd.to_datetime(s)] on a text. *)
Definition parse_datetime (s : string) : outcome (option timestamp) :=
  match s with
  | EmptyString => Return None
  | _ => match parse_iso s with
         | Some (_, t) => bounded t
         | None => Raise ValueError
         end
  end.

(** [pd.to_datetime(x)] on a scalar. *)
Definition to_datetime (x : marker) : outcome (option timestamp) :=
  match x with
  | MNull => Return None
  | MStr s => parse_datetime s
  | MDate d => bounded (mkTimestamp d 0%N)
  | MTimestamp t => bounded t
  end.

(** The first value of a column that is neither missing nor the empty
    text. *)
Fixpoint first_non_null (column : list marker) : option marker :=
  match column with
  | [] => None
  | MNull :: r => first_non_null r
  | MStr EmptyString :: r => first_non_null r
  | x :: _ => Some x
  end.

Definition guess_datetime_format (s : string) : option format :=
  option_map fst (parse_iso s).

(** One value of a column converted with the format [fmt]: a text must
    have that very format. *)
Definition strptime (fmt : format) (x : marker) : outcome (option timestamp) :=
  match x with
  | MNull => Return None
  | MStr EmptyString => Return None
  | MStr s =>
      match parse_iso s with
      | Some (f, t) => if format_eqb f fmt then bounded t else Raise ValueError
      | None => Raise ValueError
      end
  | MDate d => bounded (mkTimestamp d 0%N)
  | MTimestamp t => bounded t
  end.

(** [pd.to_datetime(column)]: when the first value is a text whose format
    is recognised, every value is converted with that format; otherwise each
    value is converted on its own. *)
Definition to_datetime_series (column : list marker)
  : outcome (list (option timestamp)) :=
  match first_non_null column with
  | Some (MStr s) =>
      match guess_datetime_format s with
      | Some fmt => outcome_mapM (strptime fmt) column
      | None => outcome_mapM to_datetime column
      end
  | _ => outcome_mapM to_datetime column
  end.

Definition marker_leb (a b : marker) : option bool :=
  match a, b with
  | MStr x, MStr y => Some (String.leb x y)
  | MDate x, MDate y => Some (date_leb x y)
  | MTimestamp x, MTimestamp y => Some (timestamp_leb x y)
  | _, _ => None
  end.

Fixpoint series_max_from (m : marker) (l : list marker) : outcome marker :=
  match l with
  | [] => Return m
  | x :: r =>
      match marker_leb m x with
      | Some true => series_max_from x r
      | Some false => series_max_from m r
      | None => Raise TypeError
      end
  end.

Definition series_max (l : list marker) : outcome marker :=
  match l with
  | [] => Return MNull
  | x :: r => series_max_from x r
  end.

Definition series_eq (x scalar : marker) : bool :=
  match x, scalar with
  | MStr a, MStr b => String.eqb a b
  | MDate a, MDate b => date_eqb a b
  | MTimestamp a, MTimestamp b => timestamp_eqb a b
  | _, _ => false
  end.

Definition model : pandas :=
  mkPandas to_datetime to_datetime_series series_max series_eq.

End PandasModel.

(** ** The state of a page render and the monad of the Python code *)

Inductive level : Type := INFO | ERROR.

(** The statements the fetcher sends, named after the method that builds
    them; a marker-scoped statement carries the interpolated date. *)
Inductive query : Type :=
| SelectNewestCrawlDate
| SelectOpeningsStatistics (crawl_date : marker)
| SelectOpeningsHistory
| SelectDataRole (crawl_date : marker)
| SelectDataTool (crawl_date : marker)
| SelectOpeningsCompany (crawl_date : marker)
| SelectTaipeiAreaOpenings (crawl_date : marker)
| SelectToolByDataRole
| SelectToolTrends.

(** The logger's records in the order they were written, whether the
    connection is open, and the statements executed so far. *)
Record state : Type := mkState {
  log : list (level * string);
  connection_open : bool;
  issued : list query
}.

Definition initial_state : state := mkState [] false [].

(** What the warehouse answers: whether it can be reached, and for each
    statement the tuples [fetchall] returns or the error [execute] raises. *)
Record database : Type := mkDatabase {
  reachable : bool;
  max_crawl_date : outcome (list (list marker));
  rows_of : query -> outcome (list row)
}.

Definition M (A : Type) : Type := state -> outcome A * state.

Definition ret {A : Type} (a : A) : M A := fun st => (Return a, st).

Definition raise {A : Type} (e : exn) : M A := fun st => (Raise e, st).

Definition bind {A B : Type} (m : M A) (k : A -> M B) : M B :=
  fun st =>
    match m st with
    | (Return a, st') => k a st'
    | (Raise e, st') => (Raise e, st')
    end.

(** [try: body except Exception as e: handler]; what [body] did to the state
    before it raised stays done. *)
Definition try_except {A : Type} (body : M A) (handler : exn -> M A) : M A :=
  fun st =>
    match body st with
    | (Return a, st') => (Return a, st')
    | (Raise e, st') => handler e st'
    end.

Definition lift {A : Type} (o : outcome A) : M A := fun st => (o, st).

Declare Scope py_scope.
Delimit Scope py_scope with py.
Notation "x <- m ;; k" := (bind m (fun x => k))
  (at level 61, m at next level, right associativity) : py_scope.
Notation "m ;; k" := (bind m (fun _ => k))
  (at level 61, right associativity) : py_scope.
Local Open Scope py_scope.

(** [logger.info(msg)] and [logger.error(msg)]; a record keeps the literal
    part of the source's message. *)
Definition logger (lv : level) (msg : string) : M unit :=
  fun st => (Return tt, mkState (log st ++ [(lv, msg)]) (connection_open st) (issued st)).

(** ** Class [FetchReportData] *)

Module FetchReportData.

(** [__init__], that is [connect_to_database]: the connector raises when
    the warehouse cannot be reached. *)
Definition init (db : database) : M unit :=
  fun st =>
    if reachable db
    then (Return tt,
          mkState (log st ++ [(INFO, "Connected to the database successfully.")])
                  true (issued st))
    else (Raise ConnectionError, st).

(** [self.connection.cursor()]: a closed connection gives no cursor. *)
Definition cursor : M unit :=
  fun st => if connection_open st then (Return tt, st) else (Raise DatabaseError, st).

(** [cursor.execute(query)] followed by [cursor.fetchall()] *)
Definition execute_fetchall {A : Type} (answer : outcome A) (q : query) : M A :=
  fun st => (answer, mkState (log st) (connection_open st) (issued st ++ [q])).

(** [self.connection.close()] *)
Definition close : M unit :=
  fun st => (Return tt, mkState (log st) false (issued st)).

Definition execute_query {A : Type} (answer : outcome A) (q : query) : M (option A) :=
  try_except
    (cursor ;;
     result <- execute_fetchall answer q ;;
     ret (Some result))
    (fun _ => logger ERROR "Failed to execute query" ;; ret None).

Definition get_newest_crawl_date (db : database) : M (option marker) :=
  try_except
    (crawl_date_result <- execute_query (max_crawl_date db) SelectNewestCrawlDate ;;
     match crawl_date_result with
     | Some (first :: _) =>
         newest_crawl_date <- lift (index0 first) ;;
         match newest_crawl_date with
         | MNull => logger INFO "No crawl dates found." ;; ret None
         | _ => ret (Some newest_crawl_date)
         end
     | _ => logger INFO "No crawl dates found." ;; ret None
     end)
    (fun _ => logger ERROR "Error fetching the newest crawl date" ;; ret None).

Definition fetch_openings_statistics_metrics (db : database) (crawl_date : marker)
  : M DataFrame :=
  try_except
    (data <- execute_query (rows_of db (SelectOpeningsStatistics crawl_date))
                           (SelectOpeningsStatistics crawl_date) ;;
     match data with
     | Some (r :: rs) =>
         df <- lift (pd_DataFrame (r :: rs)
                 ["total_openings"; "total_openings_change_pct";
                  "closed_openings_count"; "closed_openings_change_pct";
                  "new_openings_count"; "new_openings_change_pct";
                  "fill_rate"; "fill_rate_change_pct";
                  "average_weeks_to_fill"; "average_weeks_to_fill_change_pct";
                  "crawl_date"]) ;;
         logger INFO "Openings statistics metrics data converted to DataFrame successfully." ;;
         ret df
     | _ =>
         logger INFO "No data found for the given crawl date." ;;
         ret []
     end)
    (fun _ => logger ERROR "Error fetching openings statistics metrics" ;; ret []).

Definition fetch_openings_history (db : database) : M DataFrame :=
  try_except
    (data <- execute_query (rows_of db SelectOpeningsHistory) SelectOpeningsHistory ;;
     match data with
     | Some (r :: rs) =>
         df <- lift (pd_DataFrame (r :: rs) ["total_openings"; "crawl_date"]) ;;
         logger INFO "Historical total openings data converted to DataFrame successfully." ;;
         ret df
     | _ =>
         logger INFO "No historical total openingsdata found for openings statistics." ;;
         ret []
     end)
    (fun _ => logger ERROR "Error fetching historical openings statistics metrics" ;; ret []).

Definition fetch_data_role (db : database) (crawl_date : marker) : M DataFrame :=
  try_except
    (data <- execute_query (rows_of db (SelectDataRole crawl_date))
                           (SelectDataRole crawl_date) ;;
     match data with
     | Some (r :: rs) =>
         df <- lift (pd_DataFrame (r :: rs)
                 ["data_role"; "count"; "percentage_of_total"; "crawl_date"]) ;;
         logger INFO "Data role information for the pie plot converted to DataFrame successfully." ;;
         ret df
     | _ =>
         logger INFO "No data role information found for the specified crawl date." ;;
         ret []
     end)
    (fun _ => logger ERROR "Error fetching data role information" ;; ret []).

Definition fetch_data_tool (db : database) (crawl_date : marker) : M DataFrame :=
  try_except
    (data <- execute_query (rows_of db (SelectDataTool crawl_date))
                           (SelectDataTool crawl_date) ;;
     match data with
     | Some (r :: rs) =>
         df <- lift (pd_DataFrame (r :: rs)
                 ["rank"; "category"; "tool_name"; "percentage_of_tool"; "crawl_date"]) ;;
         logger INFO "Top three data tools information converted to DataFrame successfully." ;;
         ret df
     | _ =>
         logger INFO "No data tools information found for the specified crawl date." ;;
         ret []
     end)
    (fun _ => logger ERROR "Error fetching data tools information" ;; ret []).

(** [adjust_company_name] on one value of the [company_name] column:
    [in] on a value that is not a string is a [TypeError]. *)
Definition adjust_company_cell (c : cell) : outcome cell :=
  match c with
  | CStr name => outcome_map CStr (CompanyName.adjust_company_name name)
  | _ => Raise TypeError
  end.

(** [df['company_name'] = df['company_name'].apply(adjust_company_name)],
    [company_name] being the second column. *)
Definition apply_adjust_company_name (df : DataFrame) : outcome DataFrame :=
  outcome_mapM
    (fun r =>
       match fields r with
       | rank :: company_name :: rest =>
           outcome_bind (adjust_company_cell company_name) (fun adjusted =>
           Return (mkRow (rank :: adjusted :: rest) (col_crawl_date r)))
       | _ => Raise IndexError
       end)
    df.

Definition fetch_openings_company (db : database) (crawl_date : marker) : M DataFrame :=
  try_except
    (data <- execute_query (rows_of db (SelectOpeningsCompany crawl_date))
                           (SelectOpeningsCompany crawl_date) ;;
     match data with
     | Some (r :: rs) =>
         df <- lift (pd_DataFrame (r :: rs)
                 ["rank"; "company_name"; "opening_count"; "crawl_date"]) ;;
         df <- lift (apply_adjust_company_name df) ;;
         logger INFO "Job vacancy data for the top five companies converted to DataFrame successfully with adjusted company names." ;;
         ret df
     | _ =>
         logger INFO "No job vacancy data found for the specified crawl date." ;;
         ret []
     end)
    (fun _ => logger ERROR "Error fetching job vacancy data" ;; ret []).

Definition fetch_taiepi_area_openings (db : database) (crawl_date : marker) : M DataFrame :=
  try_except
    (data <- execute_query (rows_of db (SelectTaipeiAreaOpenings crawl_date))
                           (SelectTaipeiAreaOpenings crawl_date) ;;
     match data with
     | Some (r :: rs) =>
         df <- lift (pd_DataFrame (r :: rs)
                 ["county_name_eng"; "district_name_eng"; "openings_count"; "crawl_date"]) ;;
         logger INFO "Job vacancy data for specified areas converted to DataFrame successfully." ;;
         ret df
     | _ =>
         logger INFO "No job vacancy data found for the specified crawl date." ;;
         ret []
     end)
    (fun _ => logger ERROR "Error fetching job vacancy data" ;; ret []).

Definition fetch_tool_by_data_role (db : database) : M DataFrame :=
  try_except
    (data <- execute_query (rows_of db SelectToolByDataRole) SelectToolByDataRole ;;
     match data with
     | Some (r :: rs) =>
         df <- lift (pd_DataFrame (r :: rs)
                 ["data_role"; "category"; "tool_name"; "count"; "crawl_date"]) ;;
         logger INFO "Tool data by data role converted to DataFrame successfully." ;;
         ret df
     | _ =>
         logger INFO "No tool data found for the specified crawl date." ;;
         ret []
     end)
    (fun _ => logger ERROR "Error fetching tool data by data role" ;; ret []).

Definition fetch_tool_trends (db : database) : M DataFrame :=
  try_except
    (data <- execute_query (rows_of db SelectToolTrends) SelectToolTrends ;;
     match data with
     | Some (r :: rs) =>
         df <- lift (pd_DataFrame (r :: rs)
                 ["rank"; "category"; "tool_name"; "tool_count"; "crawl_date"]) ;;
         logger INFO "Tool data by data role converted to DataFrame successfully." ;;
         ret df
     | _ =>
         logger INFO "No tool data found for the specified crawl date." ;;
         ret []
     end)
    (fun _ => logger ERROR "Error fetching tool trend data" ;; ret []).

End FetchReportData.

(** ** The fetch wrappers and the page load of [pages/home_pages.py] *)

Module HomePages.

Import FetchReportData.

(** [if newest_crawl_date:] on the value of [get_newest_crawl_date]:
    [None] and the empty string are false. *)
Definition truthy (newest_crawl_date : option marker) : bool :=
  match newest_crawl_date with
  | None => false
  | Some MNull => false
  | Some (MStr EmptyString) => false
  | Some _ => true
  end.

(** A local variable of a function body: unbound until assigned. *)
Definition local (A : Type) : Type := option A.

Definition read {A : Type} (x : local A) : M A :=
  match x with
  | Some a => ret a
  | None => raise UnboundLocalError
  end.

Section Wrappers.

Variable pd : pandas.
Variable db : database.

Definition fetch_openings_statistics_for_dashboard (crawl_date : marker) : M DataFrame :=
  data <- fetch_openings_statistics_metrics db crawl_date ;;
  if negb (empty data) then
    if forallb (fun r => series_eq pd (col_crawl_date r) crawl_date) data then
      ret data
    else
      logger ERROR "Data inconsistency detected: 'crawl_date' does not match the provided date." ;;
      ret []
  else
    logger INFO "No data available for openings statistics on the provided crawl date." ;;
    ret [].

Definition fetch_historical_total_openings_for_dashboard : M DataFrame :=
  data <- fetch_openings_history db ;;
  if negb (empty data) then
    newest_crawl_date <- get_newest_crawl_date db ;;
    max_crawl_date <- lift (series_max pd (map col_crawl_date data)) ;;
    same <- lift (to_datetime_eq pd max_crawl_date newest_crawl_date) ;;
    if (same : bool) then
      ret data
    else
      logger ERROR "Data inconsistency detected: The newest data in historical openings does not match the newest crawl date." ;;
      ret []
  else
    logger INFO "No historical data available for total openings." ;;
    ret [].

Definition fetch_data_role_for_dashboard (crawl_date : marker) : M DataFrame :=
  data <- fetch_data_role db crawl_date ;;
  if negb (empty data) then
    data <- lift (coerce_crawl_date pd data) ;;
    provided_date <- lift (provided_date pd crawl_date) ;;
    if forallb (fun r => date_matches provided_date (col_crawl_date r)) data then
      ret data
    else
      logger ERROR "Data inconsistency detected: 'crawl_date' does not match the provided date." ;;
      ret []
  else
    logger INFO "No data available for data roles on the provided crawl date." ;;
    ret [].

Definition fetch_data_tools_for_dashboard (crawl_date : marker) : M DataFrame :=
  data <- fetch_data_tool db crawl_date ;;
  if negb (empty data) then
    data <- lift (coerce_crawl_date pd data) ;;
    provided_date <- lift (provided_date pd crawl_date) ;;
    if forallb (fun r => date_matches provided_date (col_crawl_date r)) data then
      logger INFO "Data tools information successfully validated for the provided crawl date." ;;
      ret data
    else
      logger ERROR "Data inconsistency detected: 'crawl_date' does not match the provided date in data tools information." ;;
      let consistent_data :=
        filter (fun r => date_matches provided_date (col_crawl_date r)) data in
      ret (if negb (empty consistent_data) then consistent_data else [])
  else
    logger INFO "No data tools information available for the crawl date." ;;
    ret [].

Definition fetch_openings_company_for_dashboard (crawl_date : marker) : M DataFrame :=
  data <- fetch_openings_company db crawl_date ;;
  if negb (empty data) then
    data <- lift (coerce_crawl_date pd data) ;;
    provided_date <- lift (provided_date pd crawl_date) ;;
    if forallb (fun r => date_matches provided_date (col_crawl_date r)) data then
      logger INFO "Job vacancy information successfully validated for the provided crawl date." ;;
      ret data
    else
      logger ERROR "Data inconsistency detected: 'crawl_date' does not match the provided date in job vacancy data." ;;
      let consistent_data :=
        filter (fun r => date_matches provided_date (col_crawl_date r)) data in
      ret (if negb (empty consistent_data) then consistent_data else [])
  else
    logger INFO "No job vacancy data available for the crawl date." ;;
    ret [].

Definition fetch_taiepi_area_openings_for_dashboard (crawl_date : marker) : M DataFrame :=
  data <- fetch_taiepi_area_openings db crawl_date ;;
  if negb (empty data) then
    data <- lift (coerce_crawl_date pd data) ;;
    provided_date <- lift (provided_date pd crawl_date) ;;
    if forallb (fun r => date_matches provided_date (col_crawl_date r)) data then
      logger INFO "Job vacancy information for the Taipei area successfully validated for the provided crawl date." ;;
      ret data
    else
      logger ERROR "Data inconsistency detected: 'crawl_date' does not match the provided date in job vacancy data for the Taipei area." ;;
      let consistent_data :=
        filter (fun r => date_matches provided_date (col_crawl_date r)) data in
      ret (if negb (empty consistent_data) then consistent_data else [])
  else
    logger INFO "No job vacancy data available for the Taipei area on the crawl date." ;;
    ret [].

(** The six locals the body of [load_home_page_data] assigns in its
    [if] branch and reads in its [return]. *)
Record locals : Type := mkLocals {
  openings_statistics : local DataFrame;
  historical_total_openings : local DataFrame;
  data_role : local DataFrame;
  data_tools : local DataFrame;
  openings_company : local DataFrame;
  taiepi_area_openings : local DataFrame
}.

Definition unbound : locals := mkLocals None None None None None None.

Definition home_page_data : Type :=
  (DataFrame * DataFrame * DataFrame * DataFrame * DataFrame * DataFrame)%type.

(** [set_logger()] builds the logger whose records [log] collects;
    [if fetcher.connection:] holds for every connection object. *)
Definition load_home_page_data : M home_page_data :=
  init db ;;
  newest_crawl_date <- get_newest_crawl_date db ;;
  vars <- match newest_crawl_date with
          | Some crawl_date =>
              if truthy newest_crawl_date then
                logger INFO "Fetching data for the date" ;;
                a <- fetch_openings_statistics_for_dashboard crawl_date ;;
                b <- fetch_historical_total_openings_for_dashboard ;;
                c <- fetch_data_role_for_dashboard crawl_date ;;
                d <- fetch_data_tools_for_dashboard crawl_date ;;
                e <- fetch_openings_company_for_dashboard crawl_date ;;
                f <- fetch_taiepi_area_openings_for_dashboard crawl_date ;;
                ret (mkLocals (Some a) (Some b) (Some c) (Some d) (Some e) (Some f))
              else
                logger INFO "No newest crawl date available." ;;
                ret unbound
          | None =>
              logger INFO "No newest crawl date available." ;;
              ret unbound
          end ;;
  close ;;
  logger INFO "Database connection closed." ;;
  a <- read (openings_statistics vars) ;;
  b <- read (historical_total_openings vars) ;;
  c <- read (data_role vars) ;;
  d <- read (data_tools vars) ;;
  e <- read (openings_company vars) ;;
  f <- read (taiepi_area_openings vars) ;;
  ret (a, b, c, d, e, f).

End Wrappers.

End HomePages.

(** ** Ordering and grouping of rows *)

Section Sorting.

Context {A : Type}.
Variable leb : A -> A -> bool.

(** Stable insertion: [x] goes before the first element it does not
    exceed. *)
Fixpoint insert_by (x : A) (l : list A) : list A :=
  match l with
  | [] => [x]
  | y :: r => if leb x y then x :: y :: r else y :: insert_by x r
  end.

(** [ORDER BY] and pandas' stable sorts: rows with equal keys keep their
    order. *)
Fixpoint sort_by (l : list A) : list A :=
  match l with
  | [] => []
  | x :: r => insert_by x (sort_by r)
  end.

End Sorting.

(** ** The two statements over [rpt_job_openings_metrics] that involve an
    order on [crawl_date], a text column *)

Module Warehouse.

(** The columns of [reporting_data.rpt_job_openings_metrics] the two
    statements read. *)
Record metrics_row : Type := mkMetrics { total_openings : Z; crawl_date : string }.

Definition crawl_date_asc (a b : metrics_row) : bool :=
  String.leb (crawl_date a) (crawl_date b).

Definition crawl_date_desc (a b : metrics_row) : bool :=
  String.leb (crawl_date b) (crawl_date a).

(** One step of the aggregate: the larger of the running maximum and the
    next value. *)
Definition max_step (acc : option string) (x : string) : option string :=
  match acc with
  | None => Some x
  | Some m => if String.leb m x then Some x else Some m
  end.

(** [MAX(crawl_date)]: NULL over no rows. *)
Definition MAX (values : list string) : option string :=
  fold_left max_step values None.

(** [SELECT MAX(crawl_date) AS newest_crawl_date FROM
    reporting_data.rpt_job_openings_metrics]: always one tuple. *)
Definition select_newest_crawl_date (table : list metrics_row) : list (list marker) :=
  [[match MAX (map crawl_date table) with
    | Some s => MStr s
    | None => MNull
    end]].

(** [SELECT ... FROM (SELECT ... ORDER BY crawl_date DESC LIMIT 12) AAA
    ORDER BY AAA.crawl_date ASC] *)
Definition select_openings_history (table : list metrics_row) : list metrics_row :=
  sort_by crawl_date_asc (firstn 12 (sort_by crawl_date_desc table)).

(** The tuple the driver returns for a row of the history statement. *)
Definition history_tuple (r : metrics_row) : row :=
  mkRow [CInt (total_openings r)] (MStr (crawl_date r)).

End Warehouse.

(** ** The tool-trend reductions of class [CreateReportChart] *)

Module CreateReportChart.

(** A row of the frame of [fetch_tool_by_data_role], by column name; the
    column [count] is an int64 column. *)
Record tool_row : Type := mkTool {
  data_role : string;
  category : string;
  tool_name : string;
  count : Z;
  crawl_date : string
}.

(** The value of a 64-bit signed integer computation: a sum that leaves
    the range wraps around. *)
Definition int64 (z : Z) : Z := (z + 2 ^ 63) mod 2 ^ 64 - 2 ^ 63.

(** The sums of the groups are int64 values. *)
Definition in_int64 {K : Type} (groups : list (K * Z)) : Prop :=
  forall k v, In (k, v) groups -> int64 v = v.

(** Every count of the frame is a 64-bit signed integer. *)
Definition int64_column (rows : list tool_row) : bool :=
  forallb (fun r => (- 2 ^ 63 <=? count r) && (count r <? 2 ^ 63)) rows.

Section GroupBy.

Context {K : Type}.
Variable key_eqb : K -> K -> bool.
Variable key_leb : K -> K -> bool.

(** Adds [v] to the sum of group [k], opening the group, with the sum 0,
    when [k] is new; the sums are int64 values. *)
Fixpoint add_to_group (k : K) (v : Z) (groups : list (K * Z)) : list (K * Z) :=
  match groups with
  | [] => [(k, int64 (0 + v))]
  | (k', s) :: r =>
      if key_eqb k' k then (k', int64 (s + v)) :: r
      else (k', s) :: add_to_group k v r
  end.

Definition sum_groups (keyed : list (K * Z)) : list (K * Z) :=
  fold_left (fun groups kv => add_to_group (fst kv) (snd kv) groups) keyed [].

(** [df.groupby(keys)['count'].sum().reset_index()]: one row per
    distinct key with the int64 sum of its counts, in key order. *)
Definition groupby_sum (keyed : list (K * Z)) : list (K * Z) :=
  sort_by (fun a b => key_leb (fst a) (fst b)) (sum_groups keyed).

(** [nlargest(n)] with the default [keep='first']: the [n] rows of
    largest count, in descending order, rows of equal count in their
    order of appearance. *)
Definition nlargest (n : nat) (rows : list (K * Z)) : list (K * Z) :=
  firstn n (sort_by (fun a b => Z.leb (snd b) (snd a)) rows).

End GroupBy.

Definition pair_eqb (a b : string * string) : bool :=
  String.eqb (fst a) (fst b) && String.eqb (snd a) (snd b).

Definition pair_leb (a b : string * string) : bool :=
  if String.eqb (fst a) (fst b) then String.leb (snd a) (snd b)
  else String.leb (fst a) (fst b).

(** [x in top_tools], as [isin] does it *)
Definition isin (x : string) (values : list string) : bool :=
  existsb (String.eqb x) values.

(** [filtered_data.groupby(['tool_name', 'crawl_date'])['count'].sum().reset_index()] *)
Definition group_by_tool_and_date (filtered_data : list tool_row)
  : list ((string * string) * Z) :=
  groupby_sum pair_eqb pair_leb
    (map (fun r => ((tool_name r, crawl_date r), count r)) filtered_data).

(** [grouped_data.groupby('tool_name')['count'].sum().nlargest(10).index] *)
Definition top_tools_of (grouped_data : list ((string * string) * Z)) : list string :=
  map fst
    (nlargest 10
       (groupby_sum String.eqb String.leb
          (map (fun g => (fst (fst g), snd g)) grouped_data))).

(** The three statements every branch of [create_tool_trends_line_chart]
    ends with. *)
Definition keep_top_tools (filtered_data : list tool_row) : list ((string * string) * Z) :=
  let grouped_data := group_by_tool_and_date filtered_data in
  let top_tools := top_tools_of grouped_data in
  filter (fun g => isin (fst (fst g)) top_tools) grouped_data.

(** The frame [create_tool_trends_line_chart] hands to the plot: rows
    (tool_name, crawl_date, count). *)
Definition create_tool_trends_line_chart (tool_by_data_role : list tool_row)
    (selected_datarole selected_category : string) : list ((string * string) * Z) :=
  if String.eqb selected_datarole "All" && String.eqb selected_category "All" then
    keep_top_tools tool_by_data_role
  else if String.eqb selected_datarole "All" then
    keep_top_tools
      (filter (fun r => String.eqb (category r) selected_category) tool_by_data_role)
  else if String.eqb selected_category "All" then
    keep_top_tools
      (filter (fun r => String.eqb (data_role r) selected_datarole) tool_by_data_role)
  else
    keep_top_tools
      (filter (fun r => String.eqb (data_role r) selected_datarole
                        && String.eqb (category r) selected_category)
              tool_by_data_role).

(** [filtered_data.groupby('tool_name')['count'].sum().reset_index()]
    followed by [nlargest(5, 'count')]. *)
Definition largest_five (filtered_data : list tool_row) : list (string * Z) :=
  nlargest 5
    (groupby_sum String.eqb String.leb
       (map (fun r => (tool_name r, count r)) filtered_data)).

(** The frame [top_tools] of [create_tool_popularity_bar_chart]: rows
    (tool_name, count). *)
Definition create_tool_popularity_bar_chart (tool_by_data_role : list tool_row)
    (selected_datarole selected_category : string) : list (string * Z) :=
  if String.eqb selected_datarole "All" && String.eqb selected_category "All" then
    largest_five tool_by_data_role
  else if String.eqb selected_datarole "All" then
    largest_five
      (filter (fun r => String.eqb (category r) selected_category) tool_by_data_role)
  else if String.eqb selected_category "All" then
    largest_five
      (filter (fun r => String.eqb (data_role r) selected_datarole) tool_by_data_role)
  else
    largest_five
      (filter (fun r => String.eqb (data_role r) selected_datarole
                        && String.eqb (category r) selected_category)
              tool_by_data_role).

(** The sum of the counts of the entries whose key satisfies [p], in the
    integers and as the int64 value the program computes. *)
Definition true_sum_where {K : Type} (p : K -> bool) (l : list (K * Z)) : Z :=
  fold_right Z.add 0 (map snd (filter (fun kv => p (fst kv)) l)).

Definition sum_where {K : Type} (p : K -> bool) (l : list (K * Z)) : Z :=
  int64 (true_sum_where p l).

(** The number of distinct tools of a frame. *)
Definition distinct_tools (rows : list tool_row) : nat :=
  List.length (nodup string_dec (map tool_name rows)).

(** The rows that pass the two selections, each applied only when it is
    not ["All"]. *)
Definition selected (selected_datarole selected_category : string) (r : tool_row) : bool :=
  (String.eqb selected_datarole "All" || String.eqb (data_role r) selected_datarole)
  && (String.eqb selected_category "All" || String.eqb (category r) selected_category).

(** The sum of the counts of the rows of tool [t], in the integers. *)
Definition true_total_of (t : string) (rows : list tool_row) : Z :=
  fold_right Z.add 0 (map count (filter (fun r => String.eqb (tool_name r) t) rows)).

(** The sum of the counts of the rows of tool [t] at date [d], in the
    integers. *)
Definition true_total_at (t d : string) (rows : list tool_row) : Z :=
  fold_right Z.add 0
    (map count
       (filter (fun r => String.eqb (tool_name r) t && String.eqb (crawl_date r) d) rows)).

(** The totals the program works with: the int64 sums. *)
Definition total_of (t : string) (rows : list tool_row) : Z :=
  int64 (true_total_of t rows).

Definition total_at (t d : string) (rows : list tool_row) : Z :=
  int64 (true_total_at t d rows).

(** No sum of counts of the frame leaves the range of an int64: the
    magnitudes of the counts add up to less than [2 ^ 63]. *)
Definition counts_fit (rows : list tool_row) : Prop :=
  fold_right Z.add 0 (map (fun r => Z.abs (count r)) rows) < 2 ^ 63.

End CreateReportChart.

(** ** Contracts stated about the fetchers *)

(** [run] returns the empty frame from state [st] and writes to the log. *)
Definition empty_with_log (run : M DataFrame) (st : state) : Prop :=
  exists st',
    run st = (Return [], st')
    /\ exists entries, entries <> [] /\ log st' = (log st ++ entries)%list.

(** A fetcher whose statement is answered by [answer]: it returns a frame
    from every state, and the empty frame with a log entry when the
    statement yields no tuple or fails. *)
Definition fetcher_contract (answer : outcome (list row)) (run : M DataFrame) : Prop :=
  forall st,
    (exists df st', run st = (Return df, st'))
    /\ (answer = Return [] -> empty_with_log run st)
    /\ (forall e, answer = Raise e -> empty_with_log run st).

(** ** Contracts stated about the wrappers *)

(** The state after one more record in the log. *)
Definition logged (lv : level) (msg : string) (st : state) : state :=
  mkState (log st ++ [(lv, msg)]) (connection_open st) (issued st).

(** A wrapper that converts before it compares: when the frame of its
    fetcher converts and holds a row that is not of the requested day, the
    wrapper writes one error record and returns no row of another day. *)
Definition discards_mismatch (pd : pandas) (crawl_date : marker)
    (fetch wrapper : M DataFrame) : Prop :=
  forall st data st1 coerced provided,
    fetch st = (Return data, st1) ->
    data <> [] ->
    coerce_crawl_date pd data = Return coerced ->
    provided_date pd crawl_date = Return provided ->
    (exists r, In r coerced /\ date_matches provided (col_crawl_date r) = false) ->
    exists out msg,
      wrapper st = (Return out, logged ERROR msg st1)
      /\ (out = []
          \/ out = filter (fun r => date_matches provided (col_crawl_date r)) coerced)
      /\ (forall r, In r out -> date_matches provided (col_crawl_date r) = true).

(** The wrapper that compares the fetched values as they are. *)
Definition discards_mismatch_as_fetched (pd : pandas) (crawl_date : marker)
    (fetch wrapper : M DataFrame) : Prop :=
  forall st data st1,
    fetch st = (Return data, st1) ->
    data <> [] ->
    (exists r, In r data /\ series_eq pd (col_crawl_date r) crawl_date = false) ->
    exists msg, wrapper st = (Return [], logged ERROR msg st1).

(** A converting wrapper returns the converted frame when every row is of
    the requested day. *)
Definition accepts_same_day (pd : pandas) (crawl_date : marker)
    (fetch wrapper : M DataFrame) : Prop :=
  forall st data st1 coerced provided,
    fetch st = (Return data, st1) ->
    data <> [] ->
    coerce_crawl_date pd data = Return coerced ->
    provided_date pd crawl_date = Return provided ->
    (forall r, In r coerced -> date_matches provided (col_crawl_date r) = true) ->
    exists st2, wrapper st = (Return coerced, st2).

(** A converting wrapper has no handler: what [pd.to_datetime] raises on
    the fetched column leaves the wrapper. *)
Definition propagates_conversion_error (pd : pandas) (fetch wrapper : M DataFrame) : Prop :=
  forall st data st1 e,
    fetch st = (Return data, st1) ->
    data <> [] ->
    coerce_crawl_date pd data = Raise e ->
    wrapper st = (Raise e, st1).

(** The state [FetchReportData.init] leaves when the warehouse is reached. *)
Definition connected (st : state) : state :=
  mkState (log st ++ [(INFO, "Connected to the database successfully.")])
          true (issued st).

(** ** Concrete warehouses and frames on which the code is run *)

Module Examples.

(** A render in progress: the connection is open, nothing logged yet. *)
Definition open_state : state := mkState [] true [].

Definition requested : marker := MStr "2024-05-06".

(** A warehouse without any crawl: [MAX] over the empty metrics table,
    and no tuple for any statement. *)
Definition db_no_crawl : database :=
  mkDatabase true (Return (Warehouse.select_newest_crawl_date [])) (fun _ => Return []).

(** A warehouse on which every statement fails. *)
Definition db_failing : database :=
  mkDatabase true (Raise DatabaseError) (fun _ => Raise DatabaseError).

(** The role breakdown holds a [crawl_date] that is not a date. *)
Definition db_unparseable : database :=
  mkDatabase true (Return [[requested]])
    (fun q =>
       match q with
       | SelectDataRole _ =>
           Return [mkRow [CStr "Data Analyst"; CInt 30; CNum 100] (MStr "not-a-date")]
       | _ => Return []
       end).

(** The role breakdown holds the date 9999-12-31, out of the bounds of a
    nanosecond timestamp. *)
Definition db_out_of_bounds : database :=
  mkDatabase true (Return [[requested]])
    (fun q =>
       match q with
       | SelectDataRole _ =>
           Return [mkRow [CStr "Data Analyst"; CInt 30; CNum 100] (MStr "9999-12-31")]
       | _ => Return []
       end).

(** The tool ranking holds a row of the requested day and a row of the
    week before. *)
Definition tool_rows : list row :=
  [mkRow [CInt 1; CStr "Programming"; CStr "Python"; CNum 60] (MStr "2024-05-06");
   mkRow [CInt 2; CStr "Database"; CStr "SQL"; CNum 40] (MStr "2024-04-29")].

Definition db_two_days : database :=
  mkDatabase true (Return [[requested]])
    (fun q =>
       match q with
       | SelectDataTool _ => Return tool_rows
       | _ => Return []
       end).

(** The statistics and the role breakdown carry the requested day as the
    text of a full timestamp. *)
Definition statistics_fields : list cell :=
  [CInt 75; CNum 50; CInt 10; CNum 0; CInt 20; CNum 0; CNum 0; CNum 0; CNum 3; CNum 0].

Definition db_timestamp_text : database :=
  mkDatabase true (Return [[requested]])
    (fun q =>
       match q with
       | SelectOpeningsStatistics _ =>
           Return [mkRow statistics_fields (MStr "2024-05-06 00:00:00")]
       | SelectDataRole _ =>
           Return [mkRow [CStr "Data Analyst"; CInt 30; CNum 100]
                         (MStr "2024-05-06 00:00:00")]
       | _ => Return []
       end).

(** The only row of the metrics table has a [crawl_date] that is not a
    date: it is the newest marker and the whole history, and the statistics
    statement fails on its cast to a date. *)
Definition db_malformed_marker : database :=
  mkDatabase true (Return [[MStr "not-a-date"]])
    (fun q =>
       match q with
       | SelectOpeningsStatistics _ => Raise DatabaseError
       | SelectOpeningsHistory => Return [mkRow [CInt 100] (MStr "not-a-date")]
       | _ => Return []
       end).

(** The newest row of the metrics table carries the date 9999-12-31, which
    the warehouse accepts as a date and a nanosecond timestamp cannot
    hold. *)
Definition db_sentinel_marker : database :=
  mkDatabase true (Return [[MStr "9999-12-31"]])
    (fun q =>
       match q with
       | SelectOpeningsStatistics _ =>
           Return [mkRow statistics_fields (MStr "9999-12-31")]
       | SelectOpeningsHistory =>
           Return [mkRow [CInt 90] (MStr "2024-05-06");
                   mkRow [CInt 100] (MStr "9999-12-31")]
       | _ => Return []
       end).

(** Fifteen weekly rows of the metrics table, not in order. *)
Definition table15 : list Warehouse.metrics_row :=
  [Warehouse.mkMetrics 108 "2024-02-19"; Warehouse.mkMetrics 101 "2024-01-01";
   Warehouse.mkMetrics 115 "2024-04-08"; Warehouse.mkMetrics 103 "2024-01-15";
   Warehouse.mkMetrics 112 "2024-03-18"; Warehouse.mkMetrics 102 "2024-01-08";
   Warehouse.mkMetrics 110 "2024-03-04"; Warehouse.mkMetrics 105 "2024-01-29";
   Warehouse.mkMetrics 114 "2024-04-01"; Warehouse.mkMetrics 104 "2024-01-22";
   Warehouse.mkMetrics 107 "2024-02-12"; Warehouse.mkMetrics 111 "2024-03-11";
   Warehouse.mkMetrics 106 "2024-02-05"; Warehouse.mkMetrics 113 "2024-03-25";
   Warehouse.mkMetrics 109 "2024-02-26"].

Definition db_history : database :=
  mkDatabase true
    (Return (Warehouse.select_newest_crawl_date table15))
    (fun q =>
       match q with
       | SelectOpeningsHistory =>
           Return (map Warehouse.history_tuple (Warehouse.select_openings_history table15))
       | _ => Return []
       end).

(** Thirteen rows of the metrics table with twelve markers: the newest
    marker is held by two rows. *)
Definition table13 : list Warehouse.metrics_row :=
  [Warehouse.mkMetrics 108 "2024-02-19"; Warehouse.mkMetrics 115 "2024-04-08";
   Warehouse.mkMetrics 112 "2024-03-18"; Warehouse.mkMetrics 110 "2024-03-04";
   Warehouse.mkMetrics 105 "2024-01-29"; Warehouse.mkMetrics 114 "2024-04-01";
   Warehouse.mkMetrics 104 "2024-01-22"; Warehouse.mkMetrics 107 "2024-02-12";
   Warehouse.mkMetrics 111 "2024-03-11"; Warehouse.mkMetrics 106 "2024-02-05";
   Warehouse.mkMetrics 113 "2024-03-25"; Warehouse.mkMetrics 109 "2024-02-26";
   Warehouse.mkMetrics 116 "2024-04-08"].

Definition db_repeated_marker : database :=
  mkDatabase true
    (Return (Warehouse.select_newest_crawl_date table13))
    (fun q =>
       match q with
       | SelectOpeningsHistory =>
           Return (map Warehouse.history_tuple (Warehouse.select_openings_history table13))
       | _ => Return []
       end).

(** The tool ranking holds the requested day as a date and the week before
    as the text of a timestamp. *)
Definition db_mixed_formats : database :=
  mkDatabase true (Return [[requested]])
    (fun q =>
       match q with
       | SelectDataTool _ =>
           Return [mkRow [CInt 1; CStr "Programming"; CStr "Python"; CNum 60]
                         (MStr "2024-05-06");
                   mkRow [CInt 2; CStr "Database"; CStr "SQL"; CNum 40]
                         (MStr "2024-04-29 00:00:00")]
       | _ => Return []
       end).

(** The company ranking holds the three names of the specification. *)
Definition db_companies : database :=
  mkDatabase true (Return [[requested]])
    (fun q =>
       match q with
       | SelectOpeningsCompany _ =>
           Return [mkRow [CInt 1; CStr "Acme_Corp"; CInt 12] requested;
                   mkRow [CInt 2; CStr "Foo (Bar Inc)"; CInt 9] requested;
                   mkRow [CInt 3; CStr "PlainName"; CInt 7] requested]
       | _ => Return []
       end).

(** The company ranking holds a name whose closing parenthesis comes
    first. *)
Definition db_unmatched_company : database :=
  mkDatabase true (Return [[requested]])
    (fun q =>
       match q with
       | SelectOpeningsCompany _ =>
           Return [mkRow [CInt 1; CStr "Acme_Corp"; CInt 12] requested;
                   mkRow [CInt 2; CStr "Acme) Taiwan ("; CInt 9] requested]
       | _ => Return []
       end).

(** The seven-day window of the statistics statement, newest row first:
    75 openings after 50, no closed opening the week before, and no fill
    time recorded for the week before. *)
Definition window : list Sql.AAA_row :=
  [Sql.mkAAA (Sql.int 75) (Sql.int 10) (Sql.int 20) (Some (4 # 10)) (Some 3%Q) "2024-05-06";
   Sql.mkAAA (Sql.int 50) (Sql.int 0) (Sql.int 10) (Some (5 # 10)) None "2024-04-29"].

(** Twelve tools with distinct totals: tool [Tnn] is named in [10 * nn]
    postings of one role on the first date and in [nn] postings of another
    role on the second. *)
Definition twelve_tools : list CreateReportChart.tool_row :=
  [CreateReportChart.mkTool "Data Engineer" "Programming" "T07" 70 "2024-04-29";
   CreateReportChart.mkTool "Data Engineer" "Programming" "T02" 20 "2024-04-29";
   CreateReportChart.mkTool "Data Engineer" "Programming" "T11" 110 "2024-04-29";
   CreateReportChart.mkTool "Data Engineer" "Programming" "T05" 50 "2024-04-29";
   CreateReportChart.mkTool "Data Engineer" "Programming" "T01" 10 "2024-04-29";
   CreateReportChart.mkTool "Data Engineer" "Programming" "T09" 90 "2024-04-29";
   CreateReportChart.mkTool "Data Engineer" "Programming" "T12" 120 "2024-04-29";
   CreateReportChart.mkTool "Data Engineer" "Programming" "T04" 40 "2024-04-29";
   CreateReportChart.mkTool "Data Engineer" "Programming" "T08" 80 "2024-04-29";
   CreateReportChart.mkTool "Data Engineer" "Programming" "T03" 30 "2024-04-29";
   CreateReportChart.mkTool "Data Engineer" "Programming" "T10" 100 "2024-04-29";
   CreateReportChart.mkTool "Data Engineer" "Programming" "T06" 60 "2024-04-29";
   CreateReportChart.mkTool "Data Analyst" "Database" "T06" 6 "2024-05-06";
   CreateReportChart.mkTool "Data Analyst" "Database" "T10" 10 "2024-05-06";
   CreateReportChart.mkTool "Data Analyst" "Database" "T03" 3 "2024-05-06";
   CreateReportChart.mkTool "Data Analyst" "Database" "T08" 8 "2024-05-06";
   CreateReportChart.mkTool "Data Analyst" "Database" "T04" 4 "2024-05-06";
   CreateReportChart.mkTool "Data Analyst" "Database" "T12" 12 "2024-05-06";
   CreateReportChart.mkTool "Data Analyst" "Database" "T09" 9 "2024-05-06";
   CreateReportChart.mkTool "Data Analyst" "Database" "T01" 1 "2024-05-06";
   CreateReportChart.mkTool "Data Analyst" "Database" "T05" 5 "2024-05-06";
   CreateReportChart.mkTool "Data Analyst" "Database" "T11" 11 "2024-05-06";
   CreateReportChart.mkTool "Data Analyst" "Database" "T02" 2 "2024-05-06";
   CreateReportChart.mkTool "Data Analyst" "Database" "T07" 7 "2024-05-06"].

(** Six tools, one of them named in [2 ^ 62] postings of each of two
    roles: its total leaves the range of an int64. *)
Definition overflowing_tools : list CreateReportChart.tool_row :=
  [CreateReportChart.mkTool "Data Engineer" "Programming" "Python" (2 ^ 62) "2024-05-06";
   CreateReportChart.mkTool "Data Analyst" "Programming" "Python" (2 ^ 62) "2024-05-06";
   CreateReportChart.mkTool "Data Analyst" "Database" "SQL" 5 "2024-05-06";
   CreateReportChart.mkTool "Data Analyst" "Programming" "R" 4 "2024-05-06";
   CreateReportChart.mkTool "Data Analyst" "Visualisation" "Tableau" 3 "2024-05-06";
   CreateReportChart.mkTool "Data Analyst" "Visualisation" "Power BI" 2 "2024-05-06";
   CreateReportChart.mkTool "Data Analyst" "Office" "Excel" 1 "2024-05-06"].

End Examples.

(** * Further contracts of the fetch layer *)

(** Every row a converting wrapper returns is of the requested day. *)
Definition returns_only_requested (pd : pandas) (crawl_date : marker)
    (wrapper : M DataFrame) : Prop :=
  forall st out st',
    wrapper st = (Return out, st') ->
    out <> [] ->
    exists provided,
      provided_date pd crawl_date = Return provided
      /\ forall r, In r out -> date_matches provided (col_crawl_date r) = true.

(** Every row the openings-statistics wrapper returns compares equal to
    the requested marker. *)
Definition returns_only_requested_as_fetched (pd : pandas) (crawl_date : marker)
    (wrapper : M DataFrame) : Prop :=
  forall st out st',
    wrapper st = (Return out, st') ->
    forall r, In r out -> series_eq pd (col_crawl_date r) crawl_date = true.

(** When the statement answered by [answer] yields no tuple or fails, the
    wrapper returns the empty frame and its last record is an [INFO] one:
    an empty result is not reported as an inconsistency. *)
Definition passes_empty_on (answer : outcome (list row)) (wrapper : M DataFrame) : Prop :=
  forall st,
    (answer = Return [] \/ exists e, answer = Raise e) ->
    exists st1 msg, wrapper st = (Return [], logged INFO msg st1).

(** A computation that leaves the connection as it found it and only adds
    to the log and to the executed statements. *)
Definition keeps_session {A : Type} (m : M A) : Prop :=
  forall st o st',
    m st = (o, st') ->
    connection_open st' = connection_open st
    /\ (exists records, log st' = (log st ++ records)%list)
    /\ (exists statements, issued st' = (issued st ++ statements)%list).

(** A fetcher that executes statement [q] once on an open connection, and
    nothing on a closed one, where it returns the empty frame. *)
Definition executes_once (q : query) (fetch : M DataFrame) : Prop :=
  forall st,
    (connection_open st = true -> issued (snd (fetch st)) = (issued st ++ [q])%list)
    /\ (connection_open st = false ->
        fst (fetch st) = Return [] /\ issued (snd (fetch st)) = issued st).

(** [Series.max] on a column of texts is the greatest text of the
    column. *)
Definition max_of_texts (pd : pandas) : Prop :=
  forall (texts : list string) (m : string),
    In m texts ->
    (forall x, In x texts -> String.leb x m = true) ->
    series_max pd (map MStr texts) = Return (MStr m).

(** The [if] branch of [load_home_page_data]: the six wrappers in the order
    of the source, each assigned to its local. *)
Definition fetch_all_metrics (pd : pandas) (db : database) (crawl_date : marker)
  : M HomePages.locals :=
  (logger INFO "Fetching data for the date" ;;
   a <- HomePages.fetch_openings_statistics_for_dashboard pd db crawl_date ;;
   b <- HomePages.fetch_historical_total_openings_for_dashboard pd db ;;
   c <- HomePages.fetch_data_role_for_dashboard pd db crawl_date ;;
   d <- HomePages.fetch_data_tools_for_dashboard pd db crawl_date ;;
   e <- HomePages.fetch_openings_company_for_dashboard pd db crawl_date ;;
   f <- HomePages.fetch_taiepi_area_openings_for_dashboard pd db crawl_date ;;
   ret (HomePages.mkLocals (Some a) (Some b) (Some c) (Some d) (Some e) (Some f)))%py.

(** Row [r'] is row [r] with its company name normalised: same rank, same
    opening count, same marker. *)
Definition name_adjusted (r r' : row) : Prop :=
  col_crawl_date r' = col_crawl_date r
  /\ exists rank name rest adjusted,
       fields r = rank :: CStr name :: rest
       /\ CompanyName.adjust_company_name name = Return adjusted
       /\ fields r' = rank :: CStr adjusted :: rest.

(** ** float8 arithmetic

    A float8 is a rational with a significand of 53 bits; an operation
    gives the float8 nearest to the exact result, a tie going to the even
    significand. *)

Module Float8.

(** Numerator and denominator of [a / d / 2 ^ e]. *)
Definition scaled (a d e : Z) : Z * Z :=
  if 0 <=? e then (a, d * 2 ^ e) else (a * 2 ^ (- e), d).

(** The exponent [e] with [2 ^ 52 <= a / d / 2 ^ e < 2 ^ 53], for positive
    [a] and [d], and not below the exponent of the subnormal numbers. *)
Definition exponent (a d : Z) : Z :=
  let e := Z.log2 a - Z.log2 d - 52 in
  let (num, den) := scaled a d e in
  Z.max (if 2 ^ 52 <=? num / den then e else e - 1) (- 1074).

(** The integer nearest to [num / den], a tie going to the even one. *)
Definition nearest_even (num den : Z) : Z :=
  let t := num / den in
  match 2 * (num mod den) ?= den with
  | Lt => t
  | Gt => t + 1
  | Eq => if Z.even t then t else t + 1
  end.

Definition round (q : Q) : Q :=
  if Qnum q =? 0 then 0%Q
  else
    let a := Z.abs (Qnum q) in
    let d := Zpos (Qden q) in
    let e := exponent a d in
    let (num, den) := scaled a d e in
    let m := Z.sgn (Qnum q) * nearest_even num den in
    if 0 <=? e then inject_Z (m * 2 ^ e) else Qmake m (Z.to_pos (2 ^ (- e))).

(** [a::float] *)
Definition cast (a : Sql.num) : Sql.num := option_map round a.

(** The result of an operation on float8 values whose exact result is
    [exact]: an infinite result, and a zero result of a nonzero exact one,
    abort the statement with an out-of-range error. *)
Definition result (exact : Q) : outcome Sql.num :=
  let r := round exact in
  if Qle_bool (inject_Z (2 ^ 1024)) r || Qle_bool r (inject_Z (- 2 ^ 1024))
  then Raise DatabaseError
  else if Qeq_bool r 0 && negb (Qeq_bool exact 0) then Raise DatabaseError
  else Return (Some r).

(** [a / b]: NULL if an operand is NULL; a zero divisor aborts the
    statement with a division-by-zero error. *)
Definition div (a b : Sql.num) : outcome Sql.num :=
  match a, b with
  | Some x, Some y => if Qeq_bool y 0 then Raise DatabaseError else result (x / y)%Q
  | _, _ => Return None
  end.

Definition mul (a b : Sql.num) : outcome Sql.num :=
  match a, b with
  | Some x, Some y => result (x * y)%Q
  | _, _ => Return None
  end.

End Float8.

(** ** The statement of [fetch_data_role] *)

Module RoleBreakdown.

(** The columns of [reporting_data.rpt_data_role_vacancy_trends] the
    statement reads. *)
Record role_row : Type := mkRole { data_role : string; count : Z; crawl_date : string }.

(** A row of the result. *)
Record role_share : Type := mkShare {
  share_data_role : string;
  share_count : Z;
  percentage_of_total : Sql.num;
  share_crawl_date : string
}.

(** [SUM(count)]: NULL over no rows. *)
Definition SUM (values : list Z) : Sql.num :=
  match values with
  | [] => None
  | _ :: _ => Some (inject_Z (fold_right Z.add 0 values))
  end.

(** [WHERE crawl_date = '{crawl_date}'] *)
Definition of_marker (requested : string) (table : list role_row) : list role_row :=
  filter (fun r => String.eqb (crawl_date r) requested) table.

(** [(AA.count::float / total.total_count) * 100]: the division and the
    multiplication are float8 operations, on the total and on 100 as
    float8 values. *)
Definition share (count : Z) (total_count : Sql.num) : outcome Sql.num :=
  outcome_bind (Float8.div (Float8.cast (Sql.int count)) (Float8.cast total_count))
    (fun q => Float8.mul q (Float8.cast (Sql.int 100))).

(** The statement: the rows of the marker joined with the one-row
    subquery [total]. *)
Definition select_data_role (table : list role_row) (requested : string)
  : outcome (list role_share) :=
  let total_count := SUM (map count (of_marker requested table)) in
  outcome_mapM
    (fun r => outcome_bind (share (count r) total_count) (fun p =>
              Return (mkShare (data_role r) (count r) p (crawl_date r))))
    (of_marker requested table).

(** The tuple the driver returns for a row of the result. *)
Definition share_tuple (s : role_share) : row :=
  mkRow [CStr (share_data_role s); CInt (share_count s);
         match percentage_of_total s with Some q => CNum q | None => CNull end]
        (MStr (share_crawl_date s)).

End RoleBreakdown.

(** * Presentation helpers of [pages/home_pages.py] *)

Module Presentation.

(** [html.Img(src=..., className=...)] *)
Record Img : Type := mkImg { src : string; className : string }.

(** [value > 0] on a number *)
Definition positive (value : Q) : bool := negb (Qle_bool value 0).

Definition get_change_icon (value : Q) : Img :=
  if positive value
  then mkImg "/assets/icons/arrow_up.svg" "change-icon"
  else mkImg "/assets/icons/arrow_down.svg" "change-icon".

(** The colour of the percentage next to the icon:
    ["red" if value > 0 else "green"]. *)
Definition change_colour (value : Q) : string :=
  if positive value then "red" else "green".

End Presentation.

(** * Further example data *)

Module Examples2.

(** Two roles with counts 30 and 70 at the requested marker, and two roles
    without any posting the week before. *)
Definition role_table : list RoleBreakdown.role_row :=
  [RoleBreakdown.mkRole "Data Analyst" 30 "2024-05-06";
   RoleBreakdown.mkRole "Data Analyst" 0 "2024-04-29";
   RoleBreakdown.mkRole "Data Engineer" 70 "2024-05-06";
   RoleBreakdown.mkRole "Data Engineer" 0 "2024-04-29"].

(** The warehouse answers the role statement over [role_table]. *)
Definition db_roles : database :=
  mkDatabase true (Return [[MStr "2024-05-06"]])
    (fun q =>
       match q with
       | SelectDataRole (MStr requested) =>
           outcome_map (map RoleBreakdown.share_tuple)
             (RoleBreakdown.select_data_role role_table requested)
       | _ => Return []
       end).

End Examples2.

(** * The extraction helpers ([extract_openings_statistics],
    [extract_tools_ranker], [extract_company_ranker]) *)

Module Extractors.

(** What an extraction can raise: [KeyError] for a column the frame does
    not have, or one of the exceptions above. *)
Inductive failure : Type :=
| KeyError (key : string)
| Builtin (e : exn).

Inductive result (A : Type) : Type :=
| Value (a : A)
| Fail (f : failure).

Arguments Value {A} a.
Arguments Fail {A} f.

Definition result_bind {A B : Type} (r : result A) (k : A -> result B) : result B :=
  match r with
  | Value a => k a
  | Fail f => Fail f
  end.

(** The position of a name among the column names. *)
Fixpoint index_of (name : string) (columns : list string) : option nat :=
  match columns with
  | [] => None
  | c :: r => if String.eqb c name then Some 0%nat else option_map S (index_of name r)
  end.

(** [df[name].values] on a frame built with the columns [columns] before
    [crawl_date]: [pd.DataFrame()], the only empty frame of the layer, has
    no column at all. *)
Definition values (columns : list string) (name : string) (df : DataFrame)
  : result (list cell) :=
  match df with
  | [] => Fail (KeyError name)
  | _ :: _ =>
      match index_of name columns with
      | Some i => Value (map (fun r => nth i (fields r) CNull) df)
      | None => Fail (KeyError name)
      end
  end.

(** [xs[i]] on an array *)
Definition item (xs : list cell) (i : nat) : result cell :=
  match nth_error xs i with
  | Some x => Value x
  | None => Fail (Builtin IndexError)
  end.

(** [df[name].values[i]] *)
Definition value_at (columns : list string) (name : string) (i : nat) (df : DataFrame)
  : result cell :=
  result_bind (values columns name df) (fun xs => item xs i).

Definition statistics_columns : list string :=
  ["total_openings"; "total_openings_change_pct";
   "closed_openings_count"; "closed_openings_change_pct";
   "new_openings_count"; "new_openings_change_pct";
   "fill_rate"; "fill_rate_change_pct";
   "average_weeks_to_fill"; "average_weeks_to_fill_change_pct"].

Definition tools_columns : list string :=
  ["rank"; "category"; "tool_name"; "percentage_of_tool"].

Definition company_columns : list string :=
  ["rank"; "company_name"; "opening_count"].

(** The dictionary [extract_openings_statistics] returns. *)
Record statistics : Type := mkStatistics {
  total_openings : cell;
  total_openings_change : cell;
  new_openings : cell;
  new_openings_change : cell;
  fill_rate : cell;
  fill_rate_change : cell;
  attf : cell;
  attf_change : cell
}.

Definition extract_openings_statistics (openings_statistics : DataFrame)
  : result statistics :=
  let get name := value_at statistics_columns name 0 openings_statistics in
  result_bind (get "total_openings") (fun total_openings =>
  result_bind (get "total_openings_change_pct") (fun total_openings_change =>
  result_bind (get "new_openings_count") (fun new_openings =>
  result_bind (get "new_openings_change_pct") (fun new_openings_change =>
  result_bind (get "fill_rate") (fun fill_rate =>
  result_bind (get "fill_rate_change_pct") (fun fill_rate_change =>
  result_bind (get "average_weeks_to_fill") (fun attf =>
  result_bind (get "average_weeks_to_fill_change_pct") (fun attf_change =>
  Value (mkStatistics total_openings total_openings_change new_openings
           new_openings_change fill_rate fill_rate_change attf attf_change))))))))).

(** The values of the first row that make up the dictionary. *)
Definition statistics_of_row (r : row) : statistics :=
  mkStatistics
    (nth 0 (fields r) CNull) (nth 1 (fields r) CNull)
    (nth 4 (fields r) CNull) (nth 5 (fields r) CNull)
    (nth 6 (fields r) CNull) (nth 7 (fields r) CNull)
    (nth 8 (fields r) CNull) (nth 9 (fields r) CNull).

(** The dictionary [extract_tools_ranker] returns. *)
Record tools_ranker : Type := mkToolsRanker {
  rank_1_tool_name : cell;
  rank_1_tool_percentage : cell;
  rank_2_tool_name : cell;
  rank_2_tool_percentage : cell;
  rank_3_tool_name : cell;
  rank_3_tool_percentage : cell
}.

Definition extract_tools_ranker (data_tools : DataFrame) : result tools_ranker :=
  let name i := value_at tools_columns "tool_name" i data_tools in
  let percentage i := value_at tools_columns "percentage_of_tool" i data_tools in
  result_bind (name 0%nat) (fun name_1 =>
  result_bind (percentage 0%nat) (fun percentage_1 =>
  result_bind (name 1%nat) (fun name_2 =>
  result_bind (percentage 1%nat) (fun percentage_2 =>
  result_bind (name 2%nat) (fun name_3 =>
  result_bind (percentage 2%nat) (fun percentage_3 =>
  Value (mkToolsRanker name_1 percentage_1 name_2 percentage_2
           name_3 percentage_3))))))).

(** The dictionary [extract_company_ranker] returns. *)
Record company_ranker : Type := mkCompanyRanker {
  rank_1_company_name : cell;
  rank_1_openings : cell;
  rank_2_company_name : cell;
  rank_2_openings : cell;
  rank_3_company_name : cell;
  rank_3_openings : cell;
  rank_4_company_name : cell;
  rank_4_openings : cell;
  rank_5_company_name : cell;
  rank_5_openings : cell
}.

Definition extract_company_ranker (openings_company : DataFrame)
  : result company_ranker :=
  let name i := value_at company_columns "company_name" i openings_company in
  let openings i := value_at company_columns "opening_count" i openings_company in
  result_bind (name 0%nat) (fun name_1 =>
  result_bind (openings 0%nat) (fun openings_1 =>
  result_bind (name 1%nat) (fun name_2 =>
  result_bind (openings 1%nat) (fun openings_2 =>
  result_bind (name 2%nat) (fun name_3 =>
  result_bind (openings 2%nat) (fun openings_3 =>
  result_bind (name 3%nat) (fun name_4 =>
  result_bind (openings 3%nat) (fun openings_4 =>
  result_bind (name 4%nat) (fun name_5 =>
  result_bind (openings 4%nat) (fun openings_5 =>
  Value (mkCompanyRanker name_1 openings_1 name_2 openings_2 name_3 openings_3
           name_4 openings_4 name_5 openings_5))))))))))).

(** The name and the percentage of a row of the tool ranking. *)
Definition tool_name_of (r : row) : cell := nth 2 (fields r) CNull.
Definition percentage_of (r : row) : cell := nth 3 (fields r) CNull.

(** The name and the opening count of a row of the company ranking. *)
Definition company_name_of (r : row) : cell := nth 1 (fields r) CNull.
Definition openings_of (r : row) : cell := nth 2 (fields r) CNull.

(** The first statements of [page_content]: the page load, then
    [extract_openings_statistics] on its first frame. *)
Definition page_content_statistics (pd : pandas) (db : database)
  : state -> result statistics * state :=
  fun st =>
    match HomePages.load_home_page_data pd db st with
    | (Return (openings_statistics, _, _, _, _, _), st') =>
        (extract_openings_statistics openings_statistics, st')
    | (Raise e, st') => (Fail (Builtin e), st')
    end.

End Extractors.

(** * The title dates of [create_data_role_pie]

    A [datetime.date] is taken by its proleptic Gregorian ordinal, the day
    number on which [date + timedelta(days=n)] adds [n] and on which
    [weekday()] is [(ordinal + 6) % 7], Monday being 0. *)

Module PieTitle.

(** A [datetime.date] by its ordinal: 1 is 0001-01-01, a Monday, and
    [max_ordinal] is 9999-12-31, the last date there is. *)
Definition max_ordinal : Z := 3652059.

(** [crawl_date.weekday()]: 0 on a Monday. *)
Definition weekday (ordinal : Z) : Z := (ordinal + 6) mod 7.

Inductive date_result : Type :=
| Date (ordinal : Z)
| OverflowError.

(** [date + timedelta(days=days)]: a result outside the dates there are is
    an [OverflowError]. *)
Definition add_days (ordinal days : Z) : date_result :=
  if (1 <=? ordinal + days) && (ordinal + days <=? max_ordinal)
  then Date (ordinal + days)
  else OverflowError.

(** [next_monday = crawl_date + timedelta(days=(7 - crawl_date.weekday()))] *)
Definition next_monday (crawl_date : Z) : date_result :=
  add_days crawl_date (7 - weekday crawl_date).

End PieTitle.

(** * [GeneralDataProcessor.read_json_to_df] of [utils/etl_utils.py]:
    the file it reads *)

Module Etl.

(** [s.endswith(suffix)] *)
Fixpoint endswith (suffix s : string) : bool :=
  if String.eqb s suffix then true
  else match s with
       | EmptyString => false
       | String _ r => endswith suffix r
       end.

(** [[file for file in files if file.endswith('.json')]] *)
Definition json_files (files : list string) : list string :=
  filter (endswith ".json") files.

(** [json_files.sort(reverse=True); latest_json_file = json_files[0]], with
    [None] when the function returns [(None, None)] for want of a JSON
    file; [files] is what [os.listdir] gives. *)
Definition latest_json_file (files : list string) : option string :=
  match sort_by (fun a b => String.leb b a) (json_files files) with
  | [] => None
  | latest :: _ => Some latest
  end.

End Etl.

(** * Colours and annotations of the tool-trend charts *)

Module ChartStyle.

Import CreateReportChart.

(** [color_sequence] of [create_tool_trends_line_chart] *)
Definition color_sequence : list string :=
  ["#2E2E48"; "#42425F"; "#565778"; "#6C6E91"; "#8285AC"; "#989CC7"; "#AFB5E3";
   "#C7CEFF"; "#C7CEFF"; "#C7CEFF"].

Section Colours.

(** [sort_values(ascending=False)]: pandas does not fix the order of equal
    totals here, so the sort is taken as it comes. *)
Variable sort_values_descending : list (string * Z) -> list (string * Z).

(** [filtered_data.groupby('tool_name')['count'].sum()
      .sort_values(ascending=False).index] *)
Definition tool_order (filtered_data : list ((string * string) * Z)) : list string :=
  map fst
    (sort_values_descending
       (groupby_sum String.eqb String.leb
          (map (fun g => (fst (fst g), snd g)) filtered_data))).

(** [{tool: color for tool, color in zip(tool_order, color_sequence)}] *)
Definition tool_colors (filtered_data : list ((string * string) * Z))
  : list (string * string) :=
  combine (tool_order filtered_data) color_sequence.

End Colours.

(** [filtered_data] of [create_tool_popularity_bar_chart], which the
    annotations read after the branches. *)
Definition bar_filtered_data (tool_by_data_role : list tool_row)
    (selected_datarole selected_category : string) : list tool_row :=
  if String.eqb selected_datarole "All" && String.eqb selected_category "All" then
    tool_by_data_role
  else if String.eqb selected_datarole "All" then
    filter (fun r => String.eqb (category r) selected_category) tool_by_data_role
  else if String.eqb selected_category "All" then
    filter (fun r => String.eqb (data_role r) selected_datarole) tool_by_data_role
  else
    filter (fun r => String.eqb (data_role r) selected_datarole
                     && String.eqb (category r) selected_category)
           tool_by_data_role.

(** [tool_data.groupby('data_role')['count'].sum()] for one tool *)
Definition roles_count (filtered_data : list tool_row) (tool : string)
  : list (string * Z) :=
  groupby_sum String.eqb String.leb
    (map (fun r => (data_role r, count r))
         (filter (fun r => String.eqb (tool_name r) tool) filtered_data)).

(** The int64 sum of the counts of the rows of [tool] that are of [role]:
    the entry of [role] in [roles_count], read off the frame. *)
Definition role_total (role tool : string) (filtered_data : list tool_row) : Z :=
  int64
    (fold_right Z.add 0
       (map count
          (filter (fun r => String.eqb (data_role r) role)
             (filter (fun r => String.eqb (tool_name r) tool) filtered_data)))).

(** [roles_count.max()] and [roles_count.min()], on int64 values; [None]
    on no role. *)
Definition series_extreme (pick : Z -> Z -> Z) (counts : list (string * Z)) : option Z :=
  match counts with
  | [] => None
  | (_, c) :: r => Some (fold_left (fun m kv => pick m (snd kv)) r c)
  end.

(** [roles_count[roles_count == extreme].index.tolist()] *)
Definition roles_at (extreme : option Z) (counts : list (string * Z)) : list string :=
  match extreme with
  | None => []
  | Some m => map fst (filter (fun kv => Z.eqb (snd kv) m) counts)
  end.

Definition most_popular_roles (counts : list (string * Z)) : list string :=
  roles_at (series_extreme Z.max counts) counts.

Definition least_popular_roles (counts : list (string * Z)) : list string :=
  roles_at (series_extreme Z.min counts) counts.

(** An annotation of the bar chart: its position and the roles it names. *)
Record annotation : Type := mkAnnotation {
  x : Z;
  y : string;
  most_popular : list string;
  least_popular : list string
}.

(** The loop over [top_tools.iterrows()]. *)
Definition annotations (tool_by_data_role : list tool_row)
    (selected_datarole selected_category : string) : list annotation :=
  map
    (fun row =>
       let roles :=
         roles_count (bar_filtered_data tool_by_data_role selected_datarole
                        selected_category) (fst row) in
       mkAnnotation (snd row + 3000) (fst row)
         (most_popular_roles roles) (least_popular_roles roles))
    (create_tool_popularity_bar_chart tool_by_data_role selected_datarole
       selected_category).

End ChartStyle.

(** ** The script [dashboard_app.py] *)

Module DashboardApp.

Import FetchReportData.

Section Script.

Variable pd : pandas.
Variable db : database.

Definition fetch_openings_statistics (crawl_date : marker) : M DataFrame :=
  (data <- fetch_openings_statistics_metrics db crawl_date ;;
   if negb (empty data) then
     if forallb (fun r => series_eq pd (col_crawl_date r) crawl_date) data then
       ret data
     else
       logger ERROR "Data inconsistency detected: 'crawl_date' does not match the provided date." ;;
       ret []
   else
     logger INFO "No data available for openings statistics on the provided crawl date." ;;
     ret [])%py.

Definition fetch_historical_total_openings : M DataFrame :=
  (data <- fetch_openings_history db ;;
   if negb (empty data) then
     newest_crawl_date <- get_newest_crawl_date db ;;
     max_crawl_date <- lift (series_max pd (map col_crawl_date data)) ;;
     same <- lift (to_datetime_eq pd max_crawl_date newest_crawl_date) ;;
     if (same : bool) then
       ret data
     else
       logger ERROR "Data inconsistency detected: The newest data in historical openings does not match the newest crawl date." ;;
       ret []
   else
     logger INFO "No historical data available for total openings." ;;
     ret [])%py.

(** The script's page load: two wrappers, and no [return] statement. *)
Definition load_home_page_data : M unit :=
  (init db ;;
   newest_crawl_date <- get_newest_crawl_date db ;;
   match newest_crawl_date with
   | Some crawl_date =>
       if HomePages.truthy newest_crawl_date then
         logger INFO "Fetching data for the date" ;;
         openings_statistics <- fetch_openings_statistics crawl_date ;;
         historical_total_openings <- fetch_historical_total_openings ;;
         ret tt
       else
         logger INFO "No newest crawl date available." ;;
         ret tt
   | None =>
       logger INFO "No newest crawl date available." ;;
       ret tt
   end ;;
   close ;;
   logger INFO "Database connection closed." ;;
   ret tt)%py.

End Script.

End DashboardApp.

(** * Properties *)

(** ** Company-name normalisation *)

Module CompanyNameFacts.

Import CompanyName.

Lemma split_head (c : ascii) (name : string) :
  index0 (split c name) = Return (before_first c name).
Proof.
  induction name as [|a r IH]; simpl; [reflexivity|].
  destruct (Ascii.eqb a c); [reflexivity|].
  destruct (split c r) as [|p ps]; simpl in *; [discriminate|].
  injection IH as ->. reflexivity.
Qed.

(** A name with an underscore is cut at its first underscore. *)
Lemma adjust_underscore (name : string) :
  contains underscore name = true ->
  adjust_company_name name = Return (before_first underscore name).
Proof.
  intros H. unfold adjust_company_name. rewrite H. apply split_head.
Qed.

(** A name with neither an underscore nor both parentheses is returned
    as it is. *)
Lemma adjust_plain (name : string) :
  contains underscore name = false ->
  contains lparen name && contains rparen name = false ->
  adjust_company_name name = Return name.
Proof.
  intros H1 H2. unfold adjust_company_name. rewrite H1, H2. reflexivity.
Qed.

Lemma lazy_group_closed (g rest : string) :
  contains rparen g = false ->
  contains newline g = false ->
  lazy_group (g ++ String rparen rest) = Some g.
Proof.
  induction g as [|a g IH]; simpl; intros Hr Hn.
  - reflexivity.
  - destruct (Ascii.eqb a rparen); [discriminate|].
    destruct (Ascii.eqb a newline); [discriminate|].
    rewrite (IH Hr Hn). reflexivity.
Qed.

Lemma re_search_first_group (before g rest : string) :
  contains lparen before = false ->
  contains rparen g = false ->
  contains newline g = false ->
  re_search (before ++ String lparen (g ++ String rparen rest)) = Some g.
Proof.
  induction before as [|a b IH]; simpl; intros Hb Hr Hn.
  - rewrite (lazy_group_closed g rest Hr Hn). reflexivity.
  - destruct (Ascii.eqb a lparen); [discriminate|]. apply IH; assumption.
Qed.

Lemma contains_app (c : ascii) (s t : string) :
  contains c (s ++ t) = contains c s || contains c t.
Proof.
  induction s as [|a s IH]; simpl; [reflexivity|].
  destruct (Ascii.eqb a c); [reflexivity|exact IH].
Qed.

(** A name without underscore in which the first opening parenthesis is
    followed, on the same line, by a closing one is replaced by the text
    between the two. *)
Lemma adjust_parenthesized (before g rest : string) :
  contains underscore (before ++ String lparen (g ++ String rparen rest)) = false ->
  contains lparen before = false ->
  contains rparen g = false ->
  contains newline g = false ->
  adjust_company_name (before ++ String lparen (g ++ String rparen rest)) = Return g.
Proof.
  intros Hu Hb Hr Hn. unfold adjust_company_name. rewrite Hu.
  assert (Hl : contains lparen (before ++ String lparen (g ++ String rparen rest)) = true).
  { rewrite contains_app. simpl. apply orb_true_r. }
  assert (Hc : contains rparen (before ++ String lparen (g ++ String rparen rest)) = true).
  { rewrite contains_app. simpl. rewrite contains_app. simpl.
    rewrite !orb_true_r. reflexivity. }
  rewrite Hl, Hc. simpl.
  rewrite (re_search_first_group before g rest Hb Hr Hn). reflexivity.
Qed.

(** The three names of the specification. *)
Example adjust_examples :
  adjust_company_name "Acme_Corp" = Return "Acme"
  /\ adjust_company_name "Foo (Bar Inc)" = Return "Bar Inc"
  /\ adjust_company_name "PlainName" = Return "PlainName".
Proof. repeat split; reflexivity. Qed.

(** A group cannot be found when no closing parenthesis follows an
    opening one. *)
Lemma lazy_group_none (s : string) :
  contains rparen s = false -> lazy_group s = None.
Proof.
  induction s as [|a s IH]; simpl; intros H; [reflexivity|].
  destruct (Ascii.eqb a rparen); [discriminate|].
  rewrite (IH H). destruct (Ascii.eqb a newline); reflexivity.
Qed.

Lemma re_search_closing_first (before after : string) :
  contains lparen before = false ->
  contains rparen after = false ->
  re_search (before ++ after) = None.
Proof.
  induction before as [|a b IH]; simpl; intros Hb Ha.
  - induction after as [|c r IHr]; simpl in *; [reflexivity|].
    destruct (Ascii.eqb c rparen); [discriminate|].
    rewrite (lazy_group_none r Ha), (IHr Ha).
    destruct (Ascii.eqb c lparen); reflexivity.
  - destruct (Ascii.eqb a lparen); [discriminate|]. apply IH; assumption.
Qed.

(** C5. [adjust_company_name] does not return a name for every string: on
    a name without underscore that holds both parentheses, the closing one
    first, the guard [('(' in name and ')' in name)] passes, [re.search]
    finds no match and [.group(1)] on [None] raises. *)
Theorem adjust_company_name_unmatched :
  contains underscore "Acme) Taiwan (" = false
  /\ contains lparen "Acme) Taiwan (" && contains rparen "Acme) Taiwan (" = true
  /\ re_search "Acme) Taiwan (" = None
  /\ adjust_company_name "Acme) Taiwan (" = Raise AttributeError.
Proof. repeat split; reflexivity. Qed.

(** The same failure for every name of that shape. *)
Lemma adjust_closing_first (before after : string) :
  contains underscore (before ++ after) = false ->
  contains lparen before = false ->
  contains rparen before = true ->
  contains lparen after = true ->
  contains rparen after = false ->
  adjust_company_name (before ++ after) = Raise AttributeError.
Proof.
  intros Hu Hlb Hrb Hla Hra. unfold adjust_company_name.
  rewrite Hu, !contains_app, Hrb, Hla, orb_true_r. simpl.
  rewrite (re_search_closing_first before after Hlb Hra). reflexivity.
Qed.

End CompanyNameFacts.

(** ** Percentages of the SQL statements *)

Module SqlFacts.

Import Sql.

Lemma Qeq_bool_false_neq (x y : Q) : ~ x == y -> Qeq_bool x y = false.
Proof.
  intros H. destruct (Qeq_bool x y) eqn:E; [|reflexivity].
  apply Qeq_bool_iff in E. contradiction.
Qed.

Lemma Qeq_bool_true_eq (x y : Q) : x == y -> Qeq_bool x y = true.
Proof. intros H. apply Qeq_bool_iff. exact H. Qed.

Lemma change_pct_nonzero (cur prev : Q) :
  ~ prev == 0 ->
  change_pct (Some cur) (Some prev) = Return (Some ((cur - prev) / prev * 100)%Q).
Proof.
  intros H. unfold change_pct, CAST_FLOAT, NULLIF, sub, div.
  rewrite (Qeq_bool_false_neq _ _ H). simpl.
  rewrite (Qeq_bool_false_neq _ _ H). reflexivity.
Qed.

Lemma change_pct_zero (cur : num) (prev : Q) :
  prev == 0 -> change_pct cur (Some prev) = Return (Some 0%Q).
Proof.
  intros H. unfold change_pct, CAST_FLOAT, NULLIF.
  rewrite (Qeq_bool_true_eq _ _ H). destruct cur; reflexivity.
Qed.

Lemma change_pct_absent (cur : num) : change_pct cur None = Return (Some 0%Q).
Proof. destruct cur; reflexivity. Qed.

Lemma percentage_of_tool_nonzero (tool_count total : Q) :
  ~ total == 0 ->
  percentage_of_tool (Some tool_count) (Some total)
  = Return (Some (tool_count / total * 100)%Q).
Proof.
  intros H. unfold percentage_of_tool, CAST_FLOAT, NULLIF, div.
  rewrite (Qeq_bool_false_neq _ _ H). simpl.
  rewrite (Qeq_bool_false_neq _ _ H). reflexivity.
Qed.

Lemma percentage_of_tool_zero (tool_count : num) (total : Q) :
  total == 0 -> percentage_of_tool tool_count (Some total) = Return (Some 0%Q).
Proof.
  intros H. unfold percentage_of_tool, CAST_FLOAT, NULLIF.
  rewrite (Qeq_bool_true_eq _ _ H). destruct tool_count; reflexivity.
Qed.

Lemma percentage_of_tool_absent (tool_count : num) :
  percentage_of_tool tool_count None = Return (Some 0%Q).
Proof. destruct tool_count; reflexivity. Qed.

(** The oldest row of the window has no following row: [LEAD] gives NULL
    and the five percentages of that row are 0. *)
Lemma oldest_row_percentages (r : AAA_row) :
  exists s, outcome_mapM outer_select_row (inner_select [r]) = Return [s]
    /\ st_total_openings_change_pct s = Some 0%Q
    /\ st_closed_openings_change_pct s = Some 0%Q
    /\ st_new_openings_change_pct s = Some 0%Q
    /\ st_fill_rate_change_pct s = Some 0%Q
    /\ st_average_weeks_to_fill_change_pct s = Some 0%Q.
Proof.
  simpl. unfold outer_select_row. simpl. rewrite !change_pct_absent. simpl.
  eexists. split; [reflexivity|]. simpl. repeat split.
Qed.

(** C3, as stated, fails for the tool-ranking percentage: with 30
    postings naming the tool out of 100 openings the column holds 30, not
    [(30 - 100) / 100 * 100]. *)
Lemma percentage_of_tool_is_not_a_change :
  exists q, percentage_of_tool (int 30) (int 100) = Return (Some q)
    /\ q == 30
    /\ ~ q == (30 - 100) / 100 * 100.
Proof.
  eexists. split; [reflexivity|]. split; [reflexivity|].
  intros H. vm_compute in H. discriminate.
Qed.

(** C3, amended.  Each change percentage of the openings-statistics query
    is [(current - previous) / previous * 100] when [previous] is present
    and not zero, and 0, without a query error, when [previous] is zero or
    NULL; the tool-ranking percentage is
    [tool_count / total_openings * 100] when [total_openings] is present
    and not zero, and 0 when it is zero or NULL; previous 50 and current 75
    give 50. *)
Theorem change_percentages (current previous : Q) :
  (~ previous == 0 ->
     change_pct (Some current) (Some previous)
     = Return (Some ((current - previous) / previous * 100)%Q))
  /\ (previous == 0 -> change_pct (Some current) (Some previous) = Return (Some 0%Q))
  /\ change_pct (Some current) None = Return (Some 0%Q)
  /\ (~ previous == 0 ->
     percentage_of_tool (Some current) (Some previous)
     = Return (Some (current / previous * 100)%Q))
  /\ (previous == 0 -> percentage_of_tool (Some current) (Some previous) = Return (Some 0%Q))
  /\ percentage_of_tool (Some current) None = Return (Some 0%Q)
  /\ (exists q, change_pct (int 75) (int 50) = Return (Some q) /\ q == 50).
Proof.
  split; [apply change_pct_nonzero|].
  split; [apply change_pct_zero|].
  split; [apply change_pct_absent|].
  split; [apply percentage_of_tool_nonzero|].
  split; [apply percentage_of_tool_zero|].
  split; [apply percentage_of_tool_absent|].
  eexists. split; reflexivity.
Qed.

Lemma change_percentages_witness :
  change_pct (Some 75%Q) (Some 50%Q) = Return (Some ((75 - 50) / 50 * 100)%Q)
  /\ change_pct (Some 75%Q) (Some 0%Q) = Return (Some 0%Q)
  /\ percentage_of_tool (Some 30%Q) (Some 100%Q) = Return (Some (30 / 100 * 100)%Q).
Proof.
  split; [|split].
  - refine (proj1 (change_percentages 75 50) _).
    intros H. vm_compute in H. discriminate.
  - refine (proj1 (proj2 (change_percentages 75 0)) _). reflexivity.
  - refine (proj1 (proj2 (proj2 (proj2 (change_percentages 30 100)))) _).
    intros H. vm_compute in H. discriminate.
Defined.

End SqlFacts.

(** ** The fetchers of [FetchReportData] *)

Module FetchFacts.

Import FetchReportData.

Ltac run_py :=
  unfold fetch_openings_statistics_metrics, fetch_openings_history, fetch_data_role,
    fetch_data_tool, fetch_openings_company, fetch_taiepi_area_openings,
    fetch_tool_by_data_role, fetch_tool_trends, get_newest_crawl_date,
    execute_query, try_except, bind, ret, raise, lift, logger, cursor,
    execute_fetchall; simpl.

Ltac log_grows :=
  simpl; rewrite <- ?app_assoc; simpl;
  eexists; split; [|reflexivity]; discriminate.

(** Every path of a fetcher ends in [return df] or [return pd.DataFrame()]:
    the cases are whether the connection gives a cursor, what the statement
    answers, and whether building the frame raises. *)
Ltac fetcher_cases answer :=
  unfold fetcher_contract, empty_with_log; intros st; run_py;
  destruct (connection_open st); simpl;
  [ destruct answer as [[|r rs]|e]; simpl;
    [ split; [eauto|]; split;
      [ intros _; eexists; split; [reflexivity|]; log_grows
      | intros e H; discriminate ]
    | split;
      [ repeat match goal with
          | |- context [match ?o with Return _ => _ | Raise _ => _ end] =>
              destruct o; simpl
          end; eauto
      | split; [discriminate|intros e H; discriminate] ]
    | split; [eauto|]; split; [discriminate|];
      intros e' _; eexists; split; [reflexivity|]; log_grows ]
  | split; [eauto|]; split; intros; eexists; (split; [reflexivity|]); log_grows ].

Lemma fetch_openings_statistics_metrics_contract (db : database) (crawl_date : marker) :
  fetcher_contract (rows_of db (SelectOpeningsStatistics crawl_date))
    (fetch_openings_statistics_metrics db crawl_date).
Proof. fetcher_cases (rows_of db (SelectOpeningsStatistics crawl_date)). Qed.

Lemma fetch_openings_history_contract (db : database) :
  fetcher_contract (rows_of db SelectOpeningsHistory) (fetch_openings_history db).
Proof. fetcher_cases (rows_of db SelectOpeningsHistory). Qed.

Lemma fetch_data_role_contract (db : database) (crawl_date : marker) :
  fetcher_contract (rows_of db (SelectDataRole crawl_date)) (fetch_data_role db crawl_date).
Proof. fetcher_cases (rows_of db (SelectDataRole crawl_date)). Qed.

Lemma fetch_data_tool_contract (db : database) (crawl_date : marker) :
  fetcher_contract (rows_of db (SelectDataTool crawl_date)) (fetch_data_tool db crawl_date).
Proof. fetcher_cases (rows_of db (SelectDataTool crawl_date)). Qed.

Lemma fetch_openings_company_contract (db : database) (crawl_date : marker) :
  fetcher_contract (rows_of db (SelectOpeningsCompany crawl_date))
    (fetch_openings_company db crawl_date).
Proof. fetcher_cases (rows_of db (SelectOpeningsCompany crawl_date)). Qed.

Lemma fetch_taiepi_area_openings_contract (db : database) (crawl_date : marker) :
  fetcher_contract (rows_of db (SelectTaipeiAreaOpenings crawl_date))
    (fetch_taiepi_area_openings db crawl_date).
Proof. fetcher_cases (rows_of db (SelectTaipeiAreaOpenings crawl_date)). Qed.

Lemma fetch_tool_by_data_role_contract (db : database) :
  fetcher_contract (rows_of db SelectToolByDataRole) (fetch_tool_by_data_role db).
Proof. fetcher_cases (rows_of db SelectToolByDataRole). Qed.

Lemma fetch_tool_trends_contract (db : database) :
  fetcher_contract (rows_of db SelectToolTrends) (fetch_tool_trends db).
Proof. fetcher_cases (rows_of db SelectToolTrends). Qed.

End FetchFacts.

(** ** The wrappers of the home page *)

Module WrapperFacts.

Import FetchReportData HomePages.

Lemma forallb_false_of_exists {A : Type} (p : A -> bool) (l : list A) :
  (exists x, In x l /\ p x = false) -> forallb p l = false.
Proof.
  intros [x [Hin Hp]]. destruct (forallb p l) eqn:E; [|reflexivity].
  rewrite forallb_forall in E. rewrite (E x Hin) in Hp. discriminate.
Qed.

Lemma filter_or_empty (p : row -> bool) (l : DataFrame) :
  (if negb (empty (filter p l)) then filter p l else []) = filter p l.
Proof. destruct (filter p l); reflexivity. Qed.

Ltac enter_wrapper Hfetch Hcoerce Hprov :=
  unfold fetch_data_role_for_dashboard, fetch_data_tools_for_dashboard,
    fetch_openings_company_for_dashboard, fetch_taiepi_area_openings_for_dashboard,
    fetch_openings_statistics_for_dashboard, bind;
  rewrite Hfetch;
  match goal with
  | Hne : ?data <> [] |- _ =>
      destruct data as [|r0 rs0]; [contradiction Hne; reflexivity|]
  end;
  cbn [empty negb];
  unfold lift; try rewrite Hcoerce; try rewrite Hprov.

Section Contracts.

Variable pd : pandas.
Variable db : database.
Variable crawl_date : marker.

Lemma openings_statistics_discards :
  discards_mismatch_as_fetched pd crawl_date
    (fetch_openings_statistics_metrics db crawl_date)
    (fetch_openings_statistics_for_dashboard pd db crawl_date).
Proof.
  intros st data st1 Hfetch Hne Hex.
  pose proof (forallb_false_of_exists _ _ Hex) as Hall.
  enter_wrapper Hfetch Hfetch Hfetch. rewrite Hall.
  eexists. reflexivity.
Qed.

Lemma data_role_discards :
  discards_mismatch pd crawl_date (fetch_data_role db crawl_date)
    (fetch_data_role_for_dashboard pd db crawl_date).
Proof.
  intros st data st1 coerced provided Hfetch Hne Hcoerce Hprov Hex.
  pose proof (forallb_false_of_exists _ _ Hex) as Hall.
  enter_wrapper Hfetch Hcoerce Hprov. rewrite Hall.
  exists [], "Data inconsistency detected: 'crawl_date' does not match the provided date.".
  split; [reflexivity|]. split; [left; reflexivity|]. intros r [].
Qed.

Ltac discards_by_filter :=
  intros st data st1 coerced provided Hfetch Hne Hcoerce Hprov Hex;
  pose proof (forallb_false_of_exists _ _ Hex) as Hall;
  enter_wrapper Hfetch Hcoerce Hprov; rewrite Hall;
  unfold logger, ret; cbn [fst snd]; rewrite filter_or_empty;
  eexists; eexists; split; [reflexivity|]; split; [right; reflexivity|];
  intros r Hin; apply filter_In in Hin; apply Hin.

Lemma data_tools_discards :
  discards_mismatch pd crawl_date (fetch_data_tool db crawl_date)
    (fetch_data_tools_for_dashboard pd db crawl_date).
Proof. discards_by_filter. Qed.

Lemma openings_company_discards :
  discards_mismatch pd crawl_date (fetch_openings_company db crawl_date)
    (fetch_openings_company_for_dashboard pd db crawl_date).
Proof. discards_by_filter. Qed.

Lemma taiepi_area_openings_discards :
  discards_mismatch pd crawl_date (fetch_taiepi_area_openings db crawl_date)
    (fetch_taiepi_area_openings_for_dashboard pd db crawl_date).
Proof. discards_by_filter. Qed.

Ltac accepts_by_forallb :=
  intros st data st1 coerced provided Hfetch Hne Hcoerce Hprov Hall;
  apply forallb_forall in Hall;
  enter_wrapper Hfetch Hcoerce Hprov; rewrite Hall;
  unfold logger, ret; eexists; reflexivity.

Lemma data_role_accepts :
  accepts_same_day pd crawl_date (fetch_data_role db crawl_date)
    (fetch_data_role_for_dashboard pd db crawl_date).
Proof. accepts_by_forallb. Qed.

Lemma data_tools_accepts :
  accepts_same_day pd crawl_date (fetch_data_tool db crawl_date)
    (fetch_data_tools_for_dashboard pd db crawl_date).
Proof. accepts_by_forallb. Qed.

Lemma openings_company_accepts :
  accepts_same_day pd crawl_date (fetch_openings_company db crawl_date)
    (fetch_openings_company_for_dashboard pd db crawl_date).
Proof. accepts_by_forallb. Qed.

Lemma taiepi_area_openings_accepts :
  accepts_same_day pd crawl_date (fetch_taiepi_area_openings db crawl_date)
    (fetch_taiepi_area_openings_for_dashboard pd db crawl_date).
Proof. accepts_by_forallb. Qed.

Ltac raises_by_conversion :=
  intros st data st1 e Hfetch Hne Hcoerce;
  enter_wrapper Hfetch Hcoerce Hcoerce; reflexivity.

Lemma data_role_propagates :
  propagates_conversion_error pd (fetch_data_role db crawl_date)
    (fetch_data_role_for_dashboard pd db crawl_date).
Proof. raises_by_conversion. Qed.

Lemma data_tools_propagates :
  propagates_conversion_error pd (fetch_data_tool db crawl_date)
    (fetch_data_tools_for_dashboard pd db crawl_date).
Proof. raises_by_conversion. Qed.

Lemma openings_company_propagates :
  propagates_conversion_error pd (fetch_openings_company db crawl_date)
    (fetch_openings_company_for_dashboard pd db crawl_date).
Proof. raises_by_conversion. Qed.

Lemma taiepi_area_openings_propagates :
  propagates_conversion_error pd (fetch_taiepi_area_openings db crawl_date)
    (fetch_taiepi_area_openings_for_dashboard pd db crawl_date).
Proof. raises_by_conversion. Qed.

End Contracts.

End WrapperFacts.

(** ** The lexicographic order on strings *)

Module StringOrder.

Lemma leb_refl (s : string) : String.leb s s = true.
Proof. destruct (String.leb_total s s); assumption. Qed.

Lemma leb_trans (a b c : string) :
  String.leb a b = true -> String.leb b c = true -> String.leb a c = true.
Proof.
  unfold String.leb. revert b c.
  induction a as [|x a IH]; intros [|y b] [|z c]; simpl; try congruence.
  unfold Ascii.compare.
  destruct (N.compare_spec (N_of_ascii x) (N_of_ascii y)) as [Exy|Lxy|Gxy];
    destruct (N.compare_spec (N_of_ascii y) (N_of_ascii z)) as [Eyz|Lyz|Gyz];
    destruct (N.compare_spec (N_of_ascii x) (N_of_ascii z)) as [Exz|Lxz|Gxz];
    try congruence; try lia.
  apply IH.
Qed.

Lemma leb_neq_ltb (a b : string) :
  String.leb a b = true -> a <> b -> String.ltb a b = true.
Proof.
  unfold String.leb, String.ltb. intros H Hne.
  destruct (String.compare a b) eqn:E; try congruence.
  apply String.compare_eq_iff in E. contradiction.
Qed.

Lemma ltb_leb (a b : string) : String.ltb a b = true -> String.leb a b = true.
Proof.
  unfold String.leb, String.ltb. destruct (String.compare a b); congruence.
Qed.

Lemma ltb_irrefl (a : string) : String.ltb a a = false.
Proof.
  unfold String.ltb. destruct (String.compare a a) eqn:E; try reflexivity.
  pose proof (String.compare_antisym a a) as H. rewrite E in H. discriminate.
Qed.

End StringOrder.

(** ** Stable insertion sort *)

Section SortingFacts.

Context {A : Type}.
Variable leb : A -> A -> bool.

Lemma insert_by_perm (x : A) (l : list A) : Permutation (insert_by leb x l) (x :: l).
Proof.
  induction l as [|y r IH]; simpl; [reflexivity|].
  destruct (leb x y); [reflexivity|].
  rewrite IH. apply perm_swap.
Qed.

Lemma sort_by_perm (l : list A) : Permutation (sort_by leb l) l.
Proof.
  induction l as [|x r IH]; simpl; [reflexivity|].
  rewrite insert_by_perm. constructor. exact IH.
Qed.

Lemma sort_by_in (l : list A) (x : A) : In x (sort_by leb l) <-> In x l.
Proof.
  split; apply Permutation_in; [|symmetry]; apply sort_by_perm.
Qed.

Lemma sort_by_length (l : list A) : List.length (sort_by leb l) = List.length l.
Proof. apply Permutation_length, sort_by_perm. Qed.

Hypothesis leb_total : forall a b, leb a b = true \/ leb b a = true.
Hypothesis leb_trans : forall a b c, leb a b = true -> leb b c = true -> leb a c = true.

Lemma insert_by_sorted (x : A) (l : list A) :
  StronglySorted (fun a b => leb a b = true) l ->
  StronglySorted (fun a b => leb a b = true) (insert_by leb x l).
Proof.
  induction l as [|y r IH]; simpl; intros Hs.
  - constructor; constructor.
  - apply StronglySorted_inv in Hs. destruct Hs as [Hr Hall].
    destruct (leb x y) eqn:E.
    + constructor; [constructor; assumption|].
      constructor; [exact E|].
      rewrite Forall_forall in *. intros z Hz. eapply leb_trans; eauto.
    + constructor; [apply IH; exact Hr|].
      rewrite Forall_forall in *. intros z Hz.
      apply (Permutation_in _ (insert_by_perm x r)) in Hz.
      destruct Hz as [<-|Hz]; [|auto].
      destruct (leb_total x y) as [H|H]; congruence.
Qed.

Lemma sort_by_sorted (l : list A) :
  StronglySorted (fun a b => leb a b = true) (sort_by leb l).
Proof.
  induction l as [|x r IH]; simpl; [constructor|].
  apply insert_by_sorted. exact IH.
Qed.

End SortingFacts.

Section ListFacts.

Context {A : Type}.

(** In a sorted list every element of a prefix is related to every
    element of the rest. *)
Lemma sorted_prefix_dominates (R : A -> A -> Prop) (n : nat) (l : list A) :
  StronglySorted R l ->
  forall x y, In x (firstn n l) -> In y (skipn n l) -> R x y.
Proof.
  revert n. induction l as [|a r IH]; intros n Hs x y Hx Hy.
  - destruct n; simpl in Hx; contradiction.
  - destruct n as [|n]; simpl in *; [contradiction|].
    apply StronglySorted_inv in Hs. destruct Hs as [Hr Hall].
    destruct Hx as [<-|Hx].
    + rewrite Forall_forall in Hall. apply Hall.
      rewrite <- (firstn_skipn n r). apply in_or_app. right. exact Hy.
    + eapply IH; eauto.
Qed.

Lemma NoDup_firstn (n : nat) (l : list A) : NoDup l -> NoDup (firstn n l).
Proof.
  intros H. rewrite <- (firstn_skipn n l) in H.
  eapply NoDup_app_remove_r. exact H.
Qed.

Lemma NoDup_map_injective {B : Type} (f : A -> B) (l : list A) (a b : A) :
  NoDup (map f l) -> In a l -> In b l -> f a = f b -> a = b.
Proof.
  induction l as [|x r IH]; simpl; intros Hnd Ha Hb Hf; [contradiction|].
  inversion Hnd as [|? ? Hnotin Hnd']; subst.
  destruct Ha as [<-|Ha], Hb as [<-|Hb]; auto.
  - exfalso. apply Hnotin. rewrite Hf. apply in_map. exact Hb.
  - exfalso. apply Hnotin. rewrite <- Hf. apply in_map. exact Ha.
Qed.

(** A sorted list without repetition of keys is strictly sorted. *)
Lemma sorted_strict (R S : A -> A -> Prop) (l : list A) :
  (forall a b, In a l -> In b l -> R a b -> a <> b -> S a b) ->
  NoDup l ->
  StronglySorted R l -> StronglySorted S l.
Proof.
  induction l as [|x r IH]; intros Hrs Hnd Hs; [constructor|].
  apply StronglySorted_inv in Hs. destruct Hs as [Hr Hall].
  inversion Hnd as [|? ? Hnotin Hnd']; subst.
  constructor.
  - apply IH; auto. intros a b Ha Hb. apply Hrs; right; assumption.
  - rewrite Forall_forall in *. intros y Hy.
    apply Hrs; [left; reflexivity|right; exact Hy|auto|].
    intros ->. contradiction.
Qed.

End ListFacts.

(** ** Snapshot-marker resolution and the page load *)

Module PageLoadFacts.

Import FetchReportData HomePages.

Lemma get_newest_crawl_date_returns (db : database) (st : state) :
  exists n st',
    get_newest_crawl_date db st = (Return n, st')
    /\ connection_open st' = connection_open st
    /\ (connection_open st = true ->
        issued st' = (issued st ++ [SelectNewestCrawlDate])%list)
    /\ n <> Some MNull.
Proof.
  unfold get_newest_crawl_date, execute_query, try_except, bind, ret, lift,
    logger, cursor, execute_fetchall.
  destruct (connection_open st) eqn:Hc; simpl.
  - destruct (max_crawl_date db) as [[|[|m ms] rest]|e]; simpl;
      try destruct m; simpl;
      do 2 eexists; (split; [reflexivity|]); simpl;
      repeat split; auto; discriminate.
  - do 2 eexists. split; [reflexivity|]. simpl.
    repeat split; auto; discriminate.
Qed.

Lemma init_reachable (db : database) (st : state) :
  reachable db = true -> init db st = (Return tt, connected st).
Proof. intros H. unfold init. rewrite H. reflexivity. Qed.

(** The page load when the resolved marker is [None] or false: no
    wrapper runs, the connection is closed, and the [return] statement
    reads locals that were never assigned. *)
Lemma load_without_marker (pd : pandas) (db : database) (st st1 : state)
    (n : option marker) :
  reachable db = true ->
  get_newest_crawl_date db (connected st) = (Return n, st1) ->
  truthy n = false ->
  load_home_page_data pd db st
  = (Raise UnboundLocalError,
     mkState (log st1 ++ [(INFO, "No newest crawl date available.");
                          (INFO, "Database connection closed.")])
             false (issued st1)).
Proof.
  intros Hr Hn Ht. unfold load_home_page_data, bind.
  rewrite (init_reachable db st Hr), Hn.
  assert (Hvars :
    (match n with
     | Some crawl_date =>
         if truthy n then
           (logger INFO "Fetching data for the date" ;;
            a <- fetch_openings_statistics_for_dashboard pd db crawl_date ;;
            b <- fetch_historical_total_openings_for_dashboard pd db ;;
            c <- fetch_data_role_for_dashboard pd db crawl_date ;;
            d <- fetch_data_tools_for_dashboard pd db crawl_date ;;
            e <- fetch_openings_company_for_dashboard pd db crawl_date ;;
            f <- fetch_taiepi_area_openings_for_dashboard pd db crawl_date ;;
            ret (mkLocals (Some a) (Some b) (Some c) (Some d) (Some e) (Some f)))%py
         else (logger INFO "No newest crawl date available." ;; ret unbound)%py
     | None => (logger INFO "No newest crawl date available." ;; ret unbound)%py
     end) st1
    = (Return unbound, logged INFO "No newest crawl date available." st1)).
  { rewrite Ht. destruct n; reflexivity. }
  unfold bind in Hvars. rewrite Hvars.
  unfold logged, close, logger, read, raise, unbound. simpl.
  rewrite <- app_assoc. reflexivity.
Qed.

(** A page load that returns has closed the connection. *)
Lemma load_returns_closed (pd : pandas) (db : database) (st st' : state)
    (v : home_page_data) :
  load_home_page_data pd db st = (Return v, st') -> connection_open st' = false.
Proof.
  unfold load_home_page_data, bind.
  destruct (init db st) as [[[]|e] s0]; [|discriminate].
  destruct (get_newest_crawl_date db s0) as [[n|e] s1]; [|discriminate].
  set (branch := match n with Some _ => _ | None => _ end).
  destruct (branch s1) as [[vars|e] s2]; [|discriminate].
  unfold close, logger, read, ret, raise. simpl.
  destruct vars as [[a|] [b|] [c|] [d|] [e|] [f|]]; simpl;
    intros H; inversion H; reflexivity.
Qed.

End PageLoadFacts.

(** ** The statements over the metrics table *)

Module WarehouseFacts.

Import Warehouse.

Lemma fold_max_from (l : list string) (m0 : string) :
  exists m, fold_left max_step l (Some m0) = Some m
    /\ In m (m0 :: l)
    /\ forall x, In x (m0 :: l) -> String.leb x m = true.
Proof.
  revert m0. induction l as [|y r IH]; intros m0; simpl.
  - exists m0. split; [reflexivity|]. split; [left; reflexivity|].
    intros x [<-|[]]. apply StringOrder.leb_refl.
  - destruct (String.leb m0 y) eqn:E.
    + destruct (IH y) as [m [Hm [Hin Hle]]]. exists m.
      split; [exact Hm|]. split; [right; exact Hin|].
      intros x [<-|Hx]; [|apply Hle; exact Hx].
      eapply StringOrder.leb_trans; [exact E|]. apply Hle. left. reflexivity.
    + destruct (IH m0) as [m [Hm [Hin Hle]]]. exists m.
      split; [exact Hm|]. split.
      * destruct Hin as [<-|Hin]; [left; reflexivity|right; right; exact Hin].
      * intros x [<-|[<-|Hx]].
        -- apply Hle. left. reflexivity.
        -- destruct (String.leb_total m0 y) as [H|H]; [congruence|].
           eapply StringOrder.leb_trans; [exact H|]. apply Hle. left. reflexivity.
        -- apply Hle. right. exact Hx.
Qed.

(** [MAX] is NULL exactly over no value, and otherwise a value of the
    column that no value exceeds. *)
Lemma MAX_spec (values : list string) :
  match MAX values with
  | None => values = []
  | Some m => In m values /\ forall x, In x values -> String.leb x m = true
  end.
Proof.
  unfold MAX.
  destruct values as [|v r]; simpl; [reflexivity|].
  destruct (fold_max_from r v) as [m [Hm [Hin Hle]]].
  rewrite Hm. split; assumption.
Qed.

Lemma desc_total (a b : metrics_row) :
  crawl_date_desc a b = true \/ crawl_date_desc b a = true.
Proof. apply String.leb_total. Qed.

Lemma desc_trans (a b c : metrics_row) :
  crawl_date_desc a b = true -> crawl_date_desc b c = true -> crawl_date_desc a c = true.
Proof. unfold crawl_date_desc. intros H1 H2. eapply StringOrder.leb_trans; eauto. Qed.

Lemma asc_total (a b : metrics_row) :
  crawl_date_asc a b = true \/ crawl_date_asc b a = true.
Proof. apply String.leb_total. Qed.

Lemma asc_trans (a b c : metrics_row) :
  crawl_date_asc a b = true -> crawl_date_asc b c = true -> crawl_date_asc a c = true.
Proof. unfold crawl_date_asc. intros H1 H2. eapply StringOrder.leb_trans; eauto. Qed.

Lemma history_length (table : list metrics_row) :
  List.length (select_openings_history table) = Nat.min 12 (List.length table).
Proof.
  unfold select_openings_history.
  rewrite sort_by_length, length_firstn, sort_by_length. reflexivity.
Qed.

Lemma history_in (table : list metrics_row) (r : metrics_row) :
  In r (select_openings_history table) <->
  In r (firstn 12 (sort_by crawl_date_desc table)).
Proof. unfold select_openings_history. apply sort_by_in. Qed.

Lemma history_incl (table : list metrics_row) (r : metrics_row) :
  In r (select_openings_history table) -> In r table.
Proof.
  intros H. apply history_in in H.
  apply (sort_by_in crawl_date_desc table).
  rewrite <- (firstn_skipn 12 (sort_by crawl_date_desc table)).
  apply in_or_app. left. exact H.
Qed.

(** The history is in ascending order of [crawl_date]. *)
Lemma history_sorted (table : list metrics_row) :
  StronglySorted (fun a b => String.leb (crawl_date a) (crawl_date b) = true)
    (select_openings_history table).
Proof.
  unfold select_openings_history.
  apply (sort_by_sorted crawl_date_asc asc_total asc_trans).
Qed.

(** No row left out is more recent than a row of the history. *)
Lemma history_most_recent (table : list metrics_row) (r k : metrics_row) :
  In r table -> ~ In r (select_openings_history table) ->
  In k (select_openings_history table) ->
  String.leb (crawl_date r) (crawl_date k) = true.
Proof.
  intros Hr Hnot Hk. apply history_in in Hk.
  assert (Hskip : In r (skipn 12 (sort_by crawl_date_desc table))).
  { apply (sort_by_in crawl_date_desc table) in Hr.
    rewrite <- (firstn_skipn 12 (sort_by crawl_date_desc table)) in Hr.
    apply in_app_or in Hr. destruct Hr as [Hr|Hr]; [|exact Hr].
    exfalso. apply Hnot. apply history_in. exact Hr. }
  apply (sorted_prefix_dominates (fun a b => crawl_date_desc a b = true) 12
           (sort_by crawl_date_desc table)
           (sort_by_sorted crawl_date_desc desc_total desc_trans table)
           k r Hk Hskip).
Qed.

Lemma history_NoDup (table : list metrics_row) :
  NoDup (map crawl_date table) ->
  NoDup (map crawl_date (select_openings_history table)).
Proof.
  intros H. unfold select_openings_history.
  eapply Permutation_NoDup.
  - apply Permutation_map. symmetry. apply sort_by_perm.
  - rewrite <- firstn_map. apply NoDup_firstn.
    eapply Permutation_NoDup; [|exact H].
    apply Permutation_map. symmetry. apply sort_by_perm.
Qed.

(** With one row per marker the order of the history is strict. *)
Lemma history_strictly_sorted (table : list metrics_row) :
  NoDup (map crawl_date table) ->
  StronglySorted (fun a b => String.ltb (crawl_date a) (crawl_date b) = true)
    (select_openings_history table).
Proof.
  intros Hnd.
  pose proof (history_NoDup table Hnd) as Hnd'.
  apply (sorted_strict
           (fun a b => String.leb (crawl_date a) (crawl_date b) = true)); auto.
  - intros a b Ha Hb Hle Hne. apply StringOrder.leb_neq_ltb; [exact Hle|].
    intros Heq. apply Hne.
    apply (NoDup_map_injective crawl_date table a b Hnd
             (history_incl table a Ha) (history_incl table b Hb) Heq).
  - eapply NoDup_map_inv. exact Hnd'.
  - apply history_sorted.
Qed.

Lemma history_strictly_most_recent (table : list metrics_row) (r k : metrics_row) :
  NoDup (map crawl_date table) ->
  In r table -> ~ In r (select_openings_history table) ->
  In k (select_openings_history table) ->
  String.ltb (crawl_date r) (crawl_date k) = true.
Proof.
  intros Hnd Hr Hnot Hk.
  apply StringOrder.leb_neq_ltb; [apply (history_most_recent table); assumption|].
  intros Heq. apply Hnot.
  assert (r = k) as ->; [|exact Hk].
  apply (NoDup_map_injective crawl_date table r k Hnd Hr
           (history_incl table k Hk) Heq).
Qed.

End WarehouseFacts.

(** ** The historical openings series *)

Module HistoryFacts.

Import FetchReportData Warehouse WarehouseFacts.

Lemma history_frame (l : list metrics_row) :
  pd_DataFrame (map history_tuple l) ["total_openings"; "crawl_date"]
  = Return (map history_tuple l).
Proof.
  unfold pd_DataFrame.
  assert (H : forallb
            (fun r => Nat.eqb (S (List.length (fields r)))
                        (List.length ["total_openings"; "crawl_date"]))
            (map history_tuple l) = true).
  { induction l as [|x r IH]; simpl; [reflexivity|exact IH]. }
  rewrite H. reflexivity.
Qed.

Lemma fetch_openings_history_answer (db : database) (l : list metrics_row) (st : state) :
  rows_of db SelectOpeningsHistory = Return (map history_tuple l) ->
  connection_open st = true ->
  exists st', fetch_openings_history db st = (Return (map history_tuple l), st').
Proof.
  intros Hdb Hopen.
  unfold fetch_openings_history, execute_query, try_except, bind, ret, lift,
    logger, cursor, execute_fetchall.
  rewrite Hopen, Hdb.
  destruct l as [|x r]; [simpl; eexists; reflexivity|].
  pose proof (history_frame (x :: r)) as Hframe.
  simpl in Hframe |- *. rewrite Hframe. simpl. eexists. reflexivity.
Qed.

(** C4, as stated, fails: [LIMIT 12] counts rows, not markers.  The
    table has thirteen rows and twelve markers, the newest marker in two
    rows; the history holds twelve rows with eleven markers, and the marker
    2024-01-22, one of the twelve most recent, is left out. *)
Lemma repeated_marker_takes_a_place :
  List.length (nodup string_dec (map crawl_date Examples.table13)) = 12%nat
  /\ fst (fetch_openings_history Examples.db_repeated_marker Examples.open_state)
     = Return (map history_tuple (select_openings_history Examples.table13))
  /\ map crawl_date (select_openings_history Examples.table13)
     = ["2024-01-29"; "2024-02-05"; "2024-02-12"; "2024-02-19"; "2024-02-26";
        "2024-03-04"; "2024-03-11"; "2024-03-18"; "2024-03-25"; "2024-04-01";
        "2024-04-08"; "2024-04-08"]
  /\ In "2024-01-22" (map crawl_date Examples.table13)
  /\ ~ In "2024-01-22" (map crawl_date (select_openings_history Examples.table13)).
Proof.
  split; [vm_compute; reflexivity|].
  split; [vm_compute; reflexivity|].
  assert (H : map crawl_date (select_openings_history Examples.table13)
              = ["2024-01-29"; "2024-02-05"; "2024-02-12"; "2024-02-19"; "2024-02-26";
                 "2024-03-04"; "2024-03-11"; "2024-03-18"; "2024-03-25"; "2024-04-01";
                 "2024-04-08"; "2024-04-08"]) by (vm_compute; reflexivity).
  split; [exact H|].
  split; [vm_compute; tauto|].
  rewrite H. simpl. intros Hin.
  repeat (destruct Hin as [Hin|Hin]; [discriminate Hin|]). exact Hin.
Qed.

(** The rows the history leaves out, none of them more recent than a row
    it holds. *)
Lemma history_split (table : list metrics_row) :
  exists left_out,
    Permutation table (select_openings_history table ++ left_out)
    /\ forall r k, In r left_out -> In k (select_openings_history table) ->
                   String.leb (crawl_date r) (crawl_date k) = true.
Proof.
  exists (skipn 12 (sort_by crawl_date_desc table)). split.
  - rewrite <- (sort_by_perm crawl_date_desc table) at 1.
    rewrite <- (firstn_skipn 12 (sort_by crawl_date_desc table)) at 1.
    apply Permutation_app_tail. symmetry. apply sort_by_perm.
  - intros r k Hr Hk. apply history_in in Hk.
    apply (sorted_prefix_dominates (fun a b => crawl_date_desc a b = true) 12
             (sort_by crawl_date_desc table)
             (sort_by_sorted crawl_date_desc desc_total desc_trans table)
             k r Hk Hr).
Qed.

(** C4, amended.  With the history statement answered over the metrics
    table, [fetch_openings_history] returns the 12 rows of most recent
    marker (all rows when there are fewer than 12), oldest first: the frame
    has [min 12 n] rows, in ascending order of [crawl_date], and they are
    rows of the table such that no row left out is more recent than a row
    returned.  With one row per marker these are the rows of the 12 most
    recent markers: the order is strict and every row left out is older
    than every row returned. *)
Theorem openings_history_most_recent_twelve
    (db : database) (table : list metrics_row) (st : state) :
  rows_of db SelectOpeningsHistory
  = Return (map history_tuple (select_openings_history table)) ->
  connection_open st = true ->
  (exists st', fetch_openings_history db st
               = (Return (map history_tuple (select_openings_history table)), st'))
  /\ List.length (select_openings_history table) = Nat.min 12 (List.length table)
  /\ StronglySorted (fun a b => String.leb (crawl_date a) (crawl_date b) = true)
       (select_openings_history table)
  /\ (exists left_out,
        Permutation table (select_openings_history table ++ left_out)
        /\ forall r k, In r left_out -> In k (select_openings_history table) ->
                       String.leb (crawl_date r) (crawl_date k) = true)
  /\ (NoDup (map crawl_date table) ->
      StronglySorted (fun a b => String.ltb (crawl_date a) (crawl_date b) = true)
        (select_openings_history table)
      /\ (forall r k, In r table -> ~ In r (select_openings_history table) ->
                      In k (select_openings_history table) ->
                      String.ltb (crawl_date r) (crawl_date k) = true)).
Proof.
  intros Hdb Hopen.
  split; [apply fetch_openings_history_answer; assumption|].
  split; [apply history_length|].
  split; [apply history_sorted|].
  split; [apply history_split|].
  intros Hnd.
  split; [apply history_strictly_sorted; exact Hnd|].
  intros r k. apply history_strictly_most_recent. exact Hnd.
Qed.

Lemma table15_distinct : NoDup (map crawl_date Examples.table15).
Proof.
  repeat (constructor; [simpl; intros H;
    repeat (destruct H as [H|H]; [discriminate H|]); exact H|]).
  constructor.
Qed.

(** Fifteen rows with distinct markers: the twelve most recent markers,
    oldest first. *)
Example history_of_fifteen_rows :
  map crawl_date (select_openings_history Examples.table15)
  = ["2024-01-22"; "2024-01-29"; "2024-02-05"; "2024-02-12"; "2024-02-19";
     "2024-02-26"; "2024-03-04"; "2024-03-11"; "2024-03-18"; "2024-03-25";
     "2024-04-01"; "2024-04-08"].
Proof. vm_compute. reflexivity. Qed.

Lemma openings_history_most_recent_twelve_witness :
  (exists st', fetch_openings_history Examples.db_history Examples.open_state
               = (Return (map history_tuple (select_openings_history Examples.table15)), st'))
  /\ List.length (select_openings_history Examples.table15) = 12%nat
  /\ StronglySorted (fun a b => String.ltb (crawl_date a) (crawl_date b) = true)
       (select_openings_history Examples.table15).
Proof.
  destruct (openings_history_most_recent_twelve Examples.db_history Examples.table15
              Examples.open_state eq_refl eq_refl)
    as [Hfetch [Hlen [_ [_ Hstrict]]]].
  split; [exact Hfetch|]. split; [exact Hlen|].
  apply (Hstrict table15_distinct).
Defined.

End HistoryFacts.

(** ** The claims about the fetch layer *)

Module LayerClaims.

Import FetchReportData HomePages FetchFacts WrapperFacts PageLoadFacts.

(** C6. Each of the eight metric fetchers of [FetchReportData] returns a
    frame from every state, so it neither raises nor returns [None]; when
    its statement yields no tuple, and when executing it raises, the frame
    is the empty one and the log has grown. *)
Theorem fetchers_degrade_to_empty (db : database) (crawl_date : marker) :
  fetcher_contract (rows_of db (SelectOpeningsStatistics crawl_date))
    (fetch_openings_statistics_metrics db crawl_date)
  /\ fetcher_contract (rows_of db SelectOpeningsHistory) (fetch_openings_history db)
  /\ fetcher_contract (rows_of db (SelectDataRole crawl_date))
       (fetch_data_role db crawl_date)
  /\ fetcher_contract (rows_of db (SelectDataTool crawl_date))
       (fetch_data_tool db crawl_date)
  /\ fetcher_contract (rows_of db (SelectOpeningsCompany crawl_date))
       (fetch_openings_company db crawl_date)
  /\ fetcher_contract (rows_of db (SelectTaipeiAreaOpenings crawl_date))
       (fetch_taiepi_area_openings db crawl_date)
  /\ fetcher_contract (rows_of db SelectToolByDataRole) (fetch_tool_by_data_role db)
  /\ fetcher_contract (rows_of db SelectToolTrends) (fetch_tool_trends db).
Proof.
  split; [apply fetch_openings_statistics_metrics_contract|].
  split; [apply fetch_openings_history_contract|].
  split; [apply fetch_data_role_contract|].
  split; [apply fetch_data_tool_contract|].
  split; [apply fetch_openings_company_contract|].
  split; [apply fetch_taiepi_area_openings_contract|].
  split; [apply fetch_tool_by_data_role_contract|].
  apply fetch_tool_trends_contract.
Qed.

Lemma fetchers_degrade_to_empty_witness :
  empty_with_log (fetch_data_role Examples.db_no_crawl Examples.requested)
    Examples.open_state
  /\ empty_with_log (fetch_openings_statistics_metrics Examples.db_failing Examples.requested)
       Examples.open_state.
Proof.
  split.
  - destruct (fetchers_degrade_to_empty Examples.db_no_crawl Examples.requested)
      as [_ [_ [H _]]].
    destruct (H Examples.open_state) as [_ [Hempty _]].
    apply Hempty. reflexivity.
  - destruct (fetchers_degrade_to_empty Examples.db_failing Examples.requested)
      as [H _].
    destruct (H Examples.open_state) as [_ [_ Hfail]].
    apply (Hfail DatabaseError). reflexivity.
Defined.

(** What a failed statement leaves in the log: the record of
    [execute_query] and the record of the fetcher. *)
Example failing_statement_log :
  fetch_openings_statistics_metrics Examples.db_failing Examples.requested
    Examples.open_state
  = (Return [],
     mkState [(ERROR, "Failed to execute query");
              (INFO, "No data found for the given crawl date.")]
             true [SelectOpeningsStatistics Examples.requested]).
Proof. reflexivity. Qed.

Lemma get_newest_of_table (db : database) (table : list Warehouse.metrics_row)
    (st : state) :
  max_crawl_date db = Return (Warehouse.select_newest_crawl_date table) ->
  connection_open st = true ->
  fst (get_newest_crawl_date db st)
  = Return (option_map MStr (Warehouse.MAX (map Warehouse.crawl_date table))).
Proof.
  intros Hdb Hopen.
  unfold get_newest_crawl_date, execute_query, try_except, bind, ret, lift,
    logger, cursor, execute_fetchall.
  rewrite Hopen, Hdb. unfold Warehouse.select_newest_crawl_date. simpl.
  destruct (Warehouse.MAX (map Warehouse.crawl_date table)); reflexivity.
Qed.

(** C7. [get_newest_crawl_date] never raises; with the MAX statement
    answered over the metrics table it returns the greatest [crawl_date] of
    the table when there is a row and [None] when there is none; and when it
    returns [None] the page load executes no statement but that one. *)
Theorem newest_crawl_date_resolution
    (pd : pandas) (db : database) (table : list Warehouse.metrics_row) (st : state) :
  (exists n st', get_newest_crawl_date db st = (Return n, st'))
  /\ (max_crawl_date db = Return (Warehouse.select_newest_crawl_date table) ->
      connection_open st = true ->
      (table = [] -> fst (get_newest_crawl_date db st) = Return None)
      /\ (table <> [] ->
          exists m, fst (get_newest_crawl_date db st) = Return (Some (MStr m))
            /\ In m (map Warehouse.crawl_date table)
            /\ forall r, In r table -> String.leb (Warehouse.crawl_date r) m = true))
  /\ (reachable db = true ->
      fst (get_newest_crawl_date db (connected st)) = Return None ->
      issued (snd (load_home_page_data pd db st))
      = (issued st ++ [SelectNewestCrawlDate])%list).
Proof.
  split; [|split].
  - destruct (get_newest_crawl_date_returns db st) as [n [st' [H _]]]. eauto.
  - intros Hdb Hopen. rewrite (get_newest_of_table db table st Hdb Hopen).
    pose proof (WarehouseFacts.MAX_spec (map Warehouse.crawl_date table)) as Hmax.
    split.
    + intros ->. reflexivity.
    + intros Hne.
      destruct (Warehouse.MAX (map Warehouse.crawl_date table)) as [m|].
      * destruct Hmax as [Hin Hle]. exists m. split; [reflexivity|].
        split; [exact Hin|]. intros r Hr. apply Hle. apply in_map. exact Hr.
      * destruct table; [contradiction Hne; reflexivity|discriminate Hmax].
  - intros Hr Hnone.
    destruct (get_newest_crawl_date_returns db (connected st))
      as [n [st1 [Hn [_ [Hissued _]]]]].
    rewrite Hn in Hnone. simpl in Hnone. injection Hnone as ->.
    rewrite (load_without_marker pd db st st1 None Hr Hn eq_refl). simpl.
    apply Hissued. reflexivity.
Qed.

Lemma newest_crawl_date_resolution_witness :
  fst (get_newest_crawl_date Examples.db_no_crawl Examples.open_state) = Return None
  /\ (exists m, fst (get_newest_crawl_date Examples.db_history Examples.open_state)
                = Return (Some (MStr m))
        /\ In m (map Warehouse.crawl_date Examples.table15)
        /\ forall r, In r Examples.table15 -> String.leb (Warehouse.crawl_date r) m = true)
  /\ issued (snd (load_home_page_data PandasModel.model Examples.db_no_crawl initial_state))
     = [SelectNewestCrawlDate].
Proof.
  split; [|split].
  - destruct (newest_crawl_date_resolution PandasModel.model Examples.db_no_crawl []
                Examples.open_state) as [_ [H _]].
    destruct (H eq_refl eq_refl) as [Hnone _]. apply Hnone. reflexivity.
  - destruct (newest_crawl_date_resolution PandasModel.model Examples.db_history
                Examples.table15 Examples.open_state) as [_ [H _]].
    destruct (H eq_refl eq_refl) as [_ Hsome]. apply Hsome. discriminate.
  - destruct (newest_crawl_date_resolution PandasModel.model Examples.db_no_crawl []
                initial_state) as [_ [_ H]].
    apply (H eq_refl eq_refl).
Defined.

(** The newest marker of the fifteen-row table. *)
Example newest_of_fifteen_rows :
  fst (get_newest_crawl_date Examples.db_history Examples.open_state)
  = Return (Some (MStr "2024-04-08")).
Proof. reflexivity. Qed.

(** C10. When marker resolution yields [None], [load_home_page_data]
    runs no metric fetch, closes the connection, and then raises
    [UnboundLocalError] from its [return] statement instead of returning a
    tuple of empty frames. *)
Theorem load_without_marker_raises (pd : pandas) (db : database) (st : state) :
  reachable db = true ->
  fst (get_newest_crawl_date db (connected st)) = Return None ->
  exists st',
    load_home_page_data pd db st = (Raise UnboundLocalError, st')
    /\ connection_open st' = false
    /\ issued st' = (issued st ++ [SelectNewestCrawlDate])%list.
Proof.
  intros Hr Hnone.
  destruct (get_newest_crawl_date_returns db (connected st))
    as [n [st1 [Hn [_ [Hissued _]]]]].
  rewrite Hn in Hnone. simpl in Hnone. injection Hnone as ->.
  eexists. split; [apply (load_without_marker pd db st st1 None Hr Hn eq_refl)|].
  simpl. split; [reflexivity|]. apply Hissued. reflexivity.
Qed.

Lemma load_without_marker_raises_witness :
  exists st',
    load_home_page_data PandasModel.model Examples.db_no_crawl initial_state
    = (Raise UnboundLocalError, st')
    /\ connection_open st' = false
    /\ issued st' = [SelectNewestCrawlDate].
Proof.
  apply (load_without_marker_raises PandasModel.model Examples.db_no_crawl initial_state);
    reflexivity.
Defined.

(** C1, as stated, fails: a fetched [crawl_date] that pandas cannot
    convert (a text that is not a date, a date out of bounds) differs from
    the requested date, and the role wrapper raises on it instead of
    returning an empty frame. *)
Lemma unconvertible_marker_raises :
  fetch_data_role Examples.db_unparseable Examples.requested Examples.open_state
  = (Return [mkRow [CStr "Data Analyst"; CInt 30; CNum 100] (MStr "not-a-date")],
     mkState [(INFO, "Data role information for the pie plot converted to DataFrame successfully.")]
             true [SelectDataRole Examples.requested])
  /\ fetch_data_role_for_dashboard PandasModel.model Examples.db_unparseable
       Examples.requested Examples.open_state
     = (Raise ValueError,
        mkState [(INFO, "Data role information for the pie plot converted to DataFrame successfully.")]
                true [SelectDataRole Examples.requested])
  /\ fst (fetch_data_role_for_dashboard PandasModel.model Examples.db_out_of_bounds
            Examples.requested Examples.open_state)
     = Raise ValueError.
Proof. repeat split; reflexivity. Qed.

(** The same for every pandas and every frame: an exception of the
    conversion leaves each of the four converting wrappers. *)
Lemma conversion_errors_propagate (pd : pandas) (db : database) (crawl_date : marker) :
  propagates_conversion_error pd (fetch_data_role db crawl_date)
    (fetch_data_role_for_dashboard pd db crawl_date)
  /\ propagates_conversion_error pd (fetch_data_tool db crawl_date)
       (fetch_data_tools_for_dashboard pd db crawl_date)
  /\ propagates_conversion_error pd (fetch_openings_company db crawl_date)
       (fetch_openings_company_for_dashboard pd db crawl_date)
  /\ propagates_conversion_error pd (fetch_taiepi_area_openings db crawl_date)
       (fetch_taiepi_area_openings_for_dashboard pd db crawl_date).
Proof.
  split; [apply data_role_propagates|].
  split; [apply data_tools_propagates|].
  split; [apply openings_company_propagates|].
  apply taiepi_area_openings_propagates.
Qed.

(** A column that mixes formats is refused as a whole: the tool ranking
    holds the requested day as a date and the week before as the text of a
    timestamp, and the wrapper raises instead of keeping the row of the
    requested day. *)
Example mixed_format_column_raises :
  fst (fetch_data_tools_for_dashboard PandasModel.model Examples.db_mixed_formats
         Examples.requested Examples.open_state)
  = Raise ValueError.
Proof. vm_compute. reflexivity. Qed.

(** C1, amended.  For each of the five marker-comparing wrappers: when the
    fetched frame is not empty and holds a row whose [crawl_date] is not the
    requested one, the wrapper writes an error record and returns the empty
    frame or the rows of the requested day only, never a row of another day.
    For the four wrappers that convert to dates the comparison is between
    calendar dates and this holds when pandas converts the fetched column,
    which it does in one call for all the rows, and the requested date; the
    openings-statistics wrapper compares the values as fetched and needs no
    proviso. *)
Theorem mismatched_rows_discarded (pd : pandas) (db : database) (crawl_date : marker) :
  discards_mismatch_as_fetched pd crawl_date
    (fetch_openings_statistics_metrics db crawl_date)
    (fetch_openings_statistics_for_dashboard pd db crawl_date)
  /\ discards_mismatch pd crawl_date (fetch_data_role db crawl_date)
       (fetch_data_role_for_dashboard pd db crawl_date)
  /\ discards_mismatch pd crawl_date (fetch_data_tool db crawl_date)
       (fetch_data_tools_for_dashboard pd db crawl_date)
  /\ discards_mismatch pd crawl_date (fetch_openings_company db crawl_date)
       (fetch_openings_company_for_dashboard pd db crawl_date)
  /\ discards_mismatch pd crawl_date (fetch_taiepi_area_openings db crawl_date)
       (fetch_taiepi_area_openings_for_dashboard pd db crawl_date).
Proof.
  split; [apply openings_statistics_discards|].
  split; [apply data_role_discards|].
  split; [apply data_tools_discards|].
  split; [apply openings_company_discards|].
  apply taiepi_area_openings_discards.
Qed.

Lemma mismatched_rows_discarded_witness :
  exists out msg,
    fetch_data_tools_for_dashboard PandasModel.model Examples.db_two_days
      Examples.requested Examples.open_state
    = (Return out,
       logged ERROR msg
         (mkState [(INFO, "Top three data tools information converted to DataFrame successfully.")]
                  true [SelectDataTool Examples.requested]))
    /\ (out = []
        \/ out = filter (fun r => date_matches (Some (mkDate 2024 5 6)) (col_crawl_date r))
                   [mkRow [CInt 1; CStr "Programming"; CStr "Python"; CNum 60]
                          (MDate (mkDate 2024 5 6));
                    mkRow [CInt 2; CStr "Database"; CStr "SQL"; CNum 40]
                          (MDate (mkDate 2024 4 29))])
    /\ (forall r, In r out ->
          date_matches (Some (mkDate 2024 5 6)) (col_crawl_date r) = true).
Proof.
  destruct (mismatched_rows_discarded PandasModel.model Examples.db_two_days
              Examples.requested) as [_ [_ [Htools _]]].
  apply (Htools Examples.open_state Examples.tool_rows).
  - reflexivity.
  - discriminate.
  - reflexivity.
  - reflexivity.
  - eexists. split; [right; left; reflexivity|reflexivity].
Defined.

(** On that frame the tool wrapper keeps the row of the requested day. *)
Example tool_ranking_of_two_days :
  fst (fetch_data_tools_for_dashboard PandasModel.model Examples.db_two_days
         Examples.requested Examples.open_state)
  = Return [mkRow [CInt 1; CStr "Programming"; CStr "Python"; CNum 60]
                  (MDate (mkDate 2024 5 6))].
Proof. reflexivity. Qed.

(** C2. The openings-statistics wrapper compares without converting: a
    row whose [crawl_date] is the text of a timestamp of the requested day
    is reported as an inconsistency and the frame is emptied, while the role
    wrapper, which converts both sides to dates first, accepts the same
    marker. *)
Theorem openings_statistics_compares_unconverted :
  fetch_openings_statistics_for_dashboard PandasModel.model Examples.db_timestamp_text
    Examples.requested Examples.open_state
  = (Return [],
     mkState [(INFO, "Openings statistics metrics data converted to DataFrame successfully.");
              (ERROR, "Data inconsistency detected: 'crawl_date' does not match the provided date.")]
             true [SelectOpeningsStatistics Examples.requested])
  /\ fetch_data_role_for_dashboard PandasModel.model Examples.db_timestamp_text
       Examples.requested Examples.open_state
     = (Return [mkRow [CStr "Data Analyst"; CInt 30; CNum 100] (MDate (mkDate 2024 5 6))],
        mkState [(INFO, "Data role information for the pie plot converted to DataFrame successfully.")]
                true [SelectDataRole Examples.requested]).
Proof. split; reflexivity. Qed.

(** The four converting wrappers accept every frame whose rows are, after
    conversion, of the requested day. *)
Lemma converting_wrappers_accept (pd : pandas) (db : database) (crawl_date : marker) :
  accepts_same_day pd crawl_date (fetch_data_role db crawl_date)
    (fetch_data_role_for_dashboard pd db crawl_date)
  /\ accepts_same_day pd crawl_date (fetch_data_tool db crawl_date)
       (fetch_data_tools_for_dashboard pd db crawl_date)
  /\ accepts_same_day pd crawl_date (fetch_openings_company db crawl_date)
       (fetch_openings_company_for_dashboard pd db crawl_date)
  /\ accepts_same_day pd crawl_date (fetch_taiepi_area_openings db crawl_date)
       (fetch_taiepi_area_openings_for_dashboard pd db crawl_date).
Proof.
  split; [apply data_role_accepts|].
  split; [apply data_tools_accepts|].
  split; [apply openings_company_accepts|].
  apply taiepi_area_openings_accepts.
Qed.

(** C9, as stated, fails: when the history wrapper raises, on a newest
    marker that pandas cannot hold or that is not a date, the exception
    leaves [load_home_page_data] before the close and the connection stays
    open. *)
Lemma raising_wrapper_leaves_connection_open :
  fst (load_home_page_data PandasModel.model Examples.db_sentinel_marker initial_state)
  = Raise ValueError
  /\ connection_open
       (snd (load_home_page_data PandasModel.model Examples.db_sentinel_marker
               initial_state))
     = true
  /\ fst (load_home_page_data PandasModel.model Examples.db_malformed_marker initial_state)
     = Raise ValueError
  /\ connection_open
       (snd (load_home_page_data PandasModel.model Examples.db_malformed_marker
               initial_state))
     = true.
Proof. repeat split; vm_compute; reflexivity. Qed.

(** C9, amended.  In every execution of [load_home_page_data] in which no
    fetch wrapper raises the connection is closed when the function
    terminates: a page load that returns has closed it, and so has the page
    load that finds no marker, which raises only after the close. *)
Theorem connection_closed_unless_wrapper_raises
    (pd : pandas) (db : database) (st : state) :
  (forall v st', load_home_page_data pd db st = (Return v, st') ->
                 connection_open st' = false)
  /\ (reachable db = true ->
      HomePages.truthy (match fst (get_newest_crawl_date db (connected st)) with
                        | Return n => n
                        | Raise _ => None
                        end) = false ->
      connection_open (snd (load_home_page_data pd db st)) = false).
Proof.
  split.
  - intros v st'. apply load_returns_closed.
  - intros Hr Ht.
    destruct (get_newest_crawl_date_returns db (connected st))
      as [n [st1 [Hn _]]].
    rewrite Hn in Ht. simpl in Ht.
    rewrite (load_without_marker pd db st st1 n Hr Hn Ht). reflexivity.
Qed.

Lemma connection_closed_unless_wrapper_raises_witness :
  connection_open
    (snd (load_home_page_data PandasModel.model Examples.db_no_crawl initial_state))
  = false.
Proof.
  apply (connection_closed_unless_wrapper_raises PandasModel.model
           Examples.db_no_crawl initial_state); reflexivity.
Defined.

End LayerClaims.

(** ** Grouping and top-K selection *)

Module GroupFacts.

Import CreateReportChart.

(** *** Sums of int64 values *)

Lemma int64_range (z : Z) : - 2 ^ 63 <= int64 z < 2 ^ 63.
Proof.
  unfold int64. pose proof (Z.mod_pos_bound (z + 2 ^ 63) (2 ^ 64) ltac:(lia)). lia.
Qed.

Lemma int64_small (z : Z) : - 2 ^ 63 <= z < 2 ^ 63 -> int64 z = z.
Proof. intros H. unfold int64. rewrite Z.mod_small; lia. Qed.

Lemma int64_idem (z : Z) : int64 (int64 z) = int64 z.
Proof. apply int64_small. apply int64_range. Qed.

Lemma int64_add_l (a b : Z) : int64 (int64 a + b) = int64 (a + b).
Proof.
  unfold int64.
  replace ((a + 2 ^ 63) mod 2 ^ 64 - 2 ^ 63 + b + 2 ^ 63)
    with ((a + 2 ^ 63) mod 2 ^ 64 + b) by lia.
  rewrite Zplus_mod_idemp_l. f_equal. f_equal. lia.
Qed.

Lemma int64_add_r (a b : Z) : int64 (a + int64 b) = int64 (a + b).
Proof. rewrite (Z.add_comm a), int64_add_l, (Z.add_comm b). reflexivity. Qed.

Lemma true_sum_where_cons {K : Type} (p : K -> bool) (k : K) (v : Z) (l : list (K * Z)) :
  true_sum_where p ((k, v) :: l) = (if p k then v else 0) + true_sum_where p l.
Proof. unfold true_sum_where. simpl. destruct (p k); simpl; lia. Qed.

Lemma true_sum_where_perm {K : Type} (p : K -> bool) (l l' : list (K * Z)) :
  Permutation l l' -> true_sum_where p l = true_sum_where p l'.
Proof.
  induction 1 as [|[k v] l l' _ IH|[k v] [k' v'] l|l l' l'' _ IH1 _ IH2].
  - reflexivity.
  - rewrite !true_sum_where_cons, IH. reflexivity.
  - rewrite !true_sum_where_cons. lia.
  - congruence.
Qed.

Lemma sum_where_cons {K : Type} (p : K -> bool) (k : K) (v : Z) (l : list (K * Z)) :
  sum_where p ((k, v) :: l) = int64 ((if p k then v else 0) + sum_where p l).
Proof. unfold sum_where. rewrite true_sum_where_cons, int64_add_r. reflexivity. Qed.

Lemma sum_where_perm {K : Type} (p : K -> bool) (l l' : list (K * Z)) :
  Permutation l l' -> sum_where p l = sum_where p l'.
Proof. intros H. unfold sum_where. rewrite (true_sum_where_perm p l l' H). reflexivity. Qed.

Lemma sum_where_none {K : Type} (p : K -> bool) (l : list (K * Z)) :
  (forall k, In k (map fst l) -> p k = false) -> sum_where p l = 0.
Proof.
  intros H. unfold sum_where.
  assert (Hz : true_sum_where p l = 0).
  { induction l as [|[k v] r IH]; [reflexivity|].
    rewrite true_sum_where_cons, IH.
    - rewrite (H k); [reflexivity|left; reflexivity].
    - intros k' Hk'. apply H. right. exact Hk'. }
  rewrite Hz. reflexivity.
Qed.

Lemma sum_where_map {A K : Type} (p : K -> bool) (key : A -> K) (val : A -> Z)
    (l : list A) :
  sum_where p (map (fun a => (key a, val a)) l)
  = int64 (fold_right Z.add 0 (map val (filter (fun a => p (key a)) l))).
Proof.
  unfold sum_where. f_equal.
  induction l as [|a r IH]; [reflexivity|].
  simpl map. rewrite true_sum_where_cons, IH. simpl.
  destruct (p (key a)); simpl; lia.
Qed.

Lemma sum_where_rekey {K K' : Type} (p : K' -> bool) (f : K -> K') (l : list (K * Z)) :
  sum_where p (map (fun g => (f (fst g), snd g)) l) = sum_where (fun k => p (f k)) l.
Proof.
  unfold sum_where. f_equal.
  induction l as [|[k v] r IH]; [reflexivity|].
  simpl map. rewrite !true_sum_where_cons, IH. reflexivity.
Qed.

(** When the magnitudes of the counts add up to less than [2 ^ 63], the
    int64 sum of any part of the frame is its sum in the integers. *)
Lemma sum_of_part_fits (p : tool_row -> bool) (rows : list tool_row) :
  counts_fit rows ->
  int64 (fold_right Z.add 0 (map count (filter p rows)))
  = fold_right Z.add 0 (map count (filter p rows)).
Proof.
  unfold counts_fit. intros H. apply int64_small.
  assert (Hb : Z.abs (fold_right Z.add 0 (map count (filter p rows)))
               <= fold_right Z.add 0 (map (fun r => Z.abs (count r)) rows)).
  { clear H. induction rows as [|r rest IH]; simpl; [lia|].
    destruct (p r); simpl; lia. }
  lia.
Qed.

Section Groups.

Context {K : Type}.
Variable key_eqb : K -> K -> bool.
Variable key_leb : K -> K -> bool.
Hypothesis key_eqb_eq : forall a b, key_eqb a b = true <-> a = b.

Lemma key_eqb_refl (k : K) : key_eqb k k = true.
Proof. apply key_eqb_eq. reflexivity. Qed.

Lemma add_to_group_keys (k : K) (v : Z) (groups : list (K * Z)) (x : K) :
  In x (map fst (add_to_group key_eqb k v groups)) <-> x = k \/ In x (map fst groups).
Proof.
  induction groups as [|[k' s] r IH]; cbn [add_to_group map fst In].
  - intuition.
  - destruct (key_eqb k' k) eqn:E; cbn [map fst In].
    + apply key_eqb_eq in E. subst. intuition.
    + rewrite IH. intuition.
Qed.

Lemma add_to_group_NoDup (k : K) (v : Z) (groups : list (K * Z)) :
  NoDup (map fst groups) -> NoDup (map fst (add_to_group key_eqb k v groups)).
Proof.
  induction groups as [|[k' s] r IH]; cbn [add_to_group map fst]; intros H.
  - constructor; [intros []|constructor].
  - inversion H as [|? ? Hnotin Hnd]; subst.
    destruct (key_eqb k' k) eqn:E; cbn [map fst].
    + constructor; assumption.
    + constructor; [|apply IH; exact Hnd].
      rewrite add_to_group_keys. intros [->|Hin]; [|contradiction].
      rewrite key_eqb_refl in E. discriminate.
Qed.

Lemma add_to_group_int64 (k : K) (v : Z) (groups : list (K * Z)) :
  in_int64 groups -> in_int64 (add_to_group key_eqb k v groups).
Proof.
  unfold in_int64.
  induction groups as [|[k' s] r IH]; cbn [add_to_group]; intros H x y Hin.
  - destruct Hin as [Heq|[]]. injection Heq as <- <-. apply int64_idem.
  - destruct (key_eqb k' k).
    + destruct Hin as [Heq|Hin].
      * injection Heq as <- <-. apply int64_idem.
      * apply (H x y). right. exact Hin.
    + destruct Hin as [Heq|Hin].
      * apply (H x y). left. exact Heq.
      * refine (IH _ x y Hin). intros x' y' Hin'. apply (H x' y'). right. exact Hin'.
Qed.

Lemma add_to_group_sum (p : K -> bool) (k : K) (v : Z) (groups : list (K * Z)) :
  sum_where p (add_to_group key_eqb k v groups)
  = int64 (sum_where p groups + (if p k then v else 0)).
Proof.
  induction groups as [|[k' s] r IH]; cbn [add_to_group].
  - rewrite sum_where_cons. unfold sum_where, true_sum_where. cbn [filter map fold_right].
    change (int64 0) with 0. rewrite Z.add_0_r, Z.add_0_l.
    destruct (p k); [apply int64_idem|reflexivity].
  - destruct (key_eqb k' k) eqn:E.
    + apply key_eqb_eq in E. subst. rewrite !sum_where_cons.
      destruct (p k).
      * rewrite int64_add_l, int64_add_l. f_equal. lia.
      * rewrite int64_add_l. f_equal. lia.
    + rewrite !sum_where_cons, IH, int64_add_r, int64_add_l. f_equal. lia.
Qed.

Lemma fold_groups_keys (keyed groups : list (K * Z)) (x : K) :
  In x (map fst (fold_left
                   (fun groups kv => add_to_group key_eqb (fst kv) (snd kv) groups)
                   keyed groups))
  <-> In x (map fst groups) \/ In x (map fst keyed).
Proof.
  revert groups. induction keyed as [|[k v] r IH]; intros groups; simpl.
  - intuition.
  - rewrite IH, add_to_group_keys. intuition.
Qed.

Lemma fold_groups_NoDup (keyed groups : list (K * Z)) :
  NoDup (map fst groups) ->
  NoDup (map fst (fold_left
                    (fun groups kv => add_to_group key_eqb (fst kv) (snd kv) groups)
                    keyed groups)).
Proof.
  revert groups. induction keyed as [|[k v] r IH]; intros groups H; simpl.
  - exact H.
  - apply IH. apply add_to_group_NoDup. exact H.
Qed.

Lemma fold_groups_int64 (keyed groups : list (K * Z)) :
  in_int64 groups ->
  in_int64 (fold_left
              (fun groups kv => add_to_group key_eqb (fst kv) (snd kv) groups)
              keyed groups).
Proof.
  revert groups. induction keyed as [|[k v] r IH]; intros groups H; simpl.
  - exact H.
  - apply IH. apply add_to_group_int64. exact H.
Qed.

Lemma fold_groups_sum (p : K -> bool) (keyed groups : list (K * Z)) :
  sum_where p (fold_left
                 (fun groups kv => add_to_group key_eqb (fst kv) (snd kv) groups)
                 keyed groups)
  = int64 (sum_where p groups + sum_where p keyed).
Proof.
  revert groups. induction keyed as [|[k v] r IH]; intros groups; simpl.
  - unfold sum_where at 3. unfold true_sum_where. simpl.
    change (int64 0) with 0. rewrite Z.add_0_r. unfold sum_where. symmetry.
    apply int64_idem.
  - rewrite IH, add_to_group_sum, sum_where_cons, int64_add_l, int64_add_r.
    f_equal. lia.
Qed.

Lemma groupby_sum_perm (keyed : list (K * Z)) :
  Permutation (groupby_sum key_eqb key_leb keyed) (sum_groups key_eqb keyed).
Proof. unfold groupby_sum. apply sort_by_perm. Qed.

(** The keys of the groups are the keys of the rows. *)
Lemma groupby_sum_keys (keyed : list (K * Z)) (x : K) :
  In x (map fst (groupby_sum key_eqb key_leb keyed)) <-> In x (map fst keyed).
Proof.
  split.
  - intros H.
    apply (Permutation_in _ (Permutation_map fst (groupby_sum_perm keyed))) in H.
    unfold sum_groups in H. rewrite fold_groups_keys in H.
    destruct H as [[]|H]. exact H.
  - intros H.
    apply (Permutation_in _
             (Permutation_sym (Permutation_map fst (groupby_sum_perm keyed)))).
    unfold sum_groups. rewrite fold_groups_keys. right. exact H.
Qed.

(** There is one group per key. *)
Lemma groupby_sum_NoDup (keyed : list (K * Z)) :
  NoDup (map fst (groupby_sum key_eqb key_leb keyed)).
Proof.
  eapply Permutation_NoDup.
  - apply Permutation_map. symmetry. apply groupby_sum_perm.
  - unfold sum_groups. apply fold_groups_NoDup. constructor.
Qed.

Lemma groupby_sum_int64 (keyed : list (K * Z)) :
  in_int64 (groupby_sum key_eqb key_leb keyed).
Proof.
  intros k v Hin.
  apply (Permutation_in _ (groupby_sum_perm keyed)) in Hin.
  revert k v Hin. unfold sum_groups. apply fold_groups_int64. intros k v [].
Qed.

(** Grouping keeps the int64 sum over every set of keys. *)
Lemma groupby_sum_sum (p : K -> bool) (keyed : list (K * Z)) :
  sum_where p (groupby_sum key_eqb key_leb keyed) = sum_where p keyed.
Proof.
  rewrite (sum_where_perm p _ _ (groupby_sum_perm keyed)).
  unfold sum_groups. rewrite fold_groups_sum.
  replace (sum_where p []) with 0 by (vm_compute; reflexivity).
  rewrite Z.add_0_l. unfold sum_where. apply int64_idem.
Qed.

Lemma unique_key_sum (groups : list (K * Z)) (k : K) (v : Z) :
  NoDup (map fst groups) -> In (k, v) groups ->
  true_sum_where (fun k' => key_eqb k' k) groups = v.
Proof.
  induction groups as [|[k' s] r IH]; simpl; intros Hnd Hin; [contradiction|].
  inversion Hnd as [|? ? Hnotin Hnd']; subst.
  rewrite true_sum_where_cons. destruct Hin as [Heq|Hin].
  - injection Heq as -> ->. rewrite key_eqb_refl.
    assert (Hz : true_sum_where (fun k' => key_eqb k' k) r = 0).
    { clear IH Hnd Hnd'. induction r as [|[k' s] r IH]; [reflexivity|].
      rewrite true_sum_where_cons, IH.
      - destruct (key_eqb k' k) eqn:E; [|reflexivity].
        apply key_eqb_eq in E. subst. exfalso. apply Hnotin. left. reflexivity.
      - intros H. apply Hnotin. right. exact H. }
    rewrite Hz. lia.
  - rewrite (IH Hnd' Hin). destruct (key_eqb k' k) eqn:E; [|lia].
    apply key_eqb_eq in E. subst. exfalso. apply Hnotin.
    change k with (fst (k, v)). apply in_map. exact Hin.
Qed.

(** The count of a group is the int64 sum of the counts of the rows of
    its key. *)
Lemma groupby_sum_value (keyed : list (K * Z)) (k : K) (v : Z) :
  In (k, v) (groupby_sum key_eqb key_leb keyed) ->
  v = sum_where (fun k' => key_eqb k' k) keyed.
Proof.
  intros H. rewrite <- (groupby_sum_sum (fun k' => key_eqb k' k) keyed).
  unfold sum_where.
  rewrite (unique_key_sum _ k v (groupby_sum_NoDup keyed) H).
  symmetry. apply (groupby_sum_int64 keyed k v H).
Qed.

Lemma groupby_sum_present (keyed : list (K * Z)) (k : K) :
  In k (map fst keyed) ->
  In (k, sum_where (fun k' => key_eqb k' k) keyed) (groupby_sum key_eqb key_leb keyed).
Proof.
  intros H. apply groupby_sum_keys in H. apply in_map_iff in H.
  destruct H as [[k' v] [Hk Hin]]. simpl in Hk. subst k'.
  rewrite <- (groupby_sum_value keyed k v Hin). exact Hin.
Qed.

(** *** [nlargest] *)

Lemma count_desc_total (a b : K * Z) : Z.leb (snd b) (snd a) = true \/ Z.leb (snd a) (snd b) = true.
Proof. destruct (Z.leb_spec (snd b) (snd a)); [left; reflexivity|right]. apply Z.leb_le. lia. Qed.

Lemma count_desc_trans (a b c : K * Z) :
  Z.leb (snd b) (snd a) = true -> Z.leb (snd c) (snd b) = true ->
  Z.leb (snd c) (snd a) = true.
Proof. rewrite !Z.leb_le. lia. Qed.

Lemma nlargest_incl (n : nat) (rows : list (K * Z)) (x : K * Z) :
  In x (nlargest n rows) -> In x rows.
Proof.
  unfold nlargest. intros H.
  apply (sort_by_in (fun a b => Z.leb (snd b) (snd a)) rows).
  rewrite <- (firstn_skipn n (sort_by _ rows)). apply in_or_app. left. exact H.
Qed.

Lemma nlargest_length (n : nat) (rows : list (K * Z)) :
  List.length (nlargest n rows) = Nat.min n (List.length rows).
Proof. unfold nlargest. rewrite length_firstn, sort_by_length. reflexivity. Qed.

Lemma nlargest_NoDup (n : nat) (rows : list (K * Z)) :
  NoDup (map fst rows) -> NoDup (map fst (nlargest n rows)).
Proof.
  intros H. unfold nlargest. rewrite <- firstn_map. apply NoDup_firstn.
  eapply Permutation_NoDup; [|exact H].
  apply Permutation_map. symmetry. apply sort_by_perm.
Qed.

(** A row that [nlargest] leaves out has no larger count than a row
    it keeps. *)
Lemma nlargest_dominates (n : nat) (rows : list (K * Z)) (kept left_out : K * Z) :
  In kept (nlargest n rows) -> In left_out rows ->
  ~ In (fst left_out) (map fst (nlargest n rows)) ->
  snd left_out <= snd kept.
Proof.
  unfold nlargest. intros Hk Hin Hnot.
  set (sorted := sort_by (fun a b => Z.leb (snd b) (snd a)) rows) in *.
  assert (Hskip : In left_out (skipn n sorted)).
  { apply (sort_by_in (fun a b => Z.leb (snd b) (snd a)) rows) in Hin.
    fold sorted in Hin. rewrite <- (firstn_skipn n sorted) in Hin.
    apply in_app_or in Hin. destruct Hin as [Hin|Hin]; [|exact Hin].
    exfalso. apply Hnot. apply in_map. exact Hin. }
  apply Z.leb_le.
  apply (sorted_prefix_dominates (fun a b => Z.leb (snd b) (snd a) = true) n sorted
           (sort_by_sorted _ count_desc_total count_desc_trans rows)
           kept left_out Hk Hskip).
Qed.

End Groups.

End GroupFacts.

(** ** The tool-trend reductions *)

Module ChartFacts.

Import CreateReportChart GroupFacts.

Lemma pair_eqb_eq (a b : string * string) : pair_eqb a b = true <-> a = b.
Proof.
  destruct a as [a1 a2], b as [b1 b2]. unfold pair_eqb. simpl.
  rewrite andb_true_iff, !String.eqb_eq. split.
  - intros [-> ->]. reflexivity.
  - intros H. injection H as -> ->. split; reflexivity.
Qed.

Lemma isin_In (x : string) (values : list string) :
  isin x values = true <-> In x values.
Proof.
  unfold isin. rewrite existsb_exists. split.
  - intros [y [Hin Heq]]. apply String.eqb_eq in Heq. subst. exact Hin.
  - intros H. exists x. split; [exact H|apply String.eqb_refl].
Qed.

(** Filtering the groups keeps their keys distinct. *)
Lemma filter_keeps_keys_distinct {K : Type} (keep : K * Z -> bool) (groups : list (K * Z)) :
  NoDup (map fst groups) -> NoDup (map fst (filter keep groups)).
Proof.
  induction groups as [|g r IH]; simpl; intros H; [constructor|].
  inversion H as [|? ? Hnotin Hnd]; subst.
  destruct (keep g); simpl; [|apply IH; exact Hnd].
  constructor; [|apply IH; exact Hnd].
  intros Hin. apply Hnotin. apply in_map_iff in Hin.
  destruct Hin as [x [Hx Hin]]. apply filter_In in Hin.
  rewrite <- Hx. apply in_map. apply Hin.
Qed.

Lemma filter_all {A : Type} (l : list A) : filter (fun _ => true) l = l.
Proof. induction l as [|a r IH]; simpl; [|rewrite IH]; reflexivity. Qed.

(** The four branches apply each selection exactly when it is not
    ["All"]. *)
Lemma line_chart_selected (rows : list tool_row) (role cat : string) :
  create_tool_trends_line_chart rows role cat
  = keep_top_tools (filter (selected role cat) rows).
Proof.
  unfold create_tool_trends_line_chart, selected.
  destruct (String.eqb role "All"), (String.eqb cat "All"); simpl; f_equal;
    first [ symmetry; apply filter_all
          | apply filter_ext; intros r; rewrite ?andb_true_r; reflexivity ].
Qed.

Lemma bar_chart_selected (rows : list tool_row) (role cat : string) :
  create_tool_popularity_bar_chart rows role cat
  = largest_five (filter (selected role cat) rows).
Proof.
  unfold create_tool_popularity_bar_chart, selected.
  destruct (String.eqb role "All"), (String.eqb cat "All"); simpl; f_equal;
    first [ symmetry; apply filter_all
          | apply filter_ext; intros r; rewrite ?andb_true_r; reflexivity ].
Qed.

Lemma selected_spec (role cat : string) (r : tool_row) :
  selected role cat r = true <->
  (role = "All" \/ data_role r = role) /\ (cat = "All" \/ category r = cat).
Proof.
  unfold selected. rewrite andb_true_iff, !orb_true_iff, !String.eqb_eq. reflexivity.
Qed.

Lemma distinct_tools_length (rows : list tool_row) (totals : list (string * Z)) :
  NoDup (map fst totals) ->
  (forall t, In t (map fst totals) <-> In t (map tool_name rows)) ->
  List.length totals = distinct_tools rows.
Proof.
  intros Hnd Hkeys. unfold distinct_tools.
  rewrite <- (length_map fst totals).
  apply Permutation_length. apply NoDup_Permutation.
  - exact Hnd.
  - apply NoDup_nodup.
  - intros t. rewrite nodup_In. apply Hkeys.
Qed.

(** What [nlargest n] keeps of the totals per tool. *)
Lemma top_k_spec (n : nat) (rows : list tool_row) (totals : list (string * Z)) :
  NoDup (map fst totals) ->
  (forall t, In t (map fst totals) <-> In t (map tool_name rows)) ->
  (forall t v, In (t, v) totals -> v = total_of t rows) ->
  NoDup (map fst (nlargest n totals))
  /\ List.length (nlargest n totals) = Nat.min n (distinct_tools rows)
  /\ (forall t c, In (t, c) (nlargest n totals) ->
                  In t (map tool_name rows) /\ c = total_of t rows)
  /\ (forall t c u, In (t, c) (nlargest n totals) ->
                    In u (map tool_name rows) ->
                    ~ In u (map fst (nlargest n totals)) ->
                    total_of u rows <= c).
Proof.
  intros Hnd Hkeys Hval.
  split; [apply nlargest_NoDup; exact Hnd|].
  split; [rewrite nlargest_length, (distinct_tools_length rows totals Hnd Hkeys);
          reflexivity|].
  split.
  - intros t c Hin. apply nlargest_incl in Hin. split; [|apply Hval; exact Hin].
    apply Hkeys. change t with (fst (t, c)). apply in_map. exact Hin.
  - intros t c u Hin Hu Hnot.
    apply Hkeys in Hu. apply in_map_iff in Hu. destruct Hu as [[u' v] [Heq Hu]].
    simpl in Heq. subst u'.
    rewrite <- (Hval u v Hu).
    apply (nlargest_dominates n totals (t, c) (u, v) Hin Hu Hnot).
Qed.

Section Reductions.

Variable rows : list tool_row.

Let keyed_by_tool_and_date : list ((string * string) * Z) :=
  map (fun r => ((tool_name r, crawl_date r), count r)) rows.

Lemma grouped_row (t d : string) (c : Z) :
  In ((t, d), c) (group_by_tool_and_date rows)
  <-> (exists r, In r rows /\ tool_name r = t /\ crawl_date r = d)
      /\ c = total_at t d rows.
Proof.
  unfold group_by_tool_and_date. fold keyed_by_tool_and_date.
  assert (Hsum : sum_where (fun k => pair_eqb k (t, d)) keyed_by_tool_and_date
                 = total_at t d rows).
  { unfold keyed_by_tool_and_date, total_at.
    rewrite (sum_where_map (fun k => pair_eqb k (t, d))
               (fun r => (tool_name r, crawl_date r)) count rows).
    reflexivity. }
  assert (Hkey : In (t, d) (map fst keyed_by_tool_and_date)
                 <-> exists r, In r rows /\ tool_name r = t /\ crawl_date r = d).
  { unfold keyed_by_tool_and_date. rewrite map_map. simpl. rewrite in_map_iff.
    split.
    - intros [r [Heq Hin]]. injection Heq as <- <-. exists r. auto.
    - intros [r [Hin [<- <-]]]. exists r. auto. }
  split.
  - intros Hin. split.
    + apply Hkey.
      apply (groupby_sum_keys pair_eqb pair_leb pair_eqb_eq keyed_by_tool_and_date).
      change (t, d) with (fst ((t, d), c)). apply in_map. exact Hin.
    + rewrite <- Hsum.
      apply (groupby_sum_value pair_eqb pair_leb pair_eqb_eq _ _ _ Hin).
  - intros [Hex ->]. rewrite <- Hsum.
    apply (groupby_sum_present pair_eqb pair_leb pair_eqb_eq).
    apply Hkey. exact Hex.
Qed.

Let totals_of_grouped : list (string * Z) :=
  groupby_sum String.eqb String.leb
    (map (fun g => (fst (fst g), snd g)) (group_by_tool_and_date rows)).

Lemma totals_of_grouped_keys (t : string) :
  In t (map fst totals_of_grouped) <-> In t (map tool_name rows).
Proof.
  unfold totals_of_grouped.
  rewrite (groupby_sum_keys String.eqb String.leb String.eqb_eq).
  rewrite map_map. simpl. rewrite !in_map_iff. split.
  - intros [[[t' d] c] [Heq Hin]]. simpl in Heq. subst t'.
    apply grouped_row in Hin. destruct Hin as [[r [Hr [Ht _]]] _].
    exists r. auto.
  - intros [r [Ht Hr]].
    exists ((t, crawl_date r), total_at t (crawl_date r) rows).
    split; [reflexivity|]. apply grouped_row. split; [|reflexivity].
    exists r. auto.
Qed.

Lemma totals_of_grouped_value (t : string) (v : Z) :
  In (t, v) totals_of_grouped -> v = total_of t rows.
Proof.
  unfold totals_of_grouped. intros Hin.
  rewrite (groupby_sum_value String.eqb String.leb String.eqb_eq _ _ _ Hin).
  rewrite (sum_where_rekey (fun k' => String.eqb k' t) fst).
  unfold group_by_tool_and_date.
  rewrite (groupby_sum_sum pair_eqb pair_leb pair_eqb_eq).
  rewrite (sum_where_map (fun k => String.eqb (fst k) t)
             (fun r => (tool_name r, crawl_date r)) count rows).
  reflexivity.
Qed.

Lemma totals_by_tool_keys (t : string) :
  In t (map fst (groupby_sum String.eqb String.leb
                   (map (fun r => (tool_name r, count r)) rows)))
  <-> In t (map tool_name rows).
Proof.
  rewrite (groupby_sum_keys String.eqb String.leb String.eqb_eq).
  rewrite map_map. simpl. reflexivity.
Qed.

Lemma totals_by_tool_value (t : string) (v : Z) :
  In (t, v) (groupby_sum String.eqb String.leb
               (map (fun r => (tool_name r, count r)) rows)) ->
  v = total_of t rows.
Proof.
  intros Hin.
  rewrite (groupby_sum_value String.eqb String.leb String.eqb_eq _ _ _ Hin).
  rewrite (sum_where_map (fun k' => String.eqb k' t) tool_name count rows).
  reflexivity.
Qed.

(** The line-chart reduction of a frame. *)
Lemma keep_top_tools_spec :
  exists kept : list string,
    NoDup kept
    /\ List.length kept = Nat.min 10 (distinct_tools rows)
    /\ (forall t, In t kept -> In t (map tool_name rows))
    /\ (forall t u, In t kept -> In u (map tool_name rows) -> ~ In u kept ->
                    total_of u rows <= total_of t rows)
    /\ NoDup (map fst (keep_top_tools rows))
    /\ (forall t d c,
          In ((t, d), c) (keep_top_tools rows)
          <-> In t kept
              /\ (exists r, In r rows /\ tool_name r = t /\ crawl_date r = d)
              /\ c = total_at t d rows).
Proof.
  destruct (top_k_spec 10 rows totals_of_grouped
              (groupby_sum_NoDup String.eqb String.leb String.eqb_eq _)
              totals_of_grouped_keys totals_of_grouped_value)
    as [Hnd [Hlen [Hin Hdom]]].
  exists (map fst (nlargest 10 totals_of_grouped)).
  split; [exact Hnd|].
  split; [rewrite length_map; exact Hlen|].
  split.
  { intros t Ht. apply in_map_iff in Ht. destruct Ht as [[t' c] [Heq Ht]].
    simpl in Heq. subst t'. apply (Hin t c Ht). }
  split.
  { intros t u Ht Hu Hnot. apply in_map_iff in Ht.
    destruct Ht as [[t' c] [Heq Ht]]. simpl in Heq. subst t'.
    destruct (Hin t c Ht) as [_ ->]. apply (Hdom t _ u Ht Hu Hnot). }
  split.
  { unfold keep_top_tools. apply filter_keeps_keys_distinct.
    apply (groupby_sum_NoDup pair_eqb pair_leb pair_eqb_eq). }
  intros t d c. unfold keep_top_tools. rewrite filter_In. simpl.
  unfold top_tools_of. fold totals_of_grouped.
  rewrite isin_In, grouped_row. tauto.
Qed.

(** The bar-chart reduction of a frame. *)
Lemma largest_five_spec :
  NoDup (map fst (largest_five rows))
  /\ List.length (largest_five rows) = Nat.min 5 (distinct_tools rows)
  /\ (forall t c, In (t, c) (largest_five rows) ->
                  In t (map tool_name rows) /\ c = total_of t rows)
  /\ (forall t c u, In (t, c) (largest_five rows) ->
                    In u (map tool_name rows) ->
                    ~ In u (map fst (largest_five rows)) ->
                    total_of u rows <= c).
Proof.
  unfold largest_five.
  apply (top_k_spec 5 rows _
           (groupby_sum_NoDup String.eqb String.leb String.eqb_eq _)
           totals_by_tool_keys totals_by_tool_value).
Qed.

End Reductions.

End ChartFacts.

(** ** The claim about the tool-trend reductions *)

Module ChartClaims.

Import CreateReportChart ChartFacts.

(** C8, as stated, fails when a total leaves the range of an int64.  Of
    six tools the one named in [2 ^ 62] postings of each of two roles has the
    largest total, [2 ^ 63]; the program's sum of the two counts wraps around
    to [- 2 ^ 63], and the bar chart keeps the five other tools. *)
Lemma wrapped_total_leaves_the_top :
  int64_column Examples.overflowing_tools = true
  /\ true_total_of "Python" Examples.overflowing_tools = 2 ^ 63
  /\ total_of "Python" Examples.overflowing_tools = - 2 ^ 63
  /\ create_tool_popularity_bar_chart Examples.overflowing_tools "All" "All"
     = [("SQL", 5); ("R", 4); ("Tableau", 3); ("Power BI", 2); ("Excel", 1)].
Proof. repeat split; vm_compute; reflexivity. Qed.

(** C8, amended.  Both reductions work on the rows that pass the role and
    category selections, each applied only when it is not ["All"].  The
    line-chart reduction keeps the tools of the 10 largest totals over all
    markers (all tools when there are at most 10) and returns one row per kept
    tool and marker with the summed count; the bar-chart reduction returns
    the 5 largest totals per tool.  The totals and the summed counts are the
    int64 sums of the counts; they are the sums in the integers when the
    magnitudes of the counts of the selected rows add up to less than
    [2 ^ 63]. *)
Theorem tool_trend_reductions (rows : list tool_row) (role cat : string) :
  int64_column rows = true ->
  (forall r, In r (filter (selected role cat) rows)
             <-> In r rows
                 /\ (role = "All" \/ data_role r = role)
                 /\ (cat = "All" \/ category r = cat))
  /\ (exists kept : list string,
        NoDup kept
        /\ List.length kept
           = Nat.min 10 (distinct_tools (filter (selected role cat) rows))
        /\ (forall t, In t kept ->
              In t (map tool_name (filter (selected role cat) rows)))
        /\ (forall t u, In t kept ->
              In u (map tool_name (filter (selected role cat) rows)) ->
              ~ In u kept ->
              total_of u (filter (selected role cat) rows)
              <= total_of t (filter (selected role cat) rows))
        /\ NoDup (map fst (create_tool_trends_line_chart rows role cat))
        /\ (forall t d c,
              In ((t, d), c) (create_tool_trends_line_chart rows role cat)
              <-> In t kept
                  /\ (exists r, In r (filter (selected role cat) rows)
                                /\ tool_name r = t /\ crawl_date r = d)
                  /\ c = total_at t d (filter (selected role cat) rows)))
  /\ NoDup (map fst (create_tool_popularity_bar_chart rows role cat))
  /\ List.length (create_tool_popularity_bar_chart rows role cat)
     = Nat.min 5 (distinct_tools (filter (selected role cat) rows))
  /\ (forall t c, In (t, c) (create_tool_popularity_bar_chart rows role cat) ->
        In t (map tool_name (filter (selected role cat) rows))
        /\ c = total_of t (filter (selected role cat) rows))
  /\ (forall t c u, In (t, c) (create_tool_popularity_bar_chart rows role cat) ->
        In u (map tool_name (filter (selected role cat) rows)) ->
        ~ In u (map fst (create_tool_popularity_bar_chart rows role cat)) ->
        total_of u (filter (selected role cat) rows) <= c)
  /\ (counts_fit (filter (selected role cat) rows) ->
      forall t d,
        total_of t (filter (selected role cat) rows)
        = true_total_of t (filter (selected role cat) rows)
        /\ total_at t d (filter (selected role cat) rows)
           = true_total_at t d (filter (selected role cat) rows)).
Proof.
  intros _.
  split.
  { intros r. rewrite filter_In, selected_spec. reflexivity. }
  split.
  { rewrite line_chart_selected. apply keep_top_tools_spec. }
  rewrite bar_chart_selected.
  destruct (largest_five_spec (filter (selected role cat) rows))
    as [Hnd [Hlen [Hin Hdom]]].
  split; [exact Hnd|]. split; [exact Hlen|]. split; [exact Hin|].
  split; [exact Hdom|].
  intros Hfit t d. unfold total_of, total_at, true_total_of, true_total_at.
  split; apply GroupFacts.sum_of_part_fits; exact Hfit.
Qed.

(** Twelve tools with distinct totals: the line chart keeps the ten tools
    of highest total, the bar chart the five of highest total. *)
Example twelve_tools_line_chart :
  nodup string_dec
    (map (fun g => fst (fst g))
         (create_tool_trends_line_chart Examples.twelve_tools "All" "All"))
  = ["T03"; "T04"; "T05"; "T06"; "T07"; "T08"; "T09"; "T10"; "T11"; "T12"]
  /\ List.length (create_tool_trends_line_chart Examples.twelve_tools "All" "All")
     = 20%nat.
Proof. split; vm_compute; reflexivity. Qed.

Example twelve_tools_bar_chart :
  create_tool_popularity_bar_chart Examples.twelve_tools "All" "All"
  = [("T12", 132); ("T11", 121); ("T10", 110); ("T09", 99); ("T08", 88)].
Proof. vm_compute. reflexivity. Qed.

(** With a role selected only the rows of that role count. *)
Example twelve_tools_bar_chart_of_role :
  create_tool_popularity_bar_chart Examples.twelve_tools "Data Analyst" "All"
  = [("T12", 12); ("T11", 11); ("T10", 10); ("T09", 9); ("T08", 8)].
Proof. vm_compute. reflexivity. Qed.

Lemma tool_trend_reductions_witness :
  In "T12" (map tool_name (filter (selected "All" "All") Examples.twelve_tools))
  /\ 132 = total_of "T12" (filter (selected "All" "All") Examples.twelve_tools)
  /\ total_of "T12" (filter (selected "All" "All") Examples.twelve_tools)
     = true_total_of "T12" (filter (selected "All" "All") Examples.twelve_tools).
Proof.
  destruct (tool_trend_reductions Examples.twelve_tools "All" "All" eq_refl)
    as [_ [_ [_ [_ [Hin [_ Hfit]]]]]].
  split; [|split].
  - apply (Hin "T12" 132). vm_compute. left. reflexivity.
  - apply (Hin "T12" 132). vm_compute. left. reflexivity.
  - apply (Hfit ltac:(vm_compute; reflexivity) "T12" "2024-05-06").
Defined.

End ChartClaims.

(** ** The code run on the example warehouses *)

Module Runs.

Import FetchReportData HomePages.

(** The statistics statement on a two-week window: 75 after 50 is a change
    of 50 percent; a zero and a missing previous value give 0 and no
    error. *)
Example statistics_of_window :
  outcome_map
    (map (fun s => map (option_map Qred)
                     [Sql.st_total_openings_change_pct s;
                      Sql.st_closed_openings_change_pct s;
                      Sql.st_new_openings_change_pct s;
                      Sql.st_fill_rate_change_pct s;
                      Sql.st_average_weeks_to_fill_change_pct s]))
    (Sql.openings_statistics_query Examples.window "2024-05-06")
  = Return [[Some 50%Q; Some 0%Q; Some 100%Q; Some (-20)%Q; Some 0%Q]].
Proof. vm_compute. reflexivity. Qed.

(** The company ranking with the three names of the specification. *)
Example company_ranking_adjusted :
  fst (fetch_openings_company Examples.db_companies Examples.requested Examples.open_state)
  = Return [mkRow [CInt 1; CStr "Acme"; CInt 12] Examples.requested;
            mkRow [CInt 2; CStr "Bar Inc"; CInt 9] Examples.requested;
            mkRow [CInt 3; CStr "PlainName"; CInt 7] Examples.requested].
Proof. reflexivity. Qed.

(** One name on which [adjust_company_name] raises empties the whole
    ranking: the handler of [fetch_openings_company] logs the error and
    returns the empty frame. *)
Example company_ranking_lost :
  fetch_openings_company Examples.db_unmatched_company Examples.requested
    Examples.open_state
  = (Return [],
     mkState [(ERROR, "Error fetching job vacancy data")] true
             [SelectOpeningsCompany Examples.requested]).
Proof. reflexivity. Qed.

(** A page load that finds a marker and consistent data returns its six
    frames, having executed its statements in order and closed the
    connection. *)
Example page_load_returns :
  fst (load_home_page_data PandasModel.model Examples.db_two_days initial_state)
  = Return ([], [], [],
            [mkRow [CInt 1; CStr "Programming"; CStr "Python"; CNum 60]
                   (MDate (mkDate 2024 5 6))],
            [], [])
  /\ connection_open
       (snd (load_home_page_data PandasModel.model Examples.db_two_days initial_state))
     = false
  /\ issued (snd (load_home_page_data PandasModel.model Examples.db_two_days initial_state))
     = [SelectNewestCrawlDate;
        SelectOpeningsStatistics Examples.requested;
        SelectOpeningsHistory;
        SelectDataRole Examples.requested;
        SelectDataTool Examples.requested;
        SelectOpeningsCompany Examples.requested;
        SelectTaipeiAreaOpenings Examples.requested].
Proof. repeat split; vm_compute; reflexivity. Qed.

(** The page load on the warehouse whose only marker is not a date: the
    statements up to the history are executed, then the exception leaves
    with the connection open and no close logged. *)
Example page_load_interrupted :
  load_home_page_data PandasModel.model Examples.db_malformed_marker initial_state
  = (Raise ValueError,
     mkState
       [(INFO, "Connected to the database successfully.");
        (INFO, "Fetching data for the date");
        (ERROR, "Failed to execute query");
        (INFO, "No data found for the given crawl date.");
        (INFO, "No data available for openings statistics on the provided crawl date.");
        (INFO, "Historical total openings data converted to DataFrame successfully.")]
       true
       [SelectNewestCrawlDate;
        SelectOpeningsStatistics (MStr "not-a-date");
        SelectOpeningsHistory;
        SelectNewestCrawlDate]).
Proof. vm_compute. reflexivity. Qed.

End Runs.

(** * Further properties of the fetch layer *)

Module SessionFacts.

Import FetchReportData HomePages.

Lemma keeps_ret {A : Type} (a : A) : keeps_session (ret a).
Proof.
  intros st o st' H. injection H as <- <-.
  split; [reflexivity|]. split; exists []; rewrite app_nil_r; reflexivity.
Qed.

Lemma keeps_raise {A : Type} (e : exn) : keeps_session (@raise A e).
Proof.
  intros st o st' H. injection H as <- <-.
  split; [reflexivity|]. split; exists []; rewrite app_nil_r; reflexivity.
Qed.

Lemma keeps_lift {A : Type} (o : outcome A) : keeps_session (lift o).
Proof.
  intros st o' st' H. injection H as <- <-.
  split; [reflexivity|]. split; exists []; rewrite app_nil_r; reflexivity.
Qed.

Lemma keeps_logger (lv : level) (msg : string) : keeps_session (logger lv msg).
Proof.
  intros st o st' H. injection H as <- <-. simpl.
  split; [reflexivity|]. split; [eexists; reflexivity|].
  exists []. rewrite app_nil_r. reflexivity.
Qed.

Lemma keeps_cursor : keeps_session cursor.
Proof.
  intros st o st' H. unfold cursor in H.
  assert (Hst : st' = st) by (destruct (connection_open st); congruence).
  subst st'. split; [reflexivity|]. split; exists []; rewrite app_nil_r; reflexivity.
Qed.

Lemma keeps_execute_fetchall {A : Type} (answer : outcome A) (q : query) :
  keeps_session (execute_fetchall answer q).
Proof.
  intros st o st' H. injection H as <- <-. simpl.
  split; [reflexivity|]. split; [|eexists; reflexivity].
  exists []. rewrite app_nil_r. reflexivity.
Qed.

Lemma keeps_steps (st st1 st2 : state) :
  (connection_open st1 = connection_open st
   /\ (exists records, log st1 = (log st ++ records)%list)
   /\ (exists statements, issued st1 = (issued st ++ statements)%list)) ->
  (connection_open st2 = connection_open st1
   /\ (exists records, log st2 = (log st1 ++ records)%list)
   /\ (exists statements, issued st2 = (issued st1 ++ statements)%list)) ->
  connection_open st2 = connection_open st
  /\ (exists records, log st2 = (log st ++ records)%list)
  /\ (exists statements, issued st2 = (issued st ++ statements)%list).
Proof.
  intros [Hc1 [[l1 Hl1] [i1 Hi1]]] [Hc2 [[l2 Hl2] [i2 Hi2]]].
  split; [congruence|]. split.
  - exists (l1 ++ l2)%list. rewrite Hl2, Hl1, app_assoc. reflexivity.
  - exists (i1 ++ i2)%list. rewrite Hi2, Hi1, app_assoc. reflexivity.
Qed.

Lemma keeps_bind {A B : Type} (m : M A) (k : A -> M B) :
  keeps_session m -> (forall a, keeps_session (k a)) -> keeps_session (bind m k).
Proof.
  intros Hm Hk st o st' H. unfold bind in H.
  destruct (m st) as [[a|e] st1] eqn:E.
  - eapply keeps_steps; [eapply Hm; exact E|eapply Hk; exact H].
  - injection H as <- <-. eapply Hm. exact E.
Qed.

Lemma keeps_try_except {A : Type} (body : M A) (handler : exn -> M A) :
  keeps_session body -> (forall e, keeps_session (handler e)) ->
  keeps_session (try_except body handler).
Proof.
  intros Hb Hh st o st' H. unfold try_except in H.
  destruct (body st) as [[a|e] st1] eqn:E.
  - injection H as <- <-. eapply Hb. exact E.
  - eapply keeps_steps; [eapply Hb; exact E|eapply Hh; exact H].
Qed.

(** Decomposes a computation of the layer into its statements. *)
Ltac keeps :=
  repeat first
    [ apply keeps_ret | apply keeps_raise | apply keeps_lift | apply keeps_logger
    | apply keeps_cursor | apply keeps_execute_fetchall
    | apply keeps_try_except; [|intros ?]
    | apply keeps_bind; [|intros ?]
    | match goal with
      | |- keeps_session (match ?x with _ => _ end) => destruct x
      | |- keeps_session (if ?b then _ else _) => destruct b
      end ].

Lemma keeps_execute_query {A : Type} (answer : outcome A) (q : query) :
  keeps_session (execute_query answer q).
Proof. unfold execute_query. keeps. Qed.

Lemma keeps_get_newest_crawl_date (db : database) :
  keeps_session (get_newest_crawl_date db).
Proof. unfold get_newest_crawl_date. keeps; apply keeps_execute_query. Qed.

Ltac keeps_fetcher :=
  unfold fetch_openings_statistics_metrics, fetch_openings_history, fetch_data_role,
    fetch_data_tool, fetch_openings_company, fetch_taiepi_area_openings,
    fetch_tool_by_data_role, fetch_tool_trends;
  keeps; apply keeps_execute_query.

Lemma keeps_fetch_openings_statistics_metrics (db : database) (d : marker) :
  keeps_session (fetch_openings_statistics_metrics db d).
Proof. keeps_fetcher. Qed.

Lemma keeps_fetch_openings_history (db : database) :
  keeps_session (fetch_openings_history db).
Proof. keeps_fetcher. Qed.

Lemma keeps_fetch_data_role (db : database) (d : marker) :
  keeps_session (fetch_data_role db d).
Proof. keeps_fetcher. Qed.

Lemma keeps_fetch_data_tool (db : database) (d : marker) :
  keeps_session (fetch_data_tool db d).
Proof. keeps_fetcher. Qed.

Lemma keeps_fetch_openings_company (db : database) (d : marker) :
  keeps_session (fetch_openings_company db d).
Proof. keeps_fetcher. Qed.

Lemma keeps_fetch_taiepi_area_openings (db : database) (d : marker) :
  keeps_session (fetch_taiepi_area_openings db d).
Proof. keeps_fetcher. Qed.

Lemma keeps_fetch_tool_by_data_role (db : database) :
  keeps_session (fetch_tool_by_data_role db).
Proof. keeps_fetcher. Qed.

Lemma keeps_fetch_tool_trends (db : database) :
  keeps_session (fetch_tool_trends db).
Proof. keeps_fetcher. Qed.

Ltac keeps_wrapper :=
  unfold fetch_openings_statistics_for_dashboard,
    fetch_historical_total_openings_for_dashboard, fetch_data_role_for_dashboard,
    fetch_data_tools_for_dashboard, fetch_openings_company_for_dashboard,
    fetch_taiepi_area_openings_for_dashboard;
  keeps;
  first [ apply keeps_fetch_openings_statistics_metrics
        | apply keeps_fetch_openings_history
        | apply keeps_fetch_data_role
        | apply keeps_fetch_data_tool
        | apply keeps_fetch_openings_company
        | apply keeps_fetch_taiepi_area_openings
        | apply keeps_get_newest_crawl_date ].

Lemma keeps_openings_statistics_wrapper (pd : pandas) (db : database) (d : marker) :
  keeps_session (fetch_openings_statistics_for_dashboard pd db d).
Proof. keeps_wrapper. Qed.

Lemma keeps_historical_wrapper (pd : pandas) (db : database) :
  keeps_session (fetch_historical_total_openings_for_dashboard pd db).
Proof. keeps_wrapper. Qed.

Lemma keeps_data_role_wrapper (pd : pandas) (db : database) (d : marker) :
  keeps_session (fetch_data_role_for_dashboard pd db d).
Proof. keeps_wrapper. Qed.

Lemma keeps_data_tools_wrapper (pd : pandas) (db : database) (d : marker) :
  keeps_session (fetch_data_tools_for_dashboard pd db d).
Proof. keeps_wrapper. Qed.

Lemma keeps_openings_company_wrapper (pd : pandas) (db : database) (d : marker) :
  keeps_session (fetch_openings_company_for_dashboard pd db d).
Proof. keeps_wrapper. Qed.

Lemma keeps_taiepi_area_openings_wrapper (pd : pandas) (db : database) (d : marker) :
  keeps_session (fetch_taiepi_area_openings_for_dashboard pd db d).
Proof. keeps_wrapper. Qed.

End SessionFacts.

Module LayerExtras.

Import FetchReportData HomePages FetchFacts WrapperFacts PageLoadFacts SessionFacts.

(** X1. No metric fetcher, no marker resolution and no wrapper closes or
    opens the connection, removes a log record or forgets an executed
    statement: each only adds to the log and to the statements. *)
Theorem fetch_layer_keeps_session (pd : pandas) (db : database) (crawl_date : marker) :
  keeps_session (get_newest_crawl_date db)
  /\ keeps_session (fetch_openings_statistics_metrics db crawl_date)
  /\ keeps_session (fetch_openings_history db)
  /\ keeps_session (fetch_data_role db crawl_date)
  /\ keeps_session (fetch_data_tool db crawl_date)
  /\ keeps_session (fetch_openings_company db crawl_date)
  /\ keeps_session (fetch_taiepi_area_openings db crawl_date)
  /\ keeps_session (fetch_tool_by_data_role db)
  /\ keeps_session (fetch_tool_trends db)
  /\ keeps_session (fetch_openings_statistics_for_dashboard pd db crawl_date)
  /\ keeps_session (fetch_historical_total_openings_for_dashboard pd db)
  /\ keeps_session (fetch_data_role_for_dashboard pd db crawl_date)
  /\ keeps_session (fetch_data_tools_for_dashboard pd db crawl_date)
  /\ keeps_session (fetch_openings_company_for_dashboard pd db crawl_date)
  /\ keeps_session (fetch_taiepi_area_openings_for_dashboard pd db crawl_date).
Proof.
  split; [apply keeps_get_newest_crawl_date|].
  split; [apply keeps_fetch_openings_statistics_metrics|].
  split; [apply keeps_fetch_openings_history|].
  split; [apply keeps_fetch_data_role|].
  split; [apply keeps_fetch_data_tool|].
  split; [apply keeps_fetch_openings_company|].
  split; [apply keeps_fetch_taiepi_area_openings|].
  split; [apply keeps_fetch_tool_by_data_role|].
  split; [apply keeps_fetch_tool_trends|].
  split; [apply keeps_openings_statistics_wrapper|].
  split; [apply keeps_historical_wrapper|].
  split; [apply keeps_data_role_wrapper|].
  split; [apply keeps_data_tools_wrapper|].
  split; [apply keeps_openings_company_wrapper|].
  apply keeps_taiepi_area_openings_wrapper.
Qed.

Lemma fetch_layer_keeps_session_witness :
  connection_open
    (snd (fetch_data_tools_for_dashboard PandasModel.model Examples.db_two_days
            Examples.requested Examples.open_state))
  = true.
Proof.
  destruct (fetch_layer_keeps_session PandasModel.model Examples.db_two_days
              Examples.requested)
    as [_ [_ [_ [_ [_ [_ [_ [_ [_ [_ [_ [_ [H _]]]]]]]]]]]]].
  destruct (H Examples.open_state _ _ (surjective_pairing _)) as [Hc _].
  exact Hc.
Defined.

Ltac once_cases answer :=
  intros st; run_py; split; intros Hc; rewrite Hc; simpl;
  [ destruct answer as [[|r rs]|e]; simpl;
    repeat match goal with
      | |- context [match ?o with Return _ => _ | Raise _ => _ end] =>
          destruct o; simpl
      end; reflexivity
  | split; reflexivity ].

(** X2. On an open connection each metric fetcher executes its own
    statement exactly once, whatever the answer; on a closed connection it
    executes nothing and returns the empty frame. *)
Theorem fetchers_execute_once (db : database) (crawl_date : marker) :
  executes_once (SelectOpeningsStatistics crawl_date)
    (fetch_openings_statistics_metrics db crawl_date)
  /\ executes_once SelectOpeningsHistory (fetch_openings_history db)
  /\ executes_once (SelectDataRole crawl_date) (fetch_data_role db crawl_date)
  /\ executes_once (SelectDataTool crawl_date) (fetch_data_tool db crawl_date)
  /\ executes_once (SelectOpeningsCompany crawl_date) (fetch_openings_company db crawl_date)
  /\ executes_once (SelectTaipeiAreaOpenings crawl_date)
       (fetch_taiepi_area_openings db crawl_date)
  /\ executes_once SelectToolByDataRole (fetch_tool_by_data_role db)
  /\ executes_once SelectToolTrends (fetch_tool_trends db).
Proof.
  split; [once_cases (rows_of db (SelectOpeningsStatistics crawl_date))|].
  split; [once_cases (rows_of db SelectOpeningsHistory)|].
  split; [once_cases (rows_of db (SelectDataRole crawl_date))|].
  split; [once_cases (rows_of db (SelectDataTool crawl_date))|].
  split; [once_cases (rows_of db (SelectOpeningsCompany crawl_date))|].
  split; [once_cases (rows_of db (SelectTaipeiAreaOpenings crawl_date))|].
  split; [once_cases (rows_of db SelectToolByDataRole)|].
  once_cases (rows_of db SelectToolTrends).
Qed.

Lemma fetchers_execute_once_witness :
  issued (snd (fetch_data_tool Examples.db_two_days Examples.requested Examples.open_state))
  = [SelectDataTool Examples.requested]
  /\ fst (fetch_data_tool Examples.db_two_days Examples.requested initial_state) = Return [].
Proof.
  destruct (fetchers_execute_once Examples.db_two_days Examples.requested)
    as [_ [_ [_ [H _]]]].
  split.
  - apply (proj1 (H Examples.open_state)). reflexivity.
  - apply (proj2 (H initial_state)). reflexivity.
Defined.

Ltac only_requested :=
  let H := fresh "H" in
  let Hne := fresh "Hne" in
  let E := fresh "E" in
  intros st out st' H Hne;
  unfold fetch_data_role_for_dashboard, fetch_data_tools_for_dashboard,
    fetch_openings_company_for_dashboard, fetch_taiepi_area_openings_for_dashboard,
    bind, lift, logger, ret in H;
  match type of H with
  | context [?fetch st] =>
      match type of (fetch st) with
      | (outcome DataFrame * state)%type =>
          destruct (fetch st) as [[[|r0 rs0]|e0] st1]
      end
  end;
  cbn [empty negb] in H; try discriminate H;
  [ injection H as <- _; contradiction Hne; reflexivity | ];
  match type of H with
  | context [coerce_crawl_date ?pd ?data] =>
      destruct (coerce_crawl_date pd data) as [?|?]; [|discriminate H]
  end;
  match type of H with
  | context [provided_date ?pd ?d] =>
      destruct (provided_date pd d) as [?|?]; [|discriminate H]
  end;
  match goal with
  | p : option date |- _ => exists p
  end;
  split; [reflexivity|];
  match type of H with
  | context [forallb ?p ?l] => destruct (forallb p l) eqn:E
  end;
  [ injection H as <- _; apply forallb_forall; exact E
  | try rewrite filter_or_empty in H; injection H as <- _;
    first [ contradiction Hne; reflexivity
          | intros r Hin; apply filter_In in Hin; apply Hin ] ].

(** X3. Whatever the warehouse answers and however pandas converts, no
    wrapper returns a row of another day: every row of a frame returned by
    the data-role, data-tools, openings-company or Taipei-area wrapper has,
    after conversion, the requested calendar date, and every row returned by
    the openings-statistics wrapper compares equal to the requested
    marker. *)
Theorem wrappers_return_only_requested (pd : pandas) (db : database) (crawl_date : marker) :
  returns_only_requested_as_fetched pd crawl_date
    (fetch_openings_statistics_for_dashboard pd db crawl_date)
  /\ returns_only_requested pd crawl_date (fetch_data_role_for_dashboard pd db crawl_date)
  /\ returns_only_requested pd crawl_date (fetch_data_tools_for_dashboard pd db crawl_date)
  /\ returns_only_requested pd crawl_date
       (fetch_openings_company_for_dashboard pd db crawl_date)
  /\ returns_only_requested pd crawl_date
       (fetch_taiepi_area_openings_for_dashboard pd db crawl_date).
Proof.
  split.
  { intros st out st' H.
    unfold fetch_openings_statistics_for_dashboard, bind, logger, ret in H.
    destruct (fetch_openings_statistics_metrics db crawl_date st) as [[[|r0 rs0]|e0] st1];
      cbn [empty negb] in H; try discriminate H.
    - injection H as <- _. intros r [].
    - destruct (forallb (fun r => series_eq pd (col_crawl_date r) crawl_date) (r0 :: rs0))
        eqn:E; injection H as <- _; [|intros r []].
      apply forallb_forall. exact E. }
  split; [only_requested|].
  split; [only_requested|].
  split; only_requested.
Qed.

Lemma wrappers_return_only_requested_witness :
  exists provided,
    provided_date PandasModel.model Examples.requested = Return provided
    /\ forall r,
         In r [mkRow [CInt 1; CStr "Programming"; CStr "Python"; CNum 60]
                     (MDate (mkDate 2024 5 6))] ->
         date_matches provided (col_crawl_date r) = true.
Proof.
  destruct (wrappers_return_only_requested PandasModel.model Examples.db_two_days
              Examples.requested) as [_ [_ [H _]]].
  apply (H Examples.open_state _
           (snd (fetch_data_tools_for_dashboard PandasModel.model Examples.db_two_days
                   Examples.requested Examples.open_state))).
  - vm_compute. reflexivity.
  - discriminate.
Defined.

Ltac passes_empty contract :=
  let Hans := fresh "Hans" in
  let Hf := fresh "Hf" in
  intros st Hans;
  destruct (contract st) as [_ [Hempty Hfail]];
  match type of Hempty with
  | _ -> empty_with_log ?fetch st =>
      assert (Hf : empty_with_log fetch st)
        by (destruct Hans as [Hans|[e Hans]];
            [apply Hempty|apply (Hfail e)]; exact Hans)
  end;
  destruct Hf as [st1 [Hf _]];
  unfold fetch_openings_statistics_for_dashboard,
    fetch_historical_total_openings_for_dashboard, fetch_data_role_for_dashboard,
    fetch_data_tools_for_dashboard, fetch_openings_company_for_dashboard,
    fetch_taiepi_area_openings_for_dashboard, bind;
  rewrite Hf; cbn [empty negb];
  do 2 eexists; reflexivity.

(** X4. When its statement yields no tuple, and when executing it fails,
    each of the six wrappers returns the empty frame without touching
    pandas, and the last record it writes is an [INFO] one: an empty result
    is never reported as a data inconsistency. *)
Theorem wrappers_pass_empty_on (pd : pandas) (db : database) (crawl_date : marker) :
  passes_empty_on (rows_of db (SelectOpeningsStatistics crawl_date))
    (fetch_openings_statistics_for_dashboard pd db crawl_date)
  /\ passes_empty_on (rows_of db SelectOpeningsHistory)
       (fetch_historical_total_openings_for_dashboard pd db)
  /\ passes_empty_on (rows_of db (SelectDataRole crawl_date))
       (fetch_data_role_for_dashboard pd db crawl_date)
  /\ passes_empty_on (rows_of db (SelectDataTool crawl_date))
       (fetch_data_tools_for_dashboard pd db crawl_date)
  /\ passes_empty_on (rows_of db (SelectOpeningsCompany crawl_date))
       (fetch_openings_company_for_dashboard pd db crawl_date)
  /\ passes_empty_on (rows_of db (SelectTaipeiAreaOpenings crawl_date))
       (fetch_taiepi_area_openings_for_dashboard pd db crawl_date).
Proof.
  split; [passes_empty (fetch_openings_statistics_metrics_contract db crawl_date)|].
  split; [passes_empty (fetch_openings_history_contract db)|].
  split; [passes_empty (fetch_data_role_contract db crawl_date)|].
  split; [passes_empty (fetch_data_tool_contract db crawl_date)|].
  split; [passes_empty (fetch_openings_company_contract db crawl_date)|].
  passes_empty (fetch_taiepi_area_openings_contract db crawl_date).
Qed.

Lemma wrappers_pass_empty_on_witness :
  exists st1 msg,
    fetch_data_role_for_dashboard PandasModel.model Examples.db_failing
      Examples.requested Examples.open_state
    = (Return [], logged INFO msg st1).
Proof.
  destruct (wrappers_pass_empty_on PandasModel.model Examples.db_failing
              Examples.requested) as [_ [_ [H _]]].
  apply (H Examples.open_state). right. exists DatabaseError. reflexivity.
Defined.

Lemma keeps_fetch_all_metrics (pd : pandas) (db : database) (crawl_date : marker) :
  keeps_session (fetch_all_metrics pd db crawl_date).
Proof.
  unfold fetch_all_metrics. keeps;
    first [ apply keeps_openings_statistics_wrapper
          | apply keeps_historical_wrapper
          | apply keeps_data_role_wrapper
          | apply keeps_data_tools_wrapper
          | apply keeps_openings_company_wrapper
          | apply keeps_taiepi_area_openings_wrapper ].
Qed.

Lemma fetch_all_metrics_assigns (pd : pandas) (db : database) (crawl_date : marker)
    (st st' : state) (vars : locals) :
  fetch_all_metrics pd db crawl_date st = (Return vars, st') ->
  exists a b c d e f, vars = mkLocals (Some a) (Some b) (Some c) (Some d) (Some e) (Some f).
Proof.
  unfold fetch_all_metrics, bind, logger, ret. intros H.
  repeat match type of H with
    | context [match ?w ?s with (_, _) => _ end] =>
        destruct (w s) as [[?|?] ?]; [|discriminate H]
    end.
  injection H as <- _. do 6 eexists. reflexivity.
Qed.

Lemma load_with_marker (pd : pandas) (db : database) (st st1 : state) (crawl_date : marker) :
  reachable db = true ->
  get_newest_crawl_date db (connected st) = (Return (Some crawl_date), st1) ->
  truthy (Some crawl_date) = true ->
  load_home_page_data pd db st
  = match fetch_all_metrics pd db crawl_date st1 with
    | (Return vars, st2) =>
        (close ;;
         logger INFO "Database connection closed." ;;
         a <- read (openings_statistics vars) ;;
         b <- read (historical_total_openings vars) ;;
         c <- read (data_role vars) ;;
         d <- read (data_tools vars) ;;
         e <- read (openings_company vars) ;;
         f <- read (taiepi_area_openings vars) ;;
         ret (a, b, c, d, e, f))%py st2
    | (Raise e, st2) => (Raise e, st2)
    end.
Proof.
  intros Hr Hn Ht. unfold load_home_page_data.
  unfold bind at 1. rewrite (init_reachable db st Hr).
  unfold bind at 1. rewrite Hn. rewrite Ht.
  unfold bind at 1. fold (fetch_all_metrics pd db crawl_date).
  destruct (fetch_all_metrics pd db crawl_date st1) as [[vars|e] st2]; reflexivity.
Qed.

(** X5. A page load on a reachable warehouse ends with the connection open
    exactly when a marker was found and the load raised: the exception then
    comes from a wrapper and has skipped the close.  Every other page load,
    returning or not, ends with the connection closed. *)
Theorem connection_left_open_exactly_when
    (pd : pandas) (db : database) (st st1 : state) (n : option marker) :
  reachable db = true ->
  get_newest_crawl_date db (connected st) = (Return n, st1) ->
  connection_open (snd (load_home_page_data pd db st)) = true
  <-> truthy n = true /\ exists e, fst (load_home_page_data pd db st) = Raise e.
Proof.
  intros Hr Hn.
  assert (Hopen : connection_open st1 = true).
  { destruct (keeps_get_newest_crawl_date db _ _ _ Hn) as [Hc _]. exact Hc. }
  destruct (truthy n) eqn:Ht.
  - destruct n as [crawl_date|]; [|discriminate Ht].
    rewrite (load_with_marker pd db st st1 crawl_date Hr Hn Ht).
    destruct (fetch_all_metrics pd db crawl_date st1) as [[vars|e] st2] eqn:E.
    + destruct (fetch_all_metrics_assigns pd db crawl_date st1 st2 vars E)
        as [a [b [c [d [e [f ->]]]]]].
      simpl. split; [discriminate|]. intros [_ [e0 He0]]. discriminate He0.
    + simpl. destruct (keeps_fetch_all_metrics pd db crawl_date _ _ _ E) as [Hc _].
      rewrite Hc, Hopen. split; [|reflexivity].
      intros _. split; [reflexivity|]. exists e. reflexivity.
  - rewrite (load_without_marker pd db st st1 n Hr Hn Ht). simpl.
    split; [discriminate|]. intros [Hf _]. discriminate Hf.
Qed.

Lemma connection_left_open_exactly_when_witness :
  connection_open
    (snd (load_home_page_data PandasModel.model Examples.db_sentinel_marker initial_state))
  = true
  <-> HomePages.truthy (Some (MStr "9999-12-31")) = true
      /\ exists e,
           fst (load_home_page_data PandasModel.model Examples.db_sentinel_marker
                  initial_state)
           = Raise e.
Proof.
  apply (connection_left_open_exactly_when PandasModel.model Examples.db_sentinel_marker
           initial_state
           (snd (FetchReportData.get_newest_crawl_date Examples.db_sentinel_marker
                   (connected initial_state)))).
  - reflexivity.
  - vm_compute. reflexivity.
Defined.

End LayerExtras.

(** ** The history wrapper on a consistent warehouse *)

Module HistoryWrapperFacts.

Import FetchReportData HomePages Warehouse WarehouseFacts.

Lemma series_max_of_strings (m0 : string) (l : list string) :
  exists m, PandasModel.series_max_from (MStr m0) (map MStr l) = Return (MStr m)
    /\ In m (m0 :: l)
    /\ forall x, In x (m0 :: l) -> String.leb x m = true.
Proof.
  revert m0. induction l as [|y r IH]; intros m0; simpl.
  - exists m0. split; [reflexivity|]. split; [left; reflexivity|].
    intros x [<-|[]]. apply StringOrder.leb_refl.
  - destruct (String.leb m0 y) eqn:E.
    + destruct (IH y) as [m [Hm [Hin Hle]]]. exists m.
      split; [exact Hm|]. split; [right; exact Hin|].
      intros x [<-|Hx]; [|apply Hle; exact Hx].
      eapply StringOrder.leb_trans; [exact E|]. apply Hle. left. reflexivity.
    + destruct (IH m0) as [m [Hm [Hin Hle]]]. exists m.
      split; [exact Hm|]. split.
      * destruct Hin as [<-|Hin]; [left; reflexivity|right; right; exact Hin].
      * intros x [<-|[<-|Hx]].
        -- apply Hle. left. reflexivity.
        -- destruct (String.leb_total m0 y) as [H|H]; [congruence|].
           eapply StringOrder.leb_trans; [exact H|]. apply Hle. left. reflexivity.
        -- apply Hle. right. exact Hx.
Qed.

Lemma timestamp_eqb_refl (t : timestamp) : timestamp_eqb t t = true.
Proof.
  unfold timestamp_eqb, date_eqb. rewrite !N.eqb_refl. reflexivity.
Qed.

(** The newest marker of the table is among the markers of the history. *)
Lemma history_holds_newest (table : list metrics_row) (m : string) :
  MAX (map crawl_date table) = Some m ->
  In m (map crawl_date (select_openings_history table)).
Proof.
  intros Hmax.
  pose proof (MAX_spec (map crawl_date table)) as Hspec. rewrite Hmax in Hspec.
  destruct Hspec as [Hin Hle].
  apply in_map_iff in Hin. destruct Hin as [r [Hr Hin]].
  apply (sort_by_in crawl_date_desc table) in Hin.
  rewrite <- (firstn_skipn 12 (sort_by crawl_date_desc table)) in Hin.
  apply in_app_or in Hin. destruct Hin as [Hin|Hin].
  - apply in_map_iff. exists r. split; [exact Hr|]. apply history_in. exact Hin.
  - destruct (sort_by crawl_date_desc table) as [|k rest] eqn:Es.
    + destruct Hin.
    + assert (Hk : In k (firstn 12 (k :: rest))) by (left; reflexivity).
      assert (Hsorted : StronglySorted (fun a b => crawl_date_desc a b = true) (k :: rest)).
      { rewrite <- Es. apply (sort_by_sorted crawl_date_desc desc_total desc_trans). }
      pose proof (sorted_prefix_dominates _ 12 (k :: rest) Hsorted k r Hk Hin) as Hdom.
      unfold crawl_date_desc in Hdom. rewrite Hr in Hdom.
      assert (Hkt : In k table).
      { apply (sort_by_in crawl_date_desc table). rewrite Es. left. reflexivity. }
      assert (Heq : crawl_date k = m).
      { apply String.leb_antisym; [|exact Hdom].
        apply Hle. apply in_map. exact Hkt. }
      apply in_map_iff. exists k. split; [exact Heq|].
      apply history_in. rewrite Es. exact Hk.
Qed.

(** The instance the code is run on returns the greatest text. *)
Lemma model_max_of_texts : max_of_texts PandasModel.model.
Proof.
  intros texts m Hin Hle. destruct texts as [|m0 l]; [destruct Hin|].
  change (series_max PandasModel.model (map MStr (m0 :: l)))
    with (PandasModel.series_max_from (MStr m0) (map MStr l)).
  destruct (series_max_of_strings m0 l) as [m' [Hm' [Hin' Hle']]].
  rewrite Hm'. f_equal. f_equal.
  apply String.leb_antisym; [apply Hle; exact Hin'|apply Hle'; exact Hin].
Qed.

(** pandas' maximum of the history column is the newest marker of the
    table. *)
Lemma history_column_max (pd : pandas) (table : list metrics_row) (m : string) :
  max_of_texts pd ->
  MAX (map crawl_date table) = Some m ->
  series_max pd
    (map col_crawl_date (map history_tuple (select_openings_history table)))
  = Return (MStr m).
Proof.
  intros Hlaw Hmax.
  pose proof (history_holds_newest table m Hmax) as Hin.
  pose proof (MAX_spec (map crawl_date table)) as Hspec. rewrite Hmax in Hspec.
  destruct Hspec as [_ Hle].
  rewrite map_map. simpl.
  rewrite <- (map_map crawl_date MStr).
  apply Hlaw; [exact Hin|].
  intros x Hx. apply Hle. apply in_map_iff in Hx.
  destruct Hx as [k [Hk Hkin]]. rewrite <- Hk. apply in_map.
  apply history_incl. exact Hkin.
Qed.

(** X6. On a warehouse that answers the MAX statement and the history
    statement over the same non-empty metrics table, the history wrapper
    finds the newest marker at the end of the series and returns the series
    as fetched, for every pandas whose [max] of a column of texts is the
    greatest text and which converts that marker to a timestamp. *)
Theorem history_of_consistent_warehouse_accepted
    (pd : pandas) (db : database) (table : list metrics_row) (st : state)
    (m : string) (t : timestamp) :
  max_of_texts pd ->
  max_crawl_date db = Return (select_newest_crawl_date table) ->
  rows_of db SelectOpeningsHistory
  = Return (map history_tuple (select_openings_history table)) ->
  connection_open st = true ->
  MAX (map crawl_date table) = Some m ->
  to_datetime pd (MStr m) = Return (Some t) ->
  fst (fetch_historical_total_openings_for_dashboard pd db st)
  = Return (map history_tuple (select_openings_history table)).
Proof.
  intros Hlaw Hnewest Hhistory Hopen Hmax Hparse.
  destruct (HistoryFacts.fetch_openings_history_answer db _ st Hhistory Hopen)
    as [st1 Hfetch].
  assert (Hopen1 : connection_open st1 = true).
  { destruct (SessionFacts.keeps_fetch_openings_history db _ _ _ Hfetch) as [Hc _].
    congruence. }
  pose proof (LayerClaims.get_newest_of_table db table st1 Hnewest Hopen1) as Hn.
  rewrite Hmax in Hn. simpl in Hn.
  destruct (get_newest_crawl_date db st1) as [n st2] eqn:En. simpl in Hn. subst n.
  unfold fetch_historical_total_openings_for_dashboard, bind. rewrite Hfetch.
  assert (Hne : negb (empty (map history_tuple (select_openings_history table))) = true).
  { pose proof (history_holds_newest table m Hmax) as Hin.
    destruct (select_openings_history table); [destruct Hin|reflexivity]. }
  rewrite Hne, En. unfold lift.
  rewrite (history_column_max pd table m Hlaw Hmax).
  unfold to_datetime_eq. rewrite Hparse. simpl.
  rewrite timestamp_eqb_refl. reflexivity.
Qed.

Lemma history_of_consistent_warehouse_accepted_witness :
  fst (fetch_historical_total_openings_for_dashboard PandasModel.model Examples.db_history
         Examples.open_state)
  = Return (map history_tuple (select_openings_history Examples.table15)).
Proof.
  apply (history_of_consistent_warehouse_accepted PandasModel.model Examples.db_history
           Examples.table15 Examples.open_state "2024-04-08"
           (mkTimestamp (mkDate 2024 4 8) 0));
    [exact model_max_of_texts|vm_compute; reflexivity ..].
Defined.

End HistoryWrapperFacts.

(** ** Further properties of the company ranking *)

Module CompanyExtras.

Import CompanyName CompanyNameFacts FetchReportData.

Lemma before_first_clean (c : ascii) (name : string) :
  contains c (before_first c name) = false.
Proof.
  induction name as [|a r IH]; simpl; [reflexivity|].
  destruct (Ascii.eqb a c) eqn:E; simpl; [reflexivity|]. rewrite E. exact IH.
Qed.

Lemma before_first_length (c : ascii) (name : string) :
  (String.length (before_first c name) <= String.length name)%nat.
Proof.
  induction name as [|a r IH]; simpl; [lia|].
  destruct (Ascii.eqb a c); simpl; lia.
Qed.

Lemma lazy_group_part (s g : string) :
  lazy_group s = Some g ->
  (forall c, contains c g = true -> contains c s = true)
  /\ (String.length g < String.length s)%nat.
Proof.
  revert g. induction s as [|a r IH]; simpl; intros g H; [discriminate|].
  destruct (Ascii.eqb a rparen).
  - injection H as <-. split; [intros c Hc; discriminate Hc|simpl; lia].
  - destruct (Ascii.eqb a newline); [discriminate|].
    destruct (lazy_group r) as [g'|]; [|discriminate].
    injection H as <-. destruct (IH g' eq_refl) as [Hin Hlen]. split.
    + intros c. simpl. destruct (Ascii.eqb a c); [reflexivity|]. apply Hin.
    + simpl. lia.
Qed.

Lemma re_search_part (name g : string) :
  re_search name = Some g ->
  (forall c, contains c g = true -> contains c name = true)
  /\ (String.length g < String.length name)%nat.
Proof.
  revert g. induction name as [|a r IH]; simpl; intros g H; [discriminate|].
  assert (Hrest : re_search r = Some g ->
                  (forall c, contains c g = true -> contains c (String a r) = true)
                  /\ (String.length g < S (String.length r))%nat).
  { intros Hr. destruct (IH g Hr) as [Hin Hlen]. split; [|lia].
    intros c Hc. simpl. destruct (Ascii.eqb a c); [reflexivity|]. apply Hin. exact Hc. }
  destruct (Ascii.eqb a lparen); [|apply Hrest; exact H].
  destruct (lazy_group r) as [g'|] eqn:E; [|apply Hrest; exact H].
  injection H as <-. destruct (lazy_group_part r g' E) as [Hin Hlen]. split; [|lia].
  intros c Hc. simpl. destruct (Ascii.eqb a c); [reflexivity|]. apply Hin. exact Hc.
Qed.

(** X7. A name returned by [adjust_company_name] holds no underscore and
    is not longer than the name it comes from. *)
Theorem adjusted_name_clean (name adjusted : string) :
  adjust_company_name name = Return adjusted ->
  contains underscore adjusted = false
  /\ (String.length adjusted <= String.length name)%nat.
Proof.
  unfold adjust_company_name.
  destruct (contains underscore name) eqn:Hu.
  - rewrite split_head. intros H. injection H as <-.
    split; [apply before_first_clean|apply before_first_length].
  - destruct (contains lparen name && contains rparen name).
    + destruct (re_search name) as [g|] eqn:E; simpl; [|discriminate].
      intros H. injection H as <-.
      destruct (re_search_part name g E) as [Hin Hlen]. split; [|lia].
      destruct (contains underscore g) eqn:Hg; [|reflexivity].
      rewrite (Hin underscore Hg) in Hu. discriminate.
    + intros H. injection H as <-. split; [exact Hu|lia].
Qed.

Lemma adjusted_name_clean_witness :
  contains underscore "Bar Inc" = false
  /\ (String.length "Bar Inc" <= String.length "Foo (Bar Inc)")%nat.
Proof. apply (adjusted_name_clean "Foo (Bar Inc)" "Bar Inc"). reflexivity. Defined.

Lemma apply_adjust_rows (df out : DataFrame) :
  apply_adjust_company_name df = Return out -> Forall2 name_adjusted df out.
Proof.
  unfold apply_adjust_company_name. revert out.
  induction df as [|r rs IH]; simpl; intros out H.
  - injection H as <-. constructor.
  - destruct (fields r) as [|rank [|[| | |name] rest]] eqn:Ef; simpl in H;
      try discriminate H.
    unfold outcome_map in H.
    destruct (adjust_company_name name) as [adjusted|] eqn:Ea; simpl in H;
      [|discriminate H].
    match type of H with
    | context [outcome_mapM ?f rs] => destruct (outcome_mapM f rs) as [out'|] eqn:Er
    end; simpl in H; [|discriminate H].
    injection H as <-. constructor; [|apply IH; reflexivity].
    split; [reflexivity|]. exists rank, name, rest, adjusted.
    repeat split; assumption.
Qed.

(** X8. A ranking returned by [fetch_openings_company] is the ranking the
    warehouse answered, row for row and in the same order: the same ranks,
    opening counts and markers, with each company name replaced by its
    normalised form.  No row is dropped, added or moved. *)
Theorem company_ranking_row_for_row (db : database) (crawl_date : marker) (st : state)
    (out : DataFrame) :
  fst (fetch_openings_company db crawl_date st) = Return out ->
  out <> [] ->
  exists data,
    rows_of db (SelectOpeningsCompany crawl_date) = Return data
    /\ Forall2 name_adjusted data out.
Proof.
  unfold fetch_openings_company, execute_query, try_except, bind, ret, lift, logger,
    cursor, execute_fetchall.
  destruct (connection_open st); simpl.
  - destruct (rows_of db (SelectOpeningsCompany crawl_date)) as [[|r rs]|e]; simpl.
    + intros H Hne. injection H as <-. contradiction Hne. reflexivity.
    + unfold pd_DataFrame.
      match goal with
      | |- context [forallb ?p (r :: rs)] => destruct (forallb p (r :: rs))
      end; simpl.
      * destruct (apply_adjust_company_name (r :: rs)) as [df|e] eqn:Ea; simpl.
        -- intros H _. injection H as <-. exists (r :: rs).
           split; [reflexivity|]. apply apply_adjust_rows. exact Ea.
        -- intros H Hne. injection H as <-. contradiction Hne. reflexivity.
      * intros H Hne. injection H as <-. contradiction Hne. reflexivity.
    + intros H Hne. injection H as <-. contradiction Hne. reflexivity.
  - intros H Hne. injection H as <-. contradiction Hne. reflexivity.
Qed.

Lemma company_ranking_row_for_row_witness :
  exists data,
    rows_of Examples.db_companies (SelectOpeningsCompany Examples.requested) = Return data
    /\ Forall2 name_adjusted data
         [mkRow [CInt 1; CStr "Acme"; CInt 12] Examples.requested;
          mkRow [CInt 2; CStr "Bar Inc"; CInt 9] Examples.requested;
          mkRow [CInt 3; CStr "PlainName"; CInt 7] Examples.requested].
Proof.
  apply (company_ranking_row_for_row Examples.db_companies Examples.requested
           Examples.open_state).
  - reflexivity.
  - discriminate.
Defined.

End CompanyExtras.

(** ** Further properties of the SQL statements *)

Module SqlExtras.

Import Sql SqlFacts.

Lemma change_pct_total (current previous : num) :
  exists q, change_pct current previous = Return (Some q).
Proof.
  destruct previous as [p|]; [|rewrite change_pct_absent; eauto].
  destruct (Qeq_bool p 0) eqn:E.
  - apply Qeq_bool_iff in E. rewrite (change_pct_zero current p E). eauto.
  - destruct current as [c|].
    + rewrite change_pct_nonzero; [eauto|].
      intros H. apply Qeq_bool_iff in H. congruence.
    + unfold change_pct, CAST_FLOAT, NULLIF. rewrite E. simpl. eauto.
Qed.

Lemma outer_select_row_total (r : AAAA_row) :
  exists s, outer_select_row r = Return s
    /\ st_crawl_date s = crawl_date (cur r)
    /\ st_total_openings_change_pct s <> None
    /\ st_closed_openings_change_pct s <> None
    /\ st_new_openings_change_pct s <> None
    /\ st_fill_rate_change_pct s <> None
    /\ st_average_weeks_to_fill_change_pct s <> None.
Proof.
  unfold outer_select_row.
  destruct (change_pct_total (total_openings (cur r)) (prev_total_openings r)) as [q1 ->].
  destruct (change_pct_total (closed_openings_count (cur r)) (prev_closed_openings_count r))
    as [q2 ->].
  destruct (change_pct_total (new_openings_count (cur r)) (prev_new_openings_count r))
    as [q3 ->].
  destruct (change_pct_total (fill_rate (cur r)) (prev_fill_rate r)) as [q4 ->].
  destruct (change_pct_total (average_weeks_to_fill (cur r)) (prev_average_weeks_to_fill r))
    as [q5 ->].
  simpl. eexists. split; [reflexivity|]. simpl. repeat split; discriminate.
Qed.

Lemma inner_select_length (window : list AAA_row) :
  List.length (inner_select window) = List.length window.
Proof. induction window as [|r w IH]; simpl; [|rewrite IH]; reflexivity. Qed.

Lemma select_list_total (rows : list AAAA_row) (requested : string) :
  (forall r, In r rows -> crawl_date (cur r) = requested) ->
  exists out, outcome_mapM outer_select_row rows = Return out
    /\ List.length out = List.length rows
    /\ forall s, In s out ->
         st_crawl_date s = requested
         /\ st_total_openings_change_pct s <> None
         /\ st_closed_openings_change_pct s <> None
         /\ st_new_openings_change_pct s <> None
         /\ st_fill_rate_change_pct s <> None
         /\ st_average_weeks_to_fill_change_pct s <> None.
Proof.
  induction rows as [|r rs IH]; intros Hd; simpl.
  - exists []. split; [reflexivity|]. split; [reflexivity|]. intros s [].
  - destruct (outer_select_row_total r) as [s [Hs [Hdate Hpct]]]. rewrite Hs. simpl.
    destruct IH as [out [Hout [Hlen Hall]]].
    { intros r' Hr'. apply Hd. right. exact Hr'. }
    rewrite Hout. simpl. exists (s :: out). split; [reflexivity|].
    split; [simpl; rewrite Hlen; reflexivity|].
    intros s' [<-|Hs']; [|apply Hall; exact Hs'].
    split; [|exact Hpct]. rewrite Hdate. apply Hd. left. reflexivity.
Qed.

(** X9. The openings-statistics statement never aborts with a division by
    zero, whatever the rows of its window: it returns at most one row per
    window row, every returned row carries the requested [crawl_date], and
    none of its five change percentages is NULL. *)
Theorem openings_statistics_query_total (window : list AAA_row) (requested : string) :
  exists out,
    openings_statistics_query window requested = Return out
    /\ (List.length out <= List.length window)%nat
    /\ forall s, In s out ->
         st_crawl_date s = requested
         /\ st_total_openings_change_pct s <> None
         /\ st_closed_openings_change_pct s <> None
         /\ st_new_openings_change_pct s <> None
         /\ st_fill_rate_change_pct s <> None
         /\ st_average_weeks_to_fill_change_pct s <> None.
Proof.
  unfold openings_statistics_query.
  destruct (select_list_total
              (filter (fun r => String.eqb (crawl_date (cur r)) requested)
                      (inner_select window)) requested)
    as [out [Hout [Hlen Hall]]].
  { intros r Hr. apply filter_In in Hr. apply String.eqb_eq. apply Hr. }
  exists out. split; [exact Hout|]. split; [|exact Hall].
  rewrite Hlen, <- (inner_select_length window). apply filter_length_le.
Qed.

Local Open Scope Q_scope.

Lemma positive_iff (value : Q) : Presentation.positive value = true <-> 0 < value.
Proof.
  unfold Presentation.positive. rewrite negb_true_iff. split.
  - intros H. apply Qnot_le_lt. intros Hle. apply Qle_bool_iff in Hle. congruence.
  - intros H. destruct (Qle_bool value 0) eqn:E; [|reflexivity].
    apply Qle_bool_iff in E. exfalso. apply (Qlt_not_le _ _ H E).
Qed.

Lemma change_positive_iff (current previous : Q) :
  0 < previous ->
  (0 < (current - previous) / previous * 100 <-> previous < current).
Proof.
  intros Hp.
  assert (Hk : 0 < 100 / previous).
  { apply Qlt_shift_div_l; [exact Hp|]. rewrite Qmult_0_l. reflexivity. }
  assert (Heq : (current - previous) / previous * 100 == (current - previous) * (100 / previous)).
  { field. intros H. rewrite H in Hp. apply (Qlt_irrefl 0). exact Hp. }
  rewrite Heq.
  rewrite <- (Qmult_0_l (100 / previous)).
  rewrite (Qmult_lt_r _ _ _ Hk).
  split; intros H.
  - apply (Qplus_lt_l _ _ (- previous)). rewrite Qplus_opp_r. exact H.
  - apply (Qplus_lt_l _ _ (- previous)) in H. rewrite Qplus_opp_r in H. exact H.
Qed.

Lemma change_negative_iff (current previous : Q) :
  previous < 0 ->
  (0 < (current - previous) / previous * 100 <-> current < previous).
Proof.
  intros Hp.
  assert (Hneg : 0 < - previous).
  { apply (Qplus_lt_l _ _ previous). rewrite Qplus_0_l.
    setoid_replace (- previous + previous) with 0 by ring. exact Hp. }
  assert (Hk : 0 < 100 / - previous).
  { apply Qlt_shift_div_l; [exact Hneg|]. rewrite Qmult_0_l. reflexivity. }
  assert (Heq : (current - previous) / previous * 100
                == (previous - current) * (100 / - previous)).
  { field. intros H. rewrite H in Hp. apply (Qlt_irrefl 0). exact Hp. }
  rewrite Heq.
  rewrite <- (Qmult_0_l (100 / - previous)).
  rewrite (Qmult_lt_r _ _ _ Hk).
  split; intros H.
  - apply (Qplus_lt_l _ _ (- current)). rewrite Qplus_opp_r. exact H.
  - apply (Qplus_lt_l _ _ (- current)) in H. rewrite Qplus_opp_r in H. exact H.
Qed.

(** The sign of a change percentage. *)
Lemma change_pct_sign (current previous : Q) :
  exists q, change_pct (Some current) (Some previous) = Return (Some q)
    /\ (0 < q <-> (0 < previous /\ previous < current)
                  \/ (previous < 0 /\ current < previous)).
Proof.
  destruct (Q_dec previous 0) as [[Hneg|Hpos]|Hzero].
  - eexists. split.
    { apply change_pct_nonzero. intros H. rewrite H in Hneg.
      apply (Qlt_irrefl 0). exact Hneg. }
    rewrite (change_negative_iff current previous Hneg). split.
    + intros H. right. split; assumption.
    + intros [[Hp _]|[_ H]]; [|exact H].
      exfalso. apply (Qlt_irrefl 0). apply (Qlt_trans _ previous); assumption.
  - eexists. split.
    { apply change_pct_nonzero. intros H. rewrite H in Hpos.
      apply (Qlt_irrefl 0). exact Hpos. }
    rewrite (change_positive_iff current previous Hpos). split.
    + intros H. left. split; assumption.
    + intros [[_ H]|[Hn _]]; [exact H|].
      exfalso. apply (Qlt_irrefl 0). apply (Qlt_trans _ previous); assumption.
  - exists 0. split; [apply change_pct_zero; exact Hzero|]. split.
    + intros H. exfalso. apply (Qlt_irrefl 0). exact H.
    + intros [[Hp _]|[Hn _]]; exfalso; rewrite Hzero in *;
        apply (Qlt_irrefl 0); assumption.
Qed.

(** X10. Next to a metric the home page shows the arrow-up icon, in red,
    exactly when the change percentage of the statement is positive, that
    is when the current value is above a positive previous value or below a
    negative one; otherwise, and so when the previous value is zero, it shows
    the arrow-down icon, in green, as it does when the previous value is
    missing. *)
Theorem change_icon_of_change_pct (current previous : Q) :
  (exists q, change_pct (Some current) (Some previous) = Return (Some q)
     /\ (Presentation.src (Presentation.get_change_icon q) = "/assets/icons/arrow_up.svg"
         /\ Presentation.change_colour q = "red"
         <-> (0 < previous /\ previous < current)
             \/ (previous < 0 /\ current < previous))
     /\ (Presentation.src (Presentation.get_change_icon q)
         = "/assets/icons/arrow_down.svg"
         /\ Presentation.change_colour q = "green"
         <-> ~ ((0 < previous /\ previous < current)
                \/ (previous < 0 /\ current < previous))))
  /\ (exists q, change_pct (Some current) None = Return (Some q)
        /\ Presentation.src (Presentation.get_change_icon q)
           = "/assets/icons/arrow_down.svg"
        /\ Presentation.change_colour q = "green").
Proof.
  split.
  - destruct (change_pct_sign current previous) as [q [Hq Hsign]].
    exists q. split; [exact Hq|].
    rewrite <- Hsign, <- positive_iff.
    unfold Presentation.get_change_icon, Presentation.change_colour.
    destruct (Presentation.positive q); simpl; split; split;
      try (intros [H1 H2]); try intros H; try split;
      try reflexivity; try discriminate; try congruence.
  - exists 0. split; [apply change_pct_absent|]. split; reflexivity.
Qed.

End SqlExtras.

(** ** The role breakdown *)

Module RoleFacts.

Import RoleBreakdown.

Local Open Scope Q_scope.

(** Three roles of equal count: each gets the float8 nearest to a third,
    times 100, and not a third of 100. *)
Example three_equal_roles :
  outcome_map (map (fun s => option_map Qred (percentage_of_total s)))
    (select_data_role
       [mkRole "Data Analyst" 1 "2024-05-06"; mkRole "Data Engineer" 1 "2024-05-06";
        mkRole "Data Scientist" 1 "2024-05-06"] "2024-05-06")
  = Return [Some (2345624805922133 # 70368744177664);
            Some (2345624805922133 # 70368744177664);
            Some (2345624805922133 # 70368744177664)].
Proof. vm_compute. reflexivity. Qed.

(** Counts 30 and 70 at one marker. *)
Example role_percentages_30_70 :
  outcome_map (map (fun s => option_map Qred (percentage_of_total s)))
    (select_data_role Examples2.role_table "2024-05-06")
  = Return [Some 30; Some 70].
Proof. vm_compute. reflexivity. Qed.

(** X12. When the requested marker has role rows and their counts sum to
    zero, the statement aborts with a division by zero - its divisor has no
    NULLIF guard - and [fetch_data_role], answered by that statement, returns
    the empty frame. *)
Theorem role_breakdown_lost_on_zero_total
    (db : database) (table : list role_row) (requested : string) (st : state) :
  of_marker requested table <> [] ->
  fold_right Z.add 0%Z (map count (of_marker requested table)) = 0%Z ->
  rows_of db (SelectDataRole (MStr requested))
  = outcome_map (map share_tuple) (select_data_role table requested) ->
  select_data_role table requested = Raise DatabaseError
  /\ fst (FetchReportData.fetch_data_role db (MStr requested) st) = Return [].
Proof.
  intros Hrows Hzero Hdb.
  assert (Hfail : select_data_role table requested = Raise DatabaseError).
  { unfold select_data_role. destruct (of_marker requested table) as [|r rs] eqn:E;
      [contradiction Hrows; reflexivity|].
    unfold SUM. cbn [map] in *. rewrite Hzero. reflexivity. }
  split; [exact Hfail|].
  rewrite Hfail in Hdb. simpl in Hdb.
  destruct (FetchFacts.fetch_data_role_contract db (MStr requested) st) as [_ [_ Hf]].
  destruct (Hf DatabaseError Hdb) as [st' [Hrun _]]. rewrite Hrun. reflexivity.
Qed.

Lemma role_breakdown_lost_on_zero_total_witness :
  select_data_role Examples2.role_table "2024-04-29" = Raise DatabaseError
  /\ fst (FetchReportData.fetch_data_role Examples2.db_roles (MStr "2024-04-29")
            Examples.open_state)
     = Return [].
Proof.
  apply (role_breakdown_lost_on_zero_total Examples2.db_roles Examples2.role_table
           "2024-04-29" Examples.open_state).
  - vm_compute. discriminate.
  - vm_compute. reflexivity.
  - reflexivity.
Defined.

End RoleFacts.

(** ** The extraction helpers *)

Module ExtractFacts.

Import Extractors.

(** X13. [extract_tools_ranker] returns the names and percentages of the
    first three rows, in order, exactly when the frame has at least three
    rows; on a frame of one or two rows it raises [IndexError], and on the
    empty frame of the layer, which has no column, [KeyError]. *)
Theorem tools_ranker_bounds (data_tools : DataFrame) :
  (data_tools = [] -> extract_tools_ranker data_tools = Fail (KeyError "tool_name"))
  /\ ((1 <= List.length data_tools < 3)%nat ->
      extract_tools_ranker data_tools = Fail (Builtin IndexError))
  /\ (forall r1 r2 r3 rest,
        data_tools = r1 :: r2 :: r3 :: rest ->
        extract_tools_ranker data_tools
        = Value (mkToolsRanker (tool_name_of r1) (percentage_of r1)
                   (tool_name_of r2) (percentage_of r2)
                   (tool_name_of r3) (percentage_of r3))).
Proof.
  split; [intros ->; reflexivity|]. split.
  - intros [Hlo Hhi].
    destruct data_tools as [|r1 [|r2 [|r3 rest]]]; simpl in *; try lia; reflexivity.
  - intros r1 r2 r3 rest ->. reflexivity.
Qed.

Lemma tools_ranker_bounds_witness :
  extract_tools_ranker Examples.tool_rows = Fail (Builtin IndexError).
Proof.
  apply (proj1 (proj2 (tools_ranker_bounds Examples.tool_rows))). simpl. lia.
Defined.

(** X14. [extract_company_ranker] returns the names and opening counts of
    the first five rows, in order, exactly when the ranking has at least
    five rows; on a shorter ranking it raises [IndexError], and on the empty
    frame [KeyError]. *)
Theorem company_ranker_bounds (openings_company : DataFrame) :
  (openings_company = [] ->
   extract_company_ranker openings_company = Fail (KeyError "company_name"))
  /\ ((1 <= List.length openings_company < 5)%nat ->
      extract_company_ranker openings_company = Fail (Builtin IndexError))
  /\ (forall r1 r2 r3 r4 r5 rest,
        openings_company = r1 :: r2 :: r3 :: r4 :: r5 :: rest ->
        extract_company_ranker openings_company
        = Value (mkCompanyRanker (company_name_of r1) (openings_of r1)
                   (company_name_of r2) (openings_of r2)
                   (company_name_of r3) (openings_of r3)
                   (company_name_of r4) (openings_of r4)
                   (company_name_of r5) (openings_of r5))).
Proof.
  split; [intros ->; reflexivity|]. split.
  - intros [Hlo Hhi].
    destruct openings_company as [|r1 [|r2 [|r3 [|r4 [|r5 rest]]]]]; simpl in *;
      try lia; reflexivity.
  - intros r1 r2 r3 r4 r5 rest ->. reflexivity.
Qed.

Lemma company_ranker_bounds_witness :
  extract_company_ranker
    [mkRow [CInt 1; CStr "Acme"; CInt 12] Examples.requested;
     mkRow [CInt 2; CStr "Bar Inc"; CInt 9] Examples.requested;
     mkRow [CInt 3; CStr "PlainName"; CInt 7] Examples.requested]
  = Fail (Builtin IndexError).
Proof.
  apply (proj1 (proj2 (company_ranker_bounds _))). simpl. lia.
Defined.

Lemma statistics_of_frame (openings_statistics : DataFrame) :
  extract_openings_statistics openings_statistics
  = match openings_statistics with
    | [] => Fail (KeyError "total_openings")
    | r :: _ => Value (statistics_of_row r)
    end.
Proof. destruct openings_statistics; reflexivity. Qed.

Lemma openings_statistics_passes_empty (pd : pandas) (db : database) (crawl_date : marker) :
  passes_empty_on (rows_of db (SelectOpeningsStatistics crawl_date))
    (HomePages.fetch_openings_statistics_for_dashboard pd db crawl_date).
Proof.
  intros st Hans.
  destruct (FetchFacts.fetch_openings_statistics_metrics_contract db crawl_date st)
    as [_ [Hempty Hfail]].
  assert (Hf : empty_with_log
                 (FetchReportData.fetch_openings_statistics_metrics db crawl_date) st).
  { destruct Hans as [Hans|[e Hans]]; [apply Hempty|apply (Hfail e)]; exact Hans. }
  destruct Hf as [st1 [Hf _]].
  unfold HomePages.fetch_openings_statistics_for_dashboard, bind. rewrite Hf.
  cbn [empty negb]. do 2 eexists. reflexivity.
Qed.

(** The first local of the page load is the empty frame when the
    statistics statement yields nothing. *)
Lemma first_local_of_metrics (pd : pandas) (db : database) (crawl_date : marker)
    (st st' : state) (vars : HomePages.locals) :
  fetch_all_metrics pd db crawl_date st = (Return vars, st') ->
  (rows_of db (SelectOpeningsStatistics crawl_date) = Return []
   \/ exists e, rows_of db (SelectOpeningsStatistics crawl_date) = Raise e) ->
  HomePages.openings_statistics vars = Some [].
Proof.
  intros H Hans.
  destruct (openings_statistics_passes_empty pd db crawl_date
              (mkState (log st ++ [(INFO, "Fetching data for the date")])
                       (connection_open st) (issued st)) Hans) as [s1 [msg Hw]].
  unfold fetch_all_metrics in H. unfold bind at 1 in H. unfold logger at 1 in H.
  unfold bind at 1 in H. rewrite Hw in H.
  unfold bind, ret in H.
  repeat match type of H with
    | context [match ?w ?s with (_, _) => _ end] =>
        destruct (w s) as [[?|?] ?]; [|discriminate H]
    end.
  injection H as <- _. reflexivity.
Qed.

(** X15. [extract_openings_statistics] needs a row: on the empty frame of
    the layer it raises [KeyError].  So whenever the statistics statement
    yields no tuple or fails, a page load that returns its six frames is
    followed, in [page_content], by a [KeyError] and not by a page without
    statistics. *)
Theorem page_content_needs_statistics
    (pd : pandas) (db : database) (st st' : state) (frames : HomePages.home_page_data) :
  HomePages.load_home_page_data pd db st = (Return frames, st') ->
  (forall d, rows_of db (SelectOpeningsStatistics d) = Return []
             \/ exists e, rows_of db (SelectOpeningsStatistics d) = Raise e) ->
  page_content_statistics pd db st = (Fail (KeyError "total_openings"), st').
Proof.
  intros Hload Hstat.
  unfold page_content_statistics. rewrite Hload.
  destruct frames as [[[[[a b] c] d] e] f].
  rewrite statistics_of_frame.
  assert (Ha : a = []); [|rewrite Ha; reflexivity].
  destruct (reachable db) eqn:Hr.
  2:{ unfold HomePages.load_home_page_data, bind, FetchReportData.init in Hload.
      rewrite Hr in Hload. discriminate Hload. }
  destruct (PageLoadFacts.get_newest_crawl_date_returns db (connected st))
    as [n [st1 [Hn _]]].
  destruct (HomePages.truthy n) eqn:Ht.
  2:{ rewrite (PageLoadFacts.load_without_marker pd db st st1 n Hr Hn Ht) in Hload.
      discriminate Hload. }
  destruct n as [crawl_date|]; [|discriminate Ht].
  rewrite (LayerExtras.load_with_marker pd db st st1 crawl_date Hr Hn Ht) in Hload.
  destruct (fetch_all_metrics pd db crawl_date st1) as [[vars|e0] st2] eqn:E;
    [|discriminate Hload].
  pose proof (first_local_of_metrics pd db crawl_date st1 st2 vars E (Hstat crawl_date))
    as Hfirst.
  destruct (LayerExtras.fetch_all_metrics_assigns pd db crawl_date st1 st2 vars E)
    as [a' [b' [c' [d' [e' [f' ->]]]]]].
  simpl in Hfirst. injection Hfirst as ->.
  unfold bind, FetchReportData.close, logger, HomePages.read, ret in Hload.
  simpl in Hload. injection Hload as <- _ _ _ _ _ _. reflexivity.
Qed.

Lemma page_content_needs_statistics_witness :
  page_content_statistics PandasModel.model Examples.db_two_days initial_state
  = (Fail (KeyError "total_openings"),
     snd (HomePages.load_home_page_data PandasModel.model Examples.db_two_days
            initial_state)).
Proof.
  apply (page_content_needs_statistics PandasModel.model Examples.db_two_days
           initial_state _
           ([], [], [],
            [mkRow [CInt 1; CStr "Programming"; CStr "Python"; CNum 60]
                   (MDate (mkDate 2024 5 6))],
            [], [])).
  - vm_compute. reflexivity.
  - intros d. left. reflexivity.
Defined.

End ExtractFacts.

(** ** The title dates of the role pie chart *)

Module PieTitleFacts.

Import PieTitle.

Lemma weekday_range (d : Z) : 0 <= weekday d < 7.
Proof. unfold weekday. apply Z.mod_pos_bound. lia. Qed.

Lemma weekday_shift (d k : Z) : weekday (d + 7 * k) = weekday d.
Proof.
  unfold weekday. replace (d + 7 * k + 6) with (d + 6 + k * 7) by lia.
  apply Z.mod_add. lia.
Qed.

Lemma weekday_zero_step (d x : Z) :
  weekday d = 0 -> weekday x = 0 -> d < x -> d + 7 <= x.
Proof.
  unfold weekday. intros Hd Hx Hlt.
  pose proof (Z.div_mod (d + 6) 7 ltac:(lia)) as Ed.
  pose proof (Z.div_mod (x + 6) 7 ltac:(lia)) as Ex.
  rewrite Hd in Ed. rewrite Hx in Ex. lia.
Qed.

(** X16. For a [crawl_date] up to 9999-12-26 the end date of the pie
    chart's title is the first Monday strictly after [crawl_date]: it is a
    Monday, it lies 1 to 7 days after [crawl_date], no day in between is a
    Monday, and it is a full week later when [crawl_date] is itself a
    Monday.  For the five last dates there are the addition raises
    [OverflowError]. *)
Theorem next_monday_is_the_following_monday (crawl_date : Z) :
  1 <= crawl_date <= max_ordinal ->
  (crawl_date <= max_ordinal - 5 ->
   exists monday,
     next_monday crawl_date = Date monday
     /\ weekday monday = 0
     /\ crawl_date < monday <= crawl_date + 7
     /\ (forall day, crawl_date < day < monday -> weekday day <> 0)
     /\ (weekday crawl_date = 0 -> monday = crawl_date + 7))
  /\ (max_ordinal - 5 < crawl_date -> next_monday crawl_date = OverflowError).
Proof.
  intros Hdate.
  pose proof (weekday_range crawl_date) as Hr.
  pose proof (Z.div_mod (crawl_date + 6) 7 ltac:(lia)) as E.
  fold (weekday crawl_date) in E.
  unfold max_ordinal in *.
  split.
  - intros Hearly.
    set (monday := crawl_date + (7 - weekday crawl_date)).
    assert (Hmon : weekday monday = 0).
    { unfold monday. unfold weekday at 1.
      replace (crawl_date + (7 - weekday crawl_date) + 6)
        with (((crawl_date + 6) / 7 + 1) * 7) by lia.
      apply Z.mod_mul. lia. }
    exists monday. split.
    { unfold next_monday, add_days. fold monday.
      assert (H1 : (1 <=? monday) = true) by (apply Z.leb_le; unfold monday; lia).
      assert (H2 : (monday <=? max_ordinal) = true).
      { apply Z.leb_le. unfold monday, max_ordinal. lia. }
      rewrite H1, H2. reflexivity. }
    split; [exact Hmon|]. split; [unfold monday; lia|]. split.
    + intros day [Hlo Hhi] Hday.
      assert (Hprev : weekday (monday + 7 * (-1)) = 0)
        by (rewrite weekday_shift; exact Hmon).
      destruct (Z_lt_le_dec (monday - 7) day) as [Hlt|Hge].
      * pose proof (weekday_zero_step (monday + 7 * (-1)) day Hprev Hday ltac:(lia)).
        lia.
      * unfold monday in *. lia.
    + intros H0. unfold monday. rewrite H0. lia.
  - intros Hlate. unfold next_monday, add_days.
    assert (H2 : (crawl_date + (7 - weekday crawl_date) <=? max_ordinal) = false).
    { apply Z.leb_gt. unfold max_ordinal. lia. }
    rewrite H2, andb_false_r. reflexivity.
Qed.

Lemma next_monday_is_the_following_monday_witness :
  (exists monday,
     next_monday 739014 = Date monday
     /\ weekday monday = 0
     /\ 739014 < monday <= 739014 + 7
     /\ (forall day, 739014 < day < monday -> weekday day <> 0)
     /\ (weekday 739014 = 0 -> monday = 739014 + 7))
  /\ next_monday 3652057 = OverflowError.
Proof.
  split.
  - apply (proj1 (next_monday_is_the_following_monday 739014
                    ltac:(unfold max_ordinal; lia))).
    unfold max_ordinal. lia.
  - apply (proj2 (next_monday_is_the_following_monday 3652057
                    ltac:(unfold max_ordinal; lia))).
    unfold max_ordinal. lia.
Defined.

(** Wednesday 2024-05-08 gives Monday 2024-05-13, and Monday 2024-05-06
    the Monday after. *)
Example next_monday_of_a_wednesday :
  next_monday 739014 = Date 739019 /\ next_monday 739012 = Date 739019.
Proof. split; reflexivity. Qed.

End PieTitleFacts.

(** ** The file [read_json_to_df] reads *)

Module EtlFacts.

Import Etl.

Lemma endswith_iff (suffix s : string) :
  endswith suffix s = true <-> exists stem, s = (stem ++ suffix)%string.
Proof.
  induction s as [|a r IH]; cbn [endswith].
  - destruct (String.eqb_spec EmptyString suffix) as [<-|Hne].
    + split; [intros _; exists EmptyString; reflexivity|reflexivity].
    + split; [intros H; discriminate H|]. intros [stem H]. exfalso. apply Hne.
      destruct stem; simpl in H; [exact H|discriminate H].
  - destruct (String.eqb_spec (String a r) suffix) as [<-|Hne].
    + split; [intros _; exists EmptyString; reflexivity|reflexivity].
    + rewrite IH. split.
      * intros [stem ->]. exists (String a stem). reflexivity.
      * intros [stem H]. destruct stem as [|b stem]; simpl in H.
        -- exfalso. apply Hne. exact H.
        -- injection H as _ ->. exists stem. reflexivity.
Qed.

Lemma name_desc_total (a b : string) : String.leb b a = true \/ String.leb a b = true.
Proof. apply String.leb_total. Qed.

Lemma name_desc_trans (a b c : string) :
  String.leb b a = true -> String.leb c b = true -> String.leb c a = true.
Proof. intros H1 H2. eapply StringOrder.leb_trans; eauto. Qed.

(** X17. [read_json_to_df] reads the JSON file whose name is greatest in
    string order: the name it picks is a name of the directory that ends
    in [.json], and no other such name of the directory exceeds it.  It gives
    up (returning [(None, None)]) exactly when no name of the directory ends
    in [.json]. *)
Theorem latest_json_file_is_greatest (files : list string) :
  match latest_json_file files with
  | Some latest =>
      In latest files
      /\ (exists stem, latest = (stem ++ ".json")%string)
      /\ forall f, In f files -> endswith ".json" f = true -> String.leb f latest = true
  | None => forall f, In f files -> endswith ".json" f = false
  end.
Proof.
  unfold latest_json_file.
  pose proof (sort_by_sorted (fun a b => String.leb b a) name_desc_total name_desc_trans
                (json_files files)) as Hsorted.
  pose proof (sort_by_in (fun a b => String.leb b a) (json_files files)) as Hin.
  destruct (sort_by (fun a b => String.leb b a) (json_files files)) as [|latest rest].
  - intros f Hf. destruct (endswith ".json" f) eqn:E; [|reflexivity].
    exfalso. apply (Hin f). unfold json_files. apply filter_In. split; assumption.
  - assert (Hl : In latest (json_files files)) by (apply Hin; left; reflexivity).
    unfold json_files in Hl. apply filter_In in Hl. destruct Hl as [Hl1 Hl2].
    split; [exact Hl1|]. split; [apply endswith_iff; exact Hl2|].
    intros f Hf Hjson.
    assert (Hfs : In f (latest :: rest)).
    { apply Hin. unfold json_files. apply filter_In. split; assumption. }
    destruct Hfs as [<-|Hfs]; [apply StringOrder.leb_refl|].
    apply StronglySorted_inv in Hsorted. destruct Hsorted as [_ Hall].
    rewrite Forall_forall in Hall. apply Hall. exact Hfs.
Qed.

(** A dated file wins over older ones and over files that are not JSON. *)
Example latest_of_directory :
  latest_json_file
    ["jobs_2024-04-29.json"; "notes.txt"; "jobs_2024-05-06.json"; "jobs_2024-05-13.csv"]
  = Some "jobs_2024-05-06.json".
Proof. vm_compute. reflexivity. Qed.

End EtlFacts.

(** ** Colours and annotations of the tool-trend charts *)

Module ChartStyleFacts.

Import CreateReportChart GroupFacts ChartFacts ChartStyle.

Lemma combine_covers {A B : Type} (l : list A) (l' : list B) (a : A) :
  In a l -> (List.length l <= List.length l')%nat ->
  exists b, In (a, b) (combine l l') /\ In b l'.
Proof.
  revert l'. induction l as [|x r IH]; intros l' Hin Hlen; [destruct Hin|].
  destruct l' as [|y r']; simpl in Hlen; [lia|].
  destruct Hin as [<-|Hin].
  - exists y. split; left; reflexivity.
  - destruct (IH r' Hin ltac:(lia)) as [b [Hb Hb']].
    exists b. split; right; assumption.
Qed.

Section Colours.

Variable sort_values_descending : list (string * Z) -> list (string * Z).
Hypothesis sort_is_permutation :
  forall totals, Permutation (sort_values_descending totals) totals.

Lemma tool_order_spec (filtered_data : list ((string * string) * Z)) :
  NoDup (tool_order sort_values_descending filtered_data)
  /\ forall t, In t (tool_order sort_values_descending filtered_data)
               <-> In t (map (fun g => fst (fst g)) filtered_data).
Proof.
  unfold tool_order.
  set (totals := groupby_sum String.eqb String.leb
                   (map (fun g => (fst (fst g), snd g)) filtered_data)).
  pose proof (Permutation_map fst (sort_is_permutation totals)) as Hperm.
  split.
  - eapply Permutation_NoDup; [symmetry; exact Hperm|].
    apply (groupby_sum_NoDup String.eqb String.leb String.eqb_eq).
  - intros t. split; intros H.
    + apply (Permutation_in _ Hperm) in H.
      apply (proj1 (groupby_sum_keys String.eqb String.leb String.eqb_eq _ t)) in H.
      rewrite map_map in H. exact H.
    + apply (Permutation_in _ (Permutation_sym Hperm)).
      apply (proj2 (groupby_sum_keys String.eqb String.leb String.eqb_eq _ t)).
      rewrite map_map. exact H.
Qed.

(** X18. Every tool of the frame the line chart plots has a colour in
    [tool_colors], taken from the ten colours of [color_sequence]: the
    reduction keeps at most ten tools, so the [zip] with the colours leaves
    no tool out. *)
Theorem every_plotted_tool_has_a_colour (tool_by_data_role : list tool_row)
    (selected_datarole selected_category : string) (t d : string) (c : Z) :
  In ((t, d), c)
     (create_tool_trends_line_chart tool_by_data_role selected_datarole selected_category) ->
  exists colour,
    In (t, colour)
       (tool_colors sort_values_descending
          (create_tool_trends_line_chart tool_by_data_role selected_datarole
             selected_category))
    /\ In colour color_sequence.
Proof.
  intros Hin. rewrite line_chart_selected in *.
  set (rows := filter (selected selected_datarole selected_category) tool_by_data_role)
    in *.
  destruct (keep_top_tools_spec rows) as [kept [Hnd [Hlen [_ [_ [_ Hrows]]]]]].
  destruct (tool_order_spec (keep_top_tools rows)) as [Hond Hoin].
  unfold tool_colors. apply combine_covers.
  - apply Hoin. apply in_map_iff. exists ((t, d), c). split; [reflexivity|exact Hin].
  - transitivity (List.length kept).
    + apply NoDup_incl_length; [exact Hond|].
      intros u Hu. apply Hoin in Hu. apply in_map_iff in Hu.
      destruct Hu as [[[u' d'] c'] [Heq Hu]]. simpl in Heq. subst u'.
      apply Hrows in Hu. apply Hu.
    + rewrite Hlen. change (List.length color_sequence) with 10%nat.
      apply Nat.le_min_l.
Qed.

End Colours.

Lemma every_plotted_tool_has_a_colour_witness :
  exists colour,
    In ("T12", colour)
       (tool_colors (sort_by (fun a b => Z.leb (snd b) (snd a)))
          (create_tool_trends_line_chart Examples.twelve_tools "All" "All"))
    /\ In colour color_sequence.
Proof.
  apply (every_plotted_tool_has_a_colour (sort_by (fun a b => Z.leb (snd b) (snd a)))
           (sort_by_perm _) Examples.twelve_tools "All" "All" "T12" "2024-05-06" 12).
  vm_compute. tauto.
Defined.

(** The colours of the twelve-tool frame: the darkest for the largest
    total, the last three tools sharing one colour. *)
Example colours_of_twelve_tools :
  tool_colors (sort_by (fun a b => Z.leb (snd b) (snd a)))
    (create_tool_trends_line_chart Examples.twelve_tools "All" "All")
  = [("T12", "#2E2E48"); ("T11", "#42425F"); ("T10", "#565778"); ("T09", "#6C6E91");
     ("T08", "#8285AC"); ("T07", "#989CC7"); ("T06", "#AFB5E3"); ("T05", "#C7CEFF");
     ("T04", "#C7CEFF"); ("T03", "#C7CEFF")].
Proof. vm_compute. reflexivity. Qed.

End ChartStyleFacts.

(** ** The annotations of the bar chart *)

Module AnnotationFacts.

Import CreateReportChart GroupFacts ChartFacts ChartStyle.

Lemma bar_filtered_data_selected (rows : list tool_row) (role cat : string) :
  bar_filtered_data rows role cat = filter (selected role cat) rows.
Proof.
  unfold bar_filtered_data, selected.
  destruct (String.eqb role "All"), (String.eqb cat "All"); simpl;
    first [ symmetry; apply filter_all
          | apply filter_ext; intros r; rewrite ?andb_true_r; reflexivity ].
Qed.

(** *** The extreme of a series *)

Section Extreme.

Variable pick : Z -> Z -> Z.
Variable beats : Z -> Z -> Prop.
Hypothesis pick_choice : forall a b, pick a b = a \/ pick a b = b.
Hypothesis pick_left : forall a b, beats (pick a b) a.
Hypothesis pick_right : forall a b, beats (pick a b) b.
Hypothesis beats_trans : forall a b c, beats a b -> beats b c -> beats a c.

Lemma fold_pick (r : list (string * Z)) (c : Z) :
  let m := fold_left (fun m kv => pick m (snd kv)) r c in
  beats m c
  /\ (forall kv, In kv r -> beats m (snd kv))
  /\ (m = c \/ exists kv, In kv r /\ snd kv = m).
Proof.
  revert c. induction r as [|[k v] r IH]; intros c; simpl.
  - split; [|split].
    + destruct (pick_choice c c) as [E|E]; rewrite <- E at 1; apply pick_left.
    + intros kv [].
    + left. reflexivity.
  - destruct (IH (pick c v)) as [Hc [Hr Hm]]. split; [|split].
    + eapply beats_trans; [exact Hc|apply pick_left].
    + intros kv [<-|Hin]; [|apply Hr; exact Hin].
      simpl. eapply beats_trans; [exact Hc|apply pick_right].
    + destruct Hm as [Hm|[kv [Hin Hm]]].
      * destruct (pick_choice c v) as [E|E]; rewrite E in Hm |- *.
        -- left. exact Hm.
        -- right. exists (k, v). split; [left; reflexivity|symmetry; exact Hm].
      * right. exists kv. split; [right; exact Hin|exact Hm].
Qed.

Lemma series_extreme_spec (counts : list (string * Z)) :
  counts <> [] ->
  exists m, series_extreme pick counts = Some m
            /\ (forall kv, In kv counts -> beats m (snd kv))
            /\ exists kv, In kv counts /\ snd kv = m.
Proof.
  destruct counts as [|[k c] r]; [congruence|]. intros _.
  destruct (fold_pick r c) as [Hc [Hr Hm]].
  exists (fold_left (fun m kv => pick m (snd kv)) r c). split; [reflexivity|]. split.
  - intros kv [<-|Hin]; [exact Hc|apply Hr; exact Hin].
  - destruct Hm as [Hm|[kv [Hin Hm]]].
    + exists (k, c). split; [left; reflexivity|symmetry; exact Hm].
    + exists kv. split; [right; exact Hin|exact Hm].
Qed.

Lemma roles_at_extreme (counts : list (string * Z)) :
  counts <> [] ->
  roles_at (series_extreme pick counts) counts <> []
  /\ forall role, In role (roles_at (series_extreme pick counts) counts) ->
       exists v, In (role, v) counts
                 /\ forall kv, In kv counts -> beats v (snd kv).
Proof.
  intros Hne. destruct (series_extreme_spec counts Hne) as [m [-> [Hall [kv [Hin Hkv]]]]].
  unfold roles_at. split.
  - intros Hnil.
    assert (Hk : In (fst kv) (map fst (filter (fun kv => Z.eqb (snd kv) m) counts))).
    { apply in_map. apply filter_In. split; [exact Hin|]. apply Z.eqb_eq. exact Hkv. }
    rewrite Hnil in Hk. destruct Hk.
  - intros role Hrole. apply in_map_iff in Hrole.
    destruct Hrole as [[k v] [Hk Hf]]. simpl in Hk. subst k.
    apply filter_In in Hf. destruct Hf as [Hf Hv]. simpl in Hv.
    apply Z.eqb_eq in Hv. subst v. exists m. split; assumption.
Qed.

End Extreme.

(** *** The roles counted for a tool *)

Lemma roles_count_value (filtered_data : list tool_row) (tool role : string) (v : Z) :
  In (role, v) (roles_count filtered_data tool) ->
  v = role_total role tool filtered_data.
Proof.
  intros Hin. unfold roles_count in Hin.
  rewrite (groupby_sum_value String.eqb String.leb String.eqb_eq _ _ _ Hin).
  rewrite (sum_where_map (fun k' => String.eqb k' role) data_role count).
  reflexivity.
Qed.

Lemma roles_count_keys (filtered_data : list tool_row) (tool role : string) :
  In role (map fst (roles_count filtered_data tool))
  <-> exists r, In r filtered_data /\ tool_name r = tool /\ data_role r = role.
Proof.
  unfold roles_count.
  rewrite (groupby_sum_keys String.eqb String.leb String.eqb_eq).
  rewrite map_map. simpl. rewrite in_map_iff. split.
  - intros [r [Hrole Hin]]. apply filter_In in Hin. destruct Hin as [Hin Ht].
    apply String.eqb_eq in Ht. exists r. auto.
  - intros [r [Hin [Ht Hrole]]]. exists r. split; [exact Hrole|].
    apply filter_In. split; [exact Hin|]. apply String.eqb_eq. exact Ht.
Qed.

Lemma roles_count_present (filtered_data : list tool_row) (r : tool_row) :
  In r filtered_data ->
  In (data_role r, role_total (data_role r) (tool_name r) filtered_data)
     (roles_count filtered_data (tool_name r)).
Proof.
  intros Hin.
  assert (Hk : In (data_role r) (map fst (roles_count filtered_data (tool_name r)))).
  { apply roles_count_keys. exists r. auto. }
  apply in_map_iff in Hk. destruct Hk as [[k v] [Hk Hkv]]. simpl in Hk. subst k.
  rewrite <- (roles_count_value _ _ _ _ Hkv). exact Hkv.
Qed.

(** The tool of an annotation has rows in the filtered frame. *)
Lemma annotation_tool (rows : list tool_row) (role cat : string) (a : annotation) :
  In a (annotations rows role cat) ->
  In (y a) (map tool_name (filter (selected role cat) rows))
  /\ most_popular a
     = most_popular_roles (roles_count (filter (selected role cat) rows) (y a))
  /\ least_popular a
     = least_popular_roles (roles_count (filter (selected role cat) rows) (y a)).
Proof.
  unfold annotations. rewrite in_map_iff. intros [[t c] [<- Hin]]. simpl.
  rewrite bar_filtered_data_selected. rewrite bar_chart_selected in Hin.
  destruct (largest_five_spec (filter (selected role cat) rows)) as [_ [_ [Hrows _]]].
  split; [apply (Hrows t c Hin)|]. split; reflexivity.
Qed.

(** X19. Each annotation of the bar chart names at least one most popular
    and one least popular role; a role named most popular has, for the
    tool of the annotation, a total no smaller than that of any role with
    rows for the tool in the filtered frame, and a role named least popular
    a total no larger.  The totals are the int64 sums the program
    compares. *)
Theorem annotations_name_the_extreme_roles (tool_by_data_role : list tool_row)
    (selected_datarole selected_category : string) (a : annotation) :
  int64_column tool_by_data_role = true ->
  In a (annotations tool_by_data_role selected_datarole selected_category) ->
  let filtered_data :=
    filter (selected selected_datarole selected_category) tool_by_data_role in
  most_popular a <> [] /\ least_popular a <> []
  /\ (forall role r, In role (most_popular a) ->
        In r filtered_data -> tool_name r = y a ->
        role_total (data_role r) (y a) filtered_data
        <= role_total role (y a) filtered_data)
  /\ (forall role r, In role (least_popular a) ->
        In r filtered_data -> tool_name r = y a ->
        role_total role (y a) filtered_data
        <= role_total (data_role r) (y a) filtered_data).
Proof.
  intros _ Ha filtered_data.
  destruct (annotation_tool _ _ _ _ Ha) as [Htool [-> ->]].
  fold filtered_data in Htool |- *.
  assert (Hne : roles_count filtered_data (y a) <> []).
  { apply in_map_iff in Htool. destruct Htool as [r [Ht Hin]].
    pose proof (roles_count_present filtered_data r Hin) as Hp.
    rewrite Ht in Hp. intros Hnil. rewrite Hnil in Hp. destruct Hp. }
  destruct (roles_at_extreme Z.max (fun m v => v <= m)
              ltac:(intros; cbv beta in *; lia) ltac:(intros; cbv beta in *; lia) ltac:(intros; cbv beta in *; lia)
              ltac:(intros; cbv beta in *; lia) _ Hne) as [Hmost_ne Hmost].
  destruct (roles_at_extreme Z.min (fun m v => m <= v)
              ltac:(intros; cbv beta in *; lia) ltac:(intros; cbv beta in *; lia) ltac:(intros; cbv beta in *; lia)
              ltac:(intros; cbv beta in *; lia) _ Hne) as [Hleast_ne Hleast].
  split; [exact Hmost_ne|]. split; [exact Hleast_ne|]. split.
  - intros role r Hrole Hin Ht. destruct (Hmost role Hrole) as [v [Hv Hall]].
    rewrite <- (roles_count_value _ _ _ _ Hv).
    pose proof (roles_count_present filtered_data r Hin) as Hp. rewrite Ht in Hp.
    apply (Hall _ Hp).
  - intros role r Hrole Hin Ht. destruct (Hleast role Hrole) as [v [Hv Hall]].
    rewrite <- (roles_count_value _ _ _ _ Hv).
    pose proof (roles_count_present filtered_data r Hin) as Hp. rewrite Ht in Hp.
    apply (Hall _ Hp).
Qed.

Lemma annotations_name_the_extreme_roles_witness :
  let a := mkAnnotation 3132 "T12" ["Data Engineer"] ["Data Analyst"] in
  let filtered_data := filter (selected "All" "All") Examples.twelve_tools in
  In a (annotations Examples.twelve_tools "All" "All")
  /\ most_popular a <> [] /\ least_popular a <> []
  /\ (forall role r, In role (most_popular a) ->
        In r filtered_data -> tool_name r = y a ->
        role_total (data_role r) (y a) filtered_data
        <= role_total role (y a) filtered_data)
  /\ (forall role r, In role (least_popular a) ->
        In r filtered_data -> tool_name r = y a ->
        role_total role (y a) filtered_data
        <= role_total (data_role r) (y a) filtered_data).
Proof.
  intros a filtered_data.
  assert (Hin : In a (annotations Examples.twelve_tools "All" "All")).
  { vm_compute. tauto. }
  split; [exact Hin|].
  exact (annotations_name_the_extreme_roles Examples.twelve_tools "All" "All" a
           eq_refl Hin).
Defined.

(** The grouping of rows of one key is one group. *)
Lemma one_role_one_group (keyed : list (string * Z)) (role : string) :
  keyed <> [] -> (forall kv, In kv keyed -> fst kv = role) ->
  exists v, groupby_sum String.eqb String.leb keyed = [(role, v)].
Proof.
  intros Hne Hall.
  pose proof (groupby_sum_NoDup String.eqb String.leb String.eqb_eq keyed) as Hnd.
  assert (Hkeys : forall k, In k (map fst (groupby_sum String.eqb String.leb keyed))
                            -> k = role).
  { intros k Hk.
    apply (proj1 (groupby_sum_keys String.eqb String.leb String.eqb_eq keyed k)) in Hk.
    apply in_map_iff in Hk. destruct Hk as [kv [<- Hin]]. apply Hall. exact Hin. }
  assert (Hin : In role (map fst (groupby_sum String.eqb String.leb keyed))).
  { apply (proj2 (groupby_sum_keys String.eqb String.leb String.eqb_eq keyed role)).
    destruct keyed as [|kv r]; [congruence|]. left. apply Hall. left. reflexivity. }
  destruct (groupby_sum String.eqb String.leb keyed) as [|[k v] [|[k' v'] rest]].
  - destruct Hin.
  - exists v. rewrite (Hkeys k) by (left; reflexivity). reflexivity.
  - exfalso. simpl in Hnd, Hkeys. inversion Hnd as [|? ? Hnotin _]. apply Hnotin.
    left. rewrite (Hkeys k), (Hkeys k'); auto.
Qed.

(** X20. With a data role selected, every annotation of the bar chart
    names that role, and only it, both as the most popular and as the least
    popular role of its tool: the frame the annotations read is the one
    already filtered by the role. *)
Theorem annotations_of_a_selected_role (tool_by_data_role : list tool_row)
    (selected_datarole selected_category : string) (a : annotation) :
  selected_datarole <> "All" ->
  In a (annotations tool_by_data_role selected_datarole selected_category) ->
  most_popular a = [selected_datarole] /\ least_popular a = [selected_datarole].
Proof.
  intros Hrole Ha.
  destruct (annotation_tool _ _ _ _ Ha) as [Htool [-> ->]].
  set (filtered_data := filter (selected selected_datarole selected_category)
                          tool_by_data_role) in *.
  destruct (one_role_one_group
              (map (fun r => (data_role r, count r))
                 (filter (fun r => String.eqb (tool_name r) (y a)) filtered_data))
              selected_datarole) as [v Hv].
  - apply in_map_iff in Htool. destruct Htool as [r [Ht Hin]].
    intros Hnil.
    assert (Hr : In r (filter (fun r => String.eqb (tool_name r) (y a)) filtered_data)).
    { apply filter_In. split; [exact Hin|]. apply String.eqb_eq. exact Ht. }
    apply (in_map (fun r => (data_role r, count r))) in Hr.
    rewrite Hnil in Hr. destruct Hr.
  - intros kv Hkv. apply in_map_iff in Hkv. destruct Hkv as [r [<- Hin]]. simpl.
    apply filter_In in Hin. destruct Hin as [Hin _].
    apply filter_In in Hin. destruct Hin as [_ Hsel].
    apply selected_spec in Hsel. destruct Hsel as [[Hall|Hsel] _]; [contradiction|].
    exact Hsel.
  - unfold most_popular_roles, least_popular_roles, roles_count. rewrite Hv.
    simpl. rewrite Z.eqb_refl. split; reflexivity.
Qed.

Lemma annotations_of_a_selected_role_witness :
  let a := mkAnnotation 3120 "T12" ["Data Engineer"] ["Data Engineer"] in
  In a (annotations Examples.twelve_tools "Data Engineer" "All")
  /\ most_popular a = ["Data Engineer"] /\ least_popular a = ["Data Engineer"].
Proof.
  assert (Hin : In (mkAnnotation 3120 "T12" ["Data Engineer"] ["Data Engineer"])
                   (annotations Examples.twelve_tools "Data Engineer" "All")).
  { vm_compute. tauto. }
  split; [exact Hin|].
  apply (annotations_of_a_selected_role Examples.twelve_tools "Data Engineer" "All");
    [discriminate|exact Hin].
Defined.

End AnnotationFacts.

(** ** The script's page load *)

Module ScriptFacts.

Import FetchReportData HomePages PageLoadFacts SessionFacts.

Lemma keeps_script_statistics (pd : pandas) (db : database) (d : marker) :
  keeps_session (DashboardApp.fetch_openings_statistics pd db d).
Proof. exact (keeps_openings_statistics_wrapper pd db d). Qed.

Lemma keeps_script_history (pd : pandas) (db : database) :
  keeps_session (DashboardApp.fetch_historical_total_openings pd db).
Proof. exact (keeps_historical_wrapper pd db). Qed.

(** X21. On a reachable warehouse the page load of the script
    [dashboard_app.py] ends with the connection closed exactly when it
    returns, an exception skipping the close; and it returns when no usable
    crawl date is found, the case in which the page load of
    [pages/home_pages.py] raises [UnboundLocalError]. *)
Theorem script_load_closes_exactly_when_it_returns
    (pd : pandas) (db : database) (st : state) :
  reachable db = true ->
  (connection_open (snd (DashboardApp.load_home_page_data pd db st)) = false
   <-> fst (DashboardApp.load_home_page_data pd db st) = Return tt)
  /\ (forall n st1,
        get_newest_crawl_date db (connected st) = (Return n, st1) ->
        truthy n = false ->
        fst (DashboardApp.load_home_page_data pd db st) = Return tt
        /\ fst (HomePages.load_home_page_data pd db st) = Raise UnboundLocalError).
Proof.
  intros Hr.
  assert (Hno : forall n st1,
             get_newest_crawl_date db (connected st) = (Return n, st1) ->
             truthy n = false ->
             DashboardApp.load_home_page_data pd db st
             = (Return tt,
                mkState (log st1 ++ [(INFO, "No newest crawl date available.");
                                     (INFO, "Database connection closed.")])
                        false (issued st1))).
  { intros n st1 Hn Ht. unfold DashboardApp.load_home_page_data, bind.
    rewrite (init_reachable db st Hr), Hn.
    destruct n as [crawl_date|]; [rewrite Ht|]; unfold logger, close, ret; simpl;
      rewrite <- app_assoc; reflexivity. }
  split.
  - destruct (get_newest_crawl_date db (connected st)) as [[n|e] st1] eqn:Hn.
    + pose proof (keeps_get_newest_crawl_date db _ _ _ Hn) as [Hc1 _].
      destruct (truthy n) eqn:Ht.
      * destruct n as [crawl_date|]; [|discriminate Ht].
        unfold DashboardApp.load_home_page_data, bind.
        rewrite (init_reachable db st Hr), Hn, Ht. unfold logger, close. cbv beta iota.
        destruct (DashboardApp.fetch_openings_statistics pd db crawl_date _)
          as [[a|e] st2] eqn:Ea.
        -- destruct (DashboardApp.fetch_historical_total_openings pd db st2)
             as [[b|e] st3] eqn:Eb.
           ++ simpl. split; intros _; reflexivity.
           ++ simpl. pose proof (keeps_script_statistics pd db _ _ _ _ Ea) as [Hc2 _].
              pose proof (keeps_script_history pd db _ _ _ Eb) as [Hc3 _].
              simpl in Hc2. rewrite Hc3, Hc2, Hc1. simpl.
              split; intros H; discriminate H.
        -- simpl. pose proof (keeps_script_statistics pd db _ _ _ _ Ea) as [Hc2 _].
           simpl in Hc2. rewrite Hc2, Hc1. simpl. split; intros H; discriminate H.
      * rewrite (Hno n st1 eq_refl Ht). simpl. split; intros _; reflexivity.
    + pose proof (keeps_get_newest_crawl_date db _ _ _ Hn) as [Hc1 _].
      unfold DashboardApp.load_home_page_data, bind.
      rewrite (init_reachable db st Hr), Hn. simpl. rewrite Hc1. simpl.
      split; intros H; discriminate H.
  - intros n st1 Hn Ht. split.
    + rewrite (Hno n st1 Hn Ht). reflexivity.
    + rewrite (load_without_marker pd db st st1 n Hr Hn Ht). reflexivity.
Qed.

Lemma script_load_closes_exactly_when_it_returns_witness :
  (connection_open
     (snd (DashboardApp.load_home_page_data PandasModel.model Examples.db_no_crawl
             initial_state)) = false
   <-> fst (DashboardApp.load_home_page_data PandasModel.model Examples.db_no_crawl
              initial_state) = Return tt)
  /\ (forall n st1,
        get_newest_crawl_date Examples.db_no_crawl (connected initial_state)
        = (Return n, st1) ->
        truthy n = false ->
        fst (DashboardApp.load_home_page_data PandasModel.model Examples.db_no_crawl
               initial_state) = Return tt
        /\ fst (HomePages.load_home_page_data PandasModel.model Examples.db_no_crawl
                  initial_state) = Raise UnboundLocalError).
Proof.
  apply (script_load_closes_exactly_when_it_returns PandasModel.model
           Examples.db_no_crawl initial_state).
  reflexivity.
Defined.

(** The script on a warehouse without crawl date: it returns, where the
    page raises. *)
Example script_load_of_empty_warehouse :
  fst (DashboardApp.load_home_page_data PandasModel.model Examples.db_no_crawl
         initial_state) = Return tt
  /\ fst (HomePages.load_home_page_data PandasModel.model Examples.db_no_crawl
            initial_state) = Raise UnboundLocalError.
Proof. vm_compute. split; reflexivity. Qed.

End ScriptFacts.
